(** * Pricing engine of the insurance stack: a shallow embedding and its properties

    The development follows [apps/pricing-engine]:
    - [models]      the request, quote and pricing-rule structs;
    - [repository]  the read-only accessors over the loaded pricing rules;
    - [features]    the dynamic-rates feature flag;
    - [services]    [validateRequest], [calculateDynamicMultiplier],
                    [calculateDiscount], [getLoyaltyDiscount], [CalculateQuote]
                    and [GetRates];
    - [handlers]    the HTTP handlers of POST /quote and GET /rates.

    Go's [float64] is modelled by Rocq's primitive binary64 floats (IEEE 754,
    round to nearest even), Go's [int] by [Z] (the code only compares and
    prints integers), a Go [map[string]T] by a [gmap string T], a nil pointer
    by [None].  What the code reads from outside (the clock, the UUID
    generator, the order in which [range] walks a map) is passed in
    explicitly, and so is what the compiler is free to choose: whether a
    statement [total += x * y] is one fused operation or a product and a sum.
    Logging is left out: it does not feed back into any computed value. *)

From Stdlib Require Import ZArith Lia Bool Ascii String Floats SpecFloat.
From stdpp Require Import gmap strings list fin_maps pretty.

Local Open Scope Z_scope.
Set Warnings "-inexact-float".

(** ** float64 *)

Module Float64.

Definition zero : float := 0%float.
Definition one : float := 1%float.

(** Go's [a > b] on float64. *)
Definition gt (a b : float) : bool := (b <? a)%float.

(** The fused multiply-add of IEEE 754, [x * y + z] rounded once, on decoded
    values: an invalid product (zero by infinity) or sum (infinities of
    opposite sign) is NaN, an exact zero sum of values of opposite sign is
    +0, anything else is the exact value of [x * y + z], rounded. *)
Definition SFfma (x y z : spec_float) : spec_float :=
  match x, y with
  | S754_nan, _ | _, S754_nan => S754_nan
  | S754_infinity _, S754_zero _ | S754_zero _, S754_infinity _ => S754_nan
  | S754_infinity sx, S754_infinity sy
  | S754_infinity sx, S754_finite sy _ _
  | S754_finite sx _ _, S754_infinity sy =>
      match z with
      | S754_nan => S754_nan
      | S754_infinity sz => if Bool.eqb (xorb sx sy) sz then z else S754_nan
      | S754_zero _ | S754_finite _ _ _ => S754_infinity (xorb sx sy)
      end
  | S754_zero sx, S754_zero sy
  | S754_zero sx, S754_finite sy _ _
  | S754_finite sx _ _, S754_zero sy =>
      SF64add (S754_zero (xorb sx sy)) z
  | S754_finite sx mx ex, S754_finite sy my ey =>
      match z with
      | S754_nan => S754_nan
      | S754_infinity _ => z
      | S754_zero _ => binary_round prec emax (xorb sx sy) (mx * my) (ex + ey)
      | S754_finite sz mz ez =>
          let e := Z.min (ex + ey) ez in
          binary_normalize prec emax
            (cond_Zopp (xorb sx sy) (Zpos (fst (shl_align (mx * my) (ex + ey) e)))
             + cond_Zopp sz (Zpos (fst (shl_align mz ez e))))
            e false
      end
  end.

(** The fused operation on float64 (FMADD on arm64, VFMADD231SD on amd64). *)
Definition fma (x y z : float) : float :=
  SF2Prim (SFfma (Prim2SF x) (Prim2SF y) (Prim2SF z)).

End Float64.

Local Open Scope string_scope.
Local Open Scope Z_scope.

(** ** Errors and results

    The Go code builds its errors with [fmt.Errorf]; the constructors keep
    which call site made the error, [Error] renders the message. *)

Inductive error : Type :=
| ErrInvalidPolicyType (policyType : string)
| ErrCoverageAmount
| ErrCustomerAge
| ErrRiskScore
| ErrRulesNotLoaded
| ErrPolicyTypeNotFound (policyType : string)
| ErrWrap (context : string) (cause : error).

Fixpoint Error (e : error) : string :=
  match e with
  | ErrInvalidPolicyType pt =>
      "invalid policy type: " ++ pt ++ " (must be auto, home, or life)"
  | ErrCoverageAmount => "coverage amount must be greater than 0"
  | ErrCustomerAge => "customer age must be between 18 and 120"
  | ErrRiskScore => "risk score must be between 1 and 5"
  | ErrRulesNotLoaded => "pricing rules not loaded"
  | ErrPolicyTypeNotFound pt => "policy type " ++ pt ++ " not found"
  | ErrWrap ctx cause => ctx ++ ": " ++ Error cause
  end.

(** A Go pair [(T, error)] of which exactly one side is meaningful. *)
Inductive result (A : Type) : Type :=
| Ok (a : A)
| Err (e : error).
Arguments Ok {A} a.
Arguments Err {A} e.

Definition is_ok {A} (r : result A) : bool :=
  match r with Ok _ => true | Err _ => false end.

(** The errors of [validateRequest] (the spec's ValidationError), as opposed
    to those of the repository (the spec's ConfigurationError). *)
Definition isValidationError (e : error) : bool :=
  match e with
  | ErrInvalidPolicyType _ | ErrCoverageAmount | ErrCustomerAge | ErrRiskScore => true
  | ErrRulesNotLoaded | ErrPolicyTypeNotFound _ | ErrWrap _ _ => false
  end.

(** ** The two [fmt] verbs the code uses *)

Module fmt.

(** [fmt.Sprintf("%d", n)]: the decimal numeral, with a minus sign below zero. *)
Definition Sprintf_d (n : Z) : string := pretty n.

Definition isDigit (c : ascii) : bool :=
  let n := N_of_ascii c in ((48 <=? n) && (n <=? 57))%N.

Definition digitVal (c : ascii) : Z := Z.of_N (N_of_ascii c) - 48.

Fixpoint scanNumber (s : string) (acc : Z) : Z :=
  match s with
  | String c r => if isDigit c then scanNumber r (acc * 10 + digitVal c) else acc
  | EmptyString => acc
  end.

Definition byteIn (lo hi : N) (c : ascii) : bool :=
  let n := N_of_ascii c in ((lo <=? n) && (n <=? hi))%N.

Definition byteIs (b : N) (c : ascii) : bool := (N_of_ascii c =? b)%N.

(** [SkipSpace] of the scanner when a newline is not a space ([Sscanf]):
    [None] is the "unexpected newline" error.  The space runes are
    U+0009..U+000D, U+0020, U+0085, U+00A0, U+1680, U+2000..U+200A, U+2028,
    U+2029, U+202F, U+205F and U+3000, here in their UTF-8 encodings. *)
Fixpoint SkipSpace (s : string) : option string :=
  match s with
  | EmptyString => Some s
  | String c r =>
      if byteIs 10 c then None
      else if byteIn 9 13 c || byteIs 32 c then SkipSpace r
      else
        match r with
        | String c2 r2 =>
            if byteIs 194 c && (byteIs 133 c2 || byteIs 160 c2) then SkipSpace r2
            else
              match r2 with
              | String c3 r3 =>
                  if (byteIs 225 c && byteIs 154 c2 && byteIs 128 c3)
                     || (byteIs 226 c && byteIs 128 c2
                         && (byteIn 128 138 c3 || byteIn 168 169 c3 || byteIs 175 c3))
                     || (byteIs 226 c && byteIs 129 c2 && byteIs 159 c3)
                     || (byteIs 227 c && byteIs 128 c2 && byteIs 128 c3)
                  then SkipSpace r3
                  else Some s
              | EmptyString => Some s
              end
        | EmptyString => Some s
        end
  end.

Definition minInt64 : Z := - 2 ^ 63.
Definition maxInt64 : Z := 2 ^ 63 - 1.

(** [fmt.Sscanf(str, "%d", &v)] with the error dropped, as the caller does:
    the result is the value of [v] afterwards.  Leading space is skipped, one
    sign is accepted, at least one decimal digit is required, what follows the
    digits is ignored; on any scan error (nothing to read, no digit, a value
    outside int64) [v] keeps the value it had. *)
Definition Sscanf_d (str : string) (v : Z) : Z :=
  match SkipSpace str with
  | None => v
  | Some s =>
      let '(neg, digits) :=
        match s with
        | String c r =>
            if byteIs 45 c then (true, r)
            else if byteIs 43 c then (false, r)
            else (false, s)
        | EmptyString => (false, s)
        end in
      match digits with
      | String c _ =>
          if isDigit c then
            let n := scanNumber digits 0 in
            let i := if neg : bool then - n else n in
            if (minInt64 <=? i) && (i <=? maxInt64) then i else v
          else v
      | EmptyString => v
      end
  end.

End fmt.

(** ** [internal/models] *)

Module models.

(** A [time.Time], as nanoseconds since the Unix epoch. *)
Definition Time : Type := Z.

Module QuoteRequest.
Record t : Type := mk {
  PolicyType : string;
  CoverageAmount : Z;
  CustomerAge : Z;
  RiskScore : Z;
  CustomerID : string;
  MultiPolicy : bool;
  LoyaltyYears : Z;
  PaperlessBill : bool;
  ClaimsHistory : Z }.
End QuoteRequest.

Module Factors.
Record t : Type := mk {
  BaseMultiplier : float;
  CoverageMultiplier : float;
  AgeMultiplier : float;
  RiskMultiplier : float;
  DynamicMultiplier : float;
  DiscountAmount : float }.
End Factors.

Module Quote.
Record t : Type := mk {
  QuoteID : string;
  PolicyType : string;
  CoverageAmount : Z;
  BaseRate : float;
  AdjustedRate : float;
  Discount : float;
  FinalPremium : float;
  ValidUntil : Time;
  CreatedAt : Time;
  Factors : option Factors.t }.
End Quote.

Module Rate.
Record t : Type := mk {
  PolicyType : string;
  BaseRate : float;
  Coverage : gmap string float }.
End Rate.

Module PolicyRates.
Record t : Type := mk {
  Base : float;
  Coverage : gmap string float;
  AgeMultiplier : gmap string float;
  RiskMultiplier : gmap string float }.
End PolicyRates.

Module Discounts.
Record t : Type := mk {
  MultiPolicy : float;
  LoyaltyYears : gmap string float;
  LowRisk : float;
  PaperlessBilling : float }.
End Discounts.

Module DynamicFactors.
Record t : Type := mk {
  Seasonality : gmap string float;
  MarketConditions : float;
  ClaimsHistory : gmap string float }.
End DynamicFactors.

Module DynamicPricing.
Record t : Type := mk {
  Enabled : bool;
  Factors : DynamicFactors.t }.
End DynamicPricing.

Module Metadata.
Record t : Type := mk {
  LastUpdated : string;
  Version : string;
  EffectiveDate : string }.
End Metadata.

Module PricingRules.
Record t : Type := mk {
  BaseRates : gmap string PolicyRates.t;
  Discounts : Discounts.t;
  DynamicPricing : DynamicPricing.t;
  Metadata : Metadata.t }.
End PricingRules.

Module RatesResponse.
Record t : Type := mk {
  Rates : list Rate.t;
  Timestamp : Time }.
End RatesResponse.

End models.
Import models.

(** ** What a call reads from outside the program

    [time.Now()] is read once by [getCurrentQuarter], twice when the quote is
    built and once by [GetRates]; [uuid.New()] once per quote.  A Go [range]
    over a map visits the entries in an order the language leaves open: the
    two [range] fields give the order of one walk, as a rearrangement of the
    entries ([RangeOk]). *)

Record Ambient : Type := {
  nowMonth : Z;
  nowValidUntil : Time;
  nowCreatedAt : Time;
  nowTimestamp : Time;
  newUUID : string;
  rangeLoyaltyYears : list (string * float) -> list (string * float);
  rangeBaseRates : list (string * PolicyRates.t) -> list (string * PolicyRates.t) }.

Definition RangeOk (amb : Ambient) : Prop :=
  (forall l, rangeLoyaltyYears amb l ≡ₚ l) /\ (forall l, rangeBaseRates amb l ≡ₚ l).

(** ** What the compiler decides

    The language lets an implementation fuse [x * y + z] into one operation
    that rounds once; the Go compiler does so on arm64, ppc64, s390x and
    riscv64, and on amd64 from GOAMD64=v3 on.  In the pricing code a product
    is added to a sum in the four statements
    [totalDiscount += adjustedRate * fraction] of [calculateDiscount]: a
    build says for each of them which code it has.  The difference
    [adjustedRate - discount] is taken between the two values the quote
    reports, as the statement is written. *)

Inductive Site : Type := AddMultiPolicy | AddLoyalty | AddLowRisk | AddPaperless.

Record Build : Type := { fuses : Site -> bool }.

(** [z + x * y], as compiled at [site]. *)
Definition mulAdd (build : Build) (site : Site) (z x y : float) : float :=
  if fuses build site then Float64.fma x y z else (z + x * y)%float.

(** ** [internal/repository] *)

Module repository.

(** [pricingRules] is a pointer: [None] before the rules are loaded.  The
    read lock every accessor takes has no effect on the values returned. *)
Record Repository : Type := { pricingRules : option PricingRules.t }.

Definition GetPricingRules (r : Repository) : option PricingRules.t :=
  pricingRules r.

Definition GetBaseRateForPolicy (r : Repository) (policyType : string) : result float :=
  match pricingRules r with
  | None => Err ErrRulesNotLoaded
  | Some rules =>
      match PricingRules.BaseRates rules !! policyType with
      | None => Err (ErrPolicyTypeNotFound policyType)
      | Some rates => Ok (PolicyRates.Base rates)
      end
  end.

Definition GetCoverageMultiplier (r : Repository) (policyType : string)
    (coverageAmount : Z) : result float :=
  match pricingRules r with
  | None => Err ErrRulesNotLoaded
  | Some rules =>
      match PricingRules.BaseRates rules !! policyType with
      | None => Err (ErrPolicyTypeNotFound policyType)
      | Some rates =>
          let coverageStr := fmt.Sprintf_d coverageAmount in
          match PolicyRates.Coverage rates !! coverageStr with
          | None => Ok Float64.one
          | Some multiplier => Ok multiplier
          end
      end
  end.

(** The [switch] of [GetAgeMultiplier]: the bracket label of an age, [None]
    in the [default] branch (an age below 18). *)
Definition ageRangeOf (age : Z) : option string :=
  if (18 <=? age) && (age <=? 24) then Some "18-24"
  else if (25 <=? age) && (age <=? 34) then Some "25-34"
  else if (35 <=? age) && (age <=? 49) then Some "35-49"
  else if (50 <=? age) && (age <=? 64) then Some "50-64"
  else if 65 <=? age then Some "65+"
  else None.

Definition altRanges : gmap string string :=
  <["18-24" := "18-34"]> (<["25-34" := "18-34"]> ∅).

Definition GetAgeMultiplier (r : Repository) (policyType : string) (age : Z)
    : result float :=
  match pricingRules r with
  | None => Err ErrRulesNotLoaded
  | Some rules =>
      match PricingRules.BaseRates rules !! policyType with
      | None => Err (ErrPolicyTypeNotFound policyType)
      | Some rates =>
          match ageRangeOf age with
          | None => Ok Float64.one
          | Some ageRange =>
              match PolicyRates.AgeMultiplier rates !! ageRange with
              | Some multiplier => Ok multiplier
              | None =>
                  if String.eqb policyType "home" then
                    match altRanges !! ageRange with
                    | Some altRange =>
                        match PolicyRates.AgeMultiplier rates !! altRange with
                        | Some multiplier => Ok multiplier
                        | None => Ok Float64.one
                        end
                    | None => Ok Float64.one
                    end
                  else Ok Float64.one
              end
          end
      end
  end.

Definition GetRiskMultiplier (r : Repository) (policyType : string)
    (riskScore : Z) : result float :=
  match pricingRules r with
  | None => Err ErrRulesNotLoaded
  | Some rules =>
      match PricingRules.BaseRates rules !! policyType with
      | None => Err (ErrPolicyTypeNotFound policyType)
      | Some rates =>
          let riskStr := fmt.Sprintf_d riskScore in
          match PolicyRates.RiskMultiplier rates !! riskStr with
          | None => Ok Float64.one
          | Some multiplier => Ok multiplier
          end
      end
  end.

Definition GetDiscounts (r : Repository) : option Discounts.t :=
  match pricingRules r with
  | None => None
  | Some rules => Some (PricingRules.Discounts rules)
  end.

Definition GetDynamicPricing (r : Repository) : option DynamicPricing.t :=
  match pricingRules r with
  | None => None
  | Some rules => Some (PricingRules.DynamicPricing rules)
  end.

(** The loop appends one [Rate] per entry, in the order [range] walks
    [BaseRates]. *)
Definition GetAllRates (amb : Ambient) (r : Repository) : list Rate.t :=
  match pricingRules r with
  | None => []
  | Some rules =>
      fold_left
        (fun (rates : list Rate.t) '(policyType, policyRates) =>
           (rates ++ [Rate.mk policyType (PolicyRates.Base policyRates)
                              (PolicyRates.Coverage policyRates)])%list)
        (rangeBaseRates amb (map_to_list (PricingRules.BaseRates rules)))
        []
  end.

(** What [NewRepository] takes from the host: [os.ReadFile],
    [json.Unmarshal] into a [PricingRules] and [filepath.Join].  The code
    only passes an error of the host along, so any [error] stands for it. *)
Record Host : Type := {
  ReadFile : string -> result string;
  Unmarshal : string -> result PricingRules.t;
  Join : string -> string -> string }.

(** The repository afterwards and the error returned ([None] is nil). *)
Definition loadPricingRules (host : Host) (r : Repository) (filePath : string)
    : Repository * option error :=
  match ReadFile host filePath with
  | Err err => (r, Some err)
  | Ok data =>
      match Unmarshal host data with
      | Err err => (r, Some err)
      | Ok rules => ({| pricingRules := Some rules |}, None)
      end
  end.

Definition NewRepository (host : Host) (dataPath : string) : result Repository :=
  let repo := {| pricingRules := None |} in
  let '(repo, err) :=
    loadPricingRules host repo (Join host dataPath "pricing-rules.json") in
  match err with
  | Some err => Err (ErrWrap "failed to load pricing rules" err)
  | None => Ok repo
  end.

End repository.

(** ** [internal/features] *)

Module features.

Record Flags : Type := { dynamicRates : bool }.

(** The receiver is a pointer and may be nil. *)
Definition IsDynamicRatesEnabled (f : option Flags) : bool :=
  match f with
  | None => false
  | Some f => dynamicRates f
  end.

Definition SetDynamicRates (f : option Flags) (enabled : bool) : option Flags :=
  match f with
  | None => None
  | Some _ => Some {| dynamicRates := enabled |}
  end.

(** [strconv.ParseBool]: six spellings of true, six of false, an error
    ([None]) for anything else. *)
Definition ParseBool (str : string) : option bool :=
  if bool_decide (str ∈ ["1"; "t"; "T"; "TRUE"; "true"; "True"]) then Some true
  else if bool_decide (str ∈ ["0"; "f"; "F"; "FALSE"; "false"; "False"]) then Some false
  else None.

(** [getenv] is [os.Getenv]; the API key only decides a warning.  The
    returned pointer is never nil and the error always nil. *)
Definition Initialize (getenv : string -> string) (apiKey : string) : result Flags :=
  let flags := {| dynamicRates := false |} in
  let dynamicRatesStr := getenv "FEATURE_DYNAMIC_RATES" in
  let flags :=
    if negb (String.eqb dynamicRatesStr "") then
      match ParseBool dynamicRatesStr with
      | Some dynamicRates => {| dynamicRates := dynamicRates |}
      | None => flags
      end
    else flags in
  Ok flags.

End features.

(** ** [internal/services] *)

Module services.
Import repository features.

Record PricingService : Type := {
  repo : Repository;
  flags : option Flags }.

(** One entry per call of a repository accessor. *)
Inductive Read : Type :=
| ReadBaseRate (policyType : string)
| ReadCoverageMultiplier (policyType : string) (coverageAmount : Z)
| ReadAgeMultiplier (policyType : string) (age : Z)
| ReadRiskMultiplier (policyType : string) (riskScore : Z)
| ReadDiscounts
| ReadDynamicPricing
| ReadAllRates.

(** The state a service method runs in: the service with what it points to,
    and the repository calls made so far, oldest first. *)
Record World : Type := {
  service : PricingService;
  reads : list Read }.

Definition M (A : Type) : Type := World -> A * World.

#[global] Instance M_ret : MRet M := fun A (a : A) w => (a, w).

#[global] Instance M_bind : MBind M :=
  fun A B (k : A -> M B) (m : M A) w => let '(a, w') := m w in k a w'.

Definition ret {A} (a : A) : M A := mret a.

(** A call [s.repo.f(...)], recorded as [rd]. *)
Definition call {A} (rd : Read) (f : Repository -> A) : M A :=
  fun w => (f (repo (service w)),
            {| service := service w; reads := (reads w ++ [rd])%list |}).

(** [s.flags.IsDynamicRatesEnabled()] *)
Definition dynamicRatesEnabled : M bool :=
  fun w => (IsDynamicRatesEnabled (flags (service w)), w).

(** [s.flags.SetDynamicRates(enabled)]: the only write to the service state. *)
Definition setDynamicRates (enabled : bool) : M unit :=
  fun w => (tt,
            {| service := {| repo := repo (service w);
                             flags := SetDynamicRates (flags (service w)) enabled |};
               reads := reads w |}).

Definition validateRequest (req : QuoteRequest.t) : option error :=
  let policyType := QuoteRequest.PolicyType req in
  if negb (String.eqb policyType "auto") && negb (String.eqb policyType "home")
     && negb (String.eqb policyType "life")
  then Some (ErrInvalidPolicyType policyType)
  else if QuoteRequest.CoverageAmount req <=? 0 then Some ErrCoverageAmount
  else if (QuoteRequest.CustomerAge req <? 18) || (QuoteRequest.CustomerAge req >? 120)
  then Some ErrCustomerAge
  else if (QuoteRequest.RiskScore req <? 1) || (QuoteRequest.RiskScore req >? 5)
  then Some ErrRiskScore
  else None.

Definition generateQuoteID (amb : Ambient) : string :=
  "Q-" ++ String.substring 0 8 (newUUID amb).

Definition getCurrentQuarter (amb : Ambient) : string :=
  let month := nowMonth amb in
  if (month >=? 1) && (month <=? 3) then "Q1"
  else if (month >=? 4) && (month <=? 6) then "Q2"
  else if (month >=? 7) && (month <=? 9) then "Q3"
  else "Q4".

Definition getClaimsHistoryKey (claims : Z) : string :=
  if claims =? 0 then "0"
  else if claims =? 1 then "1"
  else if claims =? 2 then "2"
  else "3+".

Definition calculateDynamicMultiplier (amb : Ambient) (req : QuoteRequest.t) : M float :=
  dynamicPricing ← call ReadDynamicPricing GetDynamicPricing;
  ret match dynamicPricing with
      | None => Float64.one
      | Some dynamicPricing =>
          if negb (DynamicPricing.Enabled dynamicPricing) then Float64.one
          else
            let factors := DynamicPricing.Factors dynamicPricing in
            let multiplier := Float64.one in
            let quarter := getCurrentQuarter amb in
            let multiplier :=
              match DynamicFactors.Seasonality factors !! quarter with
              | Some seasonalityFactor => (multiplier * seasonalityFactor)%float
              | None => multiplier
              end in
            let multiplier :=
              (multiplier * DynamicFactors.MarketConditions factors)%float in
            let claimsKey := getClaimsHistoryKey (QuoteRequest.ClaimsHistory req) in
            let multiplier :=
              match DynamicFactors.ClaimsHistory factors !! claimsKey with
              | Some claimsFactor => (multiplier * claimsFactor)%float
              | None => multiplier
              end in
            multiplier
      end.

(** One step of the loop of [getLoyaltyDiscount]; [requiredYears] is a fresh
    zero variable each time round. *)
Definition loyaltyStep (years : Z) (applicableDiscount : float)
    (entry : string * float) : float :=
  let '(yearsStr, discount) := entry in
  let requiredYears := fmt.Sscanf_d yearsStr 0 in
  if (years >=? requiredYears) && Float64.gt discount applicableDiscount
  then discount
  else applicableDiscount.

Definition getLoyaltyDiscount (amb : Ambient) (years : Z) (discounts : Discounts.t)
    : float :=
  fold_left (loyaltyStep years)
    (rangeLoyaltyYears amb (map_to_list (Discounts.LoyaltyYears discounts)))
    Float64.zero.

Definition calculateDiscount (build : Build) (amb : Ambient) (req : QuoteRequest.t)
    (adjustedRate : float) : M float :=
  discounts ← call ReadDiscounts GetDiscounts;
  ret match discounts with
      | None => Float64.zero
      | Some discounts =>
          let totalDiscount := Float64.zero in
          let totalDiscount :=
            if QuoteRequest.MultiPolicy req
            then mulAdd build AddMultiPolicy totalDiscount
                   adjustedRate (Discounts.MultiPolicy discounts)
            else totalDiscount in
          let totalDiscount :=
            if QuoteRequest.LoyaltyYears req >? 0 then
              let loyaltyDiscount :=
                getLoyaltyDiscount amb (QuoteRequest.LoyaltyYears req) discounts in
              mulAdd build AddLoyalty totalDiscount adjustedRate loyaltyDiscount
            else totalDiscount in
          let totalDiscount :=
            if QuoteRequest.RiskScore req =? 1
            then mulAdd build AddLowRisk totalDiscount
                   adjustedRate (Discounts.LowRisk discounts)
            else totalDiscount in
          let totalDiscount :=
            if QuoteRequest.PaperlessBill req
            then mulAdd build AddPaperless totalDiscount
                   adjustedRate (Discounts.PaperlessBilling discounts)
            else totalDiscount in
          totalDiscount
      end.

(** [30 * 24 * time.Hour], in nanoseconds. *)
Definition thirtyDays : Z := 30 * 24 * 3600000000000.

(** The log line at the end reads the flag once more; nothing is computed
    from that reading. *)
Definition CalculateQuote (build : Build) (amb : Ambient) (req : QuoteRequest.t)
    : M (result Quote.t) :=
  match validateRequest req with
  | Some err => ret (Err err)
  | None =>
  r ← call (ReadBaseRate (QuoteRequest.PolicyType req))
            (fun r => GetBaseRateForPolicy r (QuoteRequest.PolicyType req));
  match r with
  | Err err => ret (Err (ErrWrap "failed to get base rate" err))
  | Ok baseRate =>
  r ← call (ReadCoverageMultiplier (QuoteRequest.PolicyType req)
                                    (QuoteRequest.CoverageAmount req))
            (fun r => GetCoverageMultiplier r (QuoteRequest.PolicyType req)
                                            (QuoteRequest.CoverageAmount req));
  match r with
  | Err err => ret (Err (ErrWrap "failed to get coverage multiplier" err))
  | Ok coverageMultiplier =>
  r ← call (ReadAgeMultiplier (QuoteRequest.PolicyType req)
                               (QuoteRequest.CustomerAge req))
            (fun r => GetAgeMultiplier r (QuoteRequest.PolicyType req)
                                       (QuoteRequest.CustomerAge req));
  match r with
  | Err err => ret (Err (ErrWrap "failed to get age multiplier" err))
  | Ok ageMultiplier =>
  r ← call (ReadRiskMultiplier (QuoteRequest.PolicyType req)
                                (QuoteRequest.RiskScore req))
            (fun r => GetRiskMultiplier r (QuoteRequest.PolicyType req)
                                        (QuoteRequest.RiskScore req));
  match r with
  | Err err => ret (Err (ErrWrap "failed to get risk multiplier" err))
  | Ok riskMultiplier =>
  let basePremium :=
    (baseRate * coverageMultiplier * ageMultiplier * riskMultiplier)%float in
  enabled ← dynamicRatesEnabled;
  dynamicMultiplier ←
    (if enabled : bool then calculateDynamicMultiplier amb req else ret Float64.one);
  let adjustedRate := (basePremium * dynamicMultiplier)%float in
  discount ← calculateDiscount build amb req adjustedRate;
  let finalPremium := (adjustedRate - discount)%float in
  ret (Ok {| Quote.QuoteID := generateQuoteID amb;
             Quote.PolicyType := QuoteRequest.PolicyType req;
             Quote.CoverageAmount := QuoteRequest.CoverageAmount req;
             Quote.BaseRate := basePremium;
             Quote.AdjustedRate := adjustedRate;
             Quote.Discount := discount;
             Quote.FinalPremium := finalPremium;
             Quote.ValidUntil := nowValidUntil amb + thirtyDays;
             Quote.CreatedAt := nowCreatedAt amb;
             Quote.Factors :=
               Some {| Factors.BaseMultiplier := baseRate;
                       Factors.CoverageMultiplier := coverageMultiplier;
                       Factors.AgeMultiplier := ageMultiplier;
                       Factors.RiskMultiplier := riskMultiplier;
                       Factors.DynamicMultiplier := dynamicMultiplier;
                       Factors.DiscountAmount := discount |} |})
  end end end end end.

Definition GetRates (amb : Ambient) : M RatesResponse.t :=
  rates ← call ReadAllRates (GetAllRates amb);
  ret {| RatesResponse.Rates := rates;
         RatesResponse.Timestamp := nowTimestamp amb |}.

Definition NewPricingService (repo : Repository) (flags : option Flags)
    : PricingService :=
  {| repo := repo; flags := flags |}.

End services.

(** ** [internal/handlers]

    The two HTTP handlers, from the decoded request body to the response.
    A response body is kept as the value that was encoded, not as bytes. *)

Module handlers.
Import repository features services.

(** The values the handlers encode; [ErrorPayload message] is
    [map[string]string{"error": message}]. *)
Inductive Payload : Type :=
| QuotePayload (quote : Quote.t)
| RatesPayload (rates : RatesResponse.t)
| ErrorPayload (message : string).

Inductive Body : Type :=
| JSON (payload : Payload)
| Text (text : string).

(** [contentType] is the Content-Type header the handler sets, if it sets
    one. *)
Record Response : Type := {
  code : Z;
  contentType : option string;
  body : Body }.

(** [encoding/json] refuses a float64 that is NaN or infinite. *)
Definition jsonFloat (f : float) : bool := negb (is_nan f || is_infinity f).

(** [json.Marshal] succeeds: every float encoded is finite (strings, ints,
    maps and times read from the clock always encode). *)
Definition marshals (payload : Payload) : bool :=
  match payload with
  | QuotePayload quote =>
      jsonFloat (Quote.BaseRate quote)
      && jsonFloat (Quote.AdjustedRate quote)
      && jsonFloat (Quote.Discount quote)
      && jsonFloat (Quote.FinalPremium quote)
      && match Quote.Factors quote with
         | None => true
         | Some factors =>
             jsonFloat (Factors.BaseMultiplier factors)
             && jsonFloat (Factors.CoverageMultiplier factors)
             && jsonFloat (Factors.AgeMultiplier factors)
             && jsonFloat (Factors.RiskMultiplier factors)
             && jsonFloat (Factors.DynamicMultiplier factors)
             && jsonFloat (Factors.DiscountAmount factors)
         end
  | RatesPayload rates =>
      forallb
        (fun rate =>
           jsonFloat (Rate.BaseRate rate)
           && forallb (fun entry : string * float => jsonFloat entry.2)
                (map_to_list (Rate.Coverage rate)))
        (RatesResponse.Rates rates)
  | ErrorPayload _ => true
  end.

Definition StatusOK : Z := 200.
Definition StatusBadRequest : Z := 400.
Definition StatusInternalServerError : Z := 500.

Definition respondWithJSON (code : Z) (payload : Payload) : Response :=
  if marshals payload then
    {| code := code;
       contentType := Some "application/json";
       body := JSON payload |}
  else
    {| code := StatusInternalServerError;
       contentType := None;
       body := Text "Error encoding response" |}.

Definition respondWithError (code : Z) (message : string) : Response :=
  respondWithJSON code (ErrorPayload message).

(** [decoded] is what [json.NewDecoder(r.Body).Decode(&req)] gave. *)
Definition GetQuote (build : Build) (amb : Ambient)
    (decoded : result QuoteRequest.t) : M Response :=
  match decoded with
  | Err _ => ret (respondWithError StatusBadRequest "Invalid request body")
  | Ok req =>
      r ← CalculateQuote build amb req;
      match r with
      | Err err => ret (respondWithError StatusBadRequest (Error err))
      | Ok quote => ret (respondWithJSON StatusOK (QuotePayload quote))
      end
  end.

Definition GetRates (amb : Ambient) : M Response :=
  rates ← services.GetRates amb;
  ret (respondWithJSON StatusOK (RatesPayload rates)).

End handlers.

(** ** Sample data

    The rate tables and discount schedule the service's README documents;
    the age and risk tables are samples. *)

Module sample.
Import repository features services.
Local Open Scope float_scope.

Definition table (l : list (string * float)) : gmap string float := list_to_map l.

(** The two builds of the Go compiler: every product rounded before it is
    added (amd64 by default), and every [+=] fused (arm64). *)
Definition separate : Build := {| fuses := fun _ => false |}.
Definition fused : Build := {| fuses := fun _ => true |}.

Definition autoRates : PolicyRates.t :=
  {| PolicyRates.Base := 800;
     PolicyRates.Coverage :=
       table [("250000", 1.0); ("300000", 1.15); ("400000", 1.35); ("500000", 1.55)];
     PolicyRates.AgeMultiplier :=
       table [("18-24", 1.5); ("25-34", 1.2); ("35-49", 1.0); ("50-64", 1.1); ("65+", 1.3)];
     PolicyRates.RiskMultiplier :=
       table [("1", 0.8); ("2", 1.0); ("3", 1.2); ("4", 1.5); ("5", 2.0)] |}.

Definition homeRates : PolicyRates.t :=
  {| PolicyRates.Base := 1200;
     PolicyRates.Coverage :=
       table [("500000", 1.0); ("650000", 1.2); ("750000", 1.4); ("1000000", 1.8);
              ("1200000", 2.2)];
     PolicyRates.AgeMultiplier :=
       table [("18-34", 1.1); ("35-49", 1.0); ("50-64", 1.05); ("65+", 1.15)];
     PolicyRates.RiskMultiplier :=
       table [("1", 0.85); ("2", 1.0); ("3", 1.15); ("4", 1.4); ("5", 1.8)] |}.

Definition lifeRates : PolicyRates.t :=
  {| PolicyRates.Base := 500;
     PolicyRates.Coverage :=
       table [("250000", 1.0); ("500000", 1.8); ("750000", 2.5); ("1000000", 3.2)];
     PolicyRates.AgeMultiplier :=
       table [("18-24", 0.8); ("25-34", 1.0); ("35-49", 1.4); ("50-64", 2.2); ("65+", 3.5)];
     PolicyRates.RiskMultiplier :=
       table [("1", 0.7); ("2", 1.0); ("3", 1.3); ("4", 1.7); ("5", 2.5)] |}.

Definition discounts : Discounts.t :=
  {| Discounts.MultiPolicy := 0.15;
     Discounts.LoyaltyYears :=
       table [("1", 0.0); ("2", 0.05); ("3", 0.08); ("5", 0.12); ("10", 0.18)];
     Discounts.LowRisk := 0.10;
     Discounts.PaperlessBilling := 0.03 |}.

Definition dynamicPricing (enabled : bool) : DynamicPricing.t :=
  {| DynamicPricing.Enabled := enabled;
     DynamicPricing.Factors :=
       {| DynamicFactors.Seasonality :=
            table [("Q1", 0.95); ("Q2", 1.0); ("Q3", 1.05); ("Q4", 1.02)];
          DynamicFactors.MarketConditions := 1.0;
          DynamicFactors.ClaimsHistory :=
            table [("0", 0.9); ("1", 1.0); ("2", 1.15); ("3+", 1.3)] |} |}.

Definition metadata : Metadata.t :=
  {| Metadata.LastUpdated := "2024-12-21T10:30:00Z";
     Metadata.Version := "1.0.0";
     Metadata.EffectiveDate := "2024-12-21" |}.

Definition rules (enabled : bool) : PricingRules.t :=
  {| PricingRules.BaseRates :=
       list_to_map [("auto", autoRates); ("home", homeRates); ("life", lifeRates)];
     PricingRules.Discounts := discounts;
     PricingRules.DynamicPricing := dynamicPricing enabled;
     PricingRules.Metadata := metadata |}.

(** The documented rates with another discount schedule, the configuration
    switch and the feature flag both off. *)
Definition rulesWith (schedule : Discounts.t) : PricingRules.t :=
  {| PricingRules.BaseRates :=
       list_to_map [("auto", autoRates); ("home", homeRates); ("life", lifeRates)];
     PricingRules.Discounts := schedule;
     PricingRules.DynamicPricing := dynamicPricing false;
     PricingRules.Metadata := metadata |}.

Definition worldWith (schedule : Discounts.t) : World :=
  {| service := {| repo := {| pricingRules := Some (rulesWith schedule) |};
                   flags := Some {| dynamicRates := false |} |};
     reads := [] |}.

(** A schedule whose discounts add up to more than the whole rate. *)
Definition steepDiscounts : Discounts.t :=
  {| Discounts.MultiPolicy := 0.6;
     Discounts.LoyaltyYears := table [("1", 0.25)];
     Discounts.LowRisk := 0.10;
     Discounts.PaperlessBilling := 0.5 |}.

Definition steepWorld : World := worldWith steepDiscounts.

(** The documented schedule with a fraction granted from year 0 on. *)
Definition welcomeDiscounts : Discounts.t :=
  {| Discounts.MultiPolicy := 0.15;
     Discounts.LoyaltyYears :=
       table [("0", 0.02); ("1", 0.0); ("2", 0.05); ("3", 0.08); ("5", 0.12);
              ("10", 0.18)];
     Discounts.LowRisk := 0.10;
     Discounts.PaperlessBilling := 0.03 |}.

(** A schedule whose only loyalty entry is a surcharge. *)
Definition surchargeDiscounts : Discounts.t :=
  {| Discounts.MultiPolicy := 0.15;
     Discounts.LoyaltyYears := table [("1", -0.05)];
     Discounts.LowRisk := 0.10;
     Discounts.PaperlessBilling := 0.03 |}.

(** A world with the rules loaded, the configuration switch [enabled] and the
    feature flag [flag]; nothing read yet. *)
Definition world (enabled flag : bool) : World :=
  {| service := {| repo := {| pricingRules := Some (rules enabled) |};
                   flags := Some {| dynamicRates := flag |} |};
     reads := [] |}.

(** A clock in month [month]; [range] walks maps in [map_to_list] order. *)
Definition ambient (month : Z) : Ambient :=
  {| nowMonth := month%Z;
     nowValidUntil := (1734777000000000000)%Z;
     nowCreatedAt := (1734777000000000001)%Z;
     nowTimestamp := (1734777000000000002)%Z;
     newUUID := "a3b4c5d6-0000-4000-8000-000000000000";
     rangeLoyaltyYears := fun l => l;
     rangeBaseRates := fun l => l |}.

(** The same, with every [range] walking the other way round. *)
Definition ambientRev (month : Z) : Ambient :=
  {| nowMonth := month%Z;
     nowValidUntil := (1734777000000000000)%Z;
     nowCreatedAt := (1734777000000000001)%Z;
     nowTimestamp := (1734777000000000002)%Z;
     newUUID := "0f1e2d3c-0000-4000-8000-000000000000";
     rangeLoyaltyYears := @rev _;
     rangeBaseRates := @rev _ |}.

(** The request of the README's example. *)
Definition request : QuoteRequest.t :=
  {| QuoteRequest.PolicyType := "auto";
     QuoteRequest.CoverageAmount := 500000%Z;
     QuoteRequest.CustomerAge := 35%Z;
     QuoteRequest.RiskScore := 2%Z;
     QuoteRequest.CustomerID := "CUST-12345";
     QuoteRequest.MultiPolicy := true;
     QuoteRequest.LoyaltyYears := 5%Z;
     QuoteRequest.PaperlessBill := true;
     QuoteRequest.ClaimsHistory := 0%Z |}.

(** The same customer with no multi-policy and no paperless discount, after
    [years] years. *)
Definition loyaltyOnly (years : Z) : QuoteRequest.t :=
  {| QuoteRequest.PolicyType := "auto";
     QuoteRequest.CoverageAmount := 500000%Z;
     QuoteRequest.CustomerAge := 35%Z;
     QuoteRequest.RiskScore := 2%Z;
     QuoteRequest.CustomerID := "CUST-12345";
     QuoteRequest.MultiPolicy := false;
     QuoteRequest.LoyaltyYears := years;
     QuoteRequest.PaperlessBill := false;
     QuoteRequest.ClaimsHistory := 0%Z |}.

(** Rules that configure auto policies only. *)
Definition autoOnlyRules : PricingRules.t :=
  {| PricingRules.BaseRates := list_to_map [("auto", autoRates)];
     PricingRules.Discounts := discounts;
     PricingRules.DynamicPricing := dynamicPricing true;
     PricingRules.Metadata := metadata |}.

Definition autoOnlyWorld : World :=
  {| service := {| repo := {| pricingRules := Some autoOnlyRules |};
                   flags := Some {| dynamicRates := true |} |};
     reads := [] |}.

(** A service built without a flags object, as [NewPricingService(repo, nil)]. *)
Definition noFlagsWorld : World :=
  {| service := NewPricingService {| pricingRules := Some (rules true) |} None;
     reads := [] |}.

(** The README's request for a home policy. *)
Definition homeRequest : QuoteRequest.t :=
  {| QuoteRequest.PolicyType := "home";
     QuoteRequest.CoverageAmount := 500000%Z;
     QuoteRequest.CustomerAge := 35%Z;
     QuoteRequest.RiskScore := 2%Z;
     QuoteRequest.CustomerID := "CUST-12345";
     QuoteRequest.MultiPolicy := true;
     QuoteRequest.LoyaltyYears := 5%Z;
     QuoteRequest.PaperlessBill := true;
     QuoteRequest.ClaimsHistory := 0%Z |}.

(** Finite auto rates whose product is beyond the range of float64. *)
Definition hugeRates : PolicyRates.t :=
  {| PolicyRates.Base := 1e308;
     PolicyRates.Coverage := table [("500000", 10.0)];
     PolicyRates.AgeMultiplier := table [("35-49", 1.0)];
     PolicyRates.RiskMultiplier := table [("2", 1.0)] |}.

Definition hugeWorld : World :=
  {| service :=
       {| repo :=
            {| pricingRules :=
                 Some {| PricingRules.BaseRates := list_to_map [("auto", hugeRates)];
                         PricingRules.Discounts := discounts;
                         PricingRules.DynamicPricing := dynamicPricing false;
                         PricingRules.Metadata := metadata |} |};
          flags := Some {| dynamicRates := false |} |};
     reads := [] |}.

(** A schedule with a loyalty key that is a word. *)
Definition goldDiscounts : Discounts.t :=
  {| Discounts.MultiPolicy := 0.15;
     Discounts.LoyaltyYears := table [("gold", 0.5); ("10+", 0.18)];
     Discounts.LowRisk := 0.10;
     Discounts.PaperlessBilling := 0.03 |}.

(** A host with one readable file, which holds the documented rules; the
    two errors stand for those of the operating system and of the decoder. *)
Definition host : Host :=
  {| ReadFile := fun name =>
       if String.eqb name "data/pricing-rules.json"
       then Ok "{...}" else Err (ErrWrap "open" ErrRulesNotLoaded);
     Unmarshal := fun data =>
       if String.eqb data "{...}"
       then Ok (rules true) else Err (ErrWrap "unexpected end of JSON input" ErrRulesNotLoaded);
     Join := fun dir name => dir ++ "/" ++ name |}.

(** An environment in which only FEATURE_DYNAMIC_RATES is set. *)
Definition getenv (value : string) (name : string) : string :=
  if String.eqb name "FEATURE_DYNAMIC_RATES" then value else "".

End sample.

(** ** Notions the properties are stated with *)

Import repository features services.

Definition supportedPolicyType (policyType : string) : Prop :=
  policyType = "auto" \/ policyType = "home" \/ policyType = "life".

Definition validRequest (req : QuoteRequest.t) : Prop :=
  supportedPolicyType (QuoteRequest.PolicyType req)
  /\ 0 < QuoteRequest.CoverageAmount req
  /\ 18 <= QuoteRequest.CustomerAge req <= 120
  /\ 1 <= QuoteRequest.RiskScore req <= 5.

Definition withAge (req : QuoteRequest.t) (age : Z) : QuoteRequest.t :=
  {| QuoteRequest.PolicyType := QuoteRequest.PolicyType req;
     QuoteRequest.CoverageAmount := QuoteRequest.CoverageAmount req;
     QuoteRequest.CustomerAge := age;
     QuoteRequest.RiskScore := QuoteRequest.RiskScore req;
     QuoteRequest.CustomerID := QuoteRequest.CustomerID req;
     QuoteRequest.MultiPolicy := QuoteRequest.MultiPolicy req;
     QuoteRequest.LoyaltyYears := QuoteRequest.LoyaltyYears req;
     QuoteRequest.PaperlessBill := QuoteRequest.PaperlessBill req;
     QuoteRequest.ClaimsHistory := QuoteRequest.ClaimsHistory req |}.

Definition withClaimsHistory (req : QuoteRequest.t) (claims : Z) : QuoteRequest.t :=
  {| QuoteRequest.PolicyType := QuoteRequest.PolicyType req;
     QuoteRequest.CoverageAmount := QuoteRequest.CoverageAmount req;
     QuoteRequest.CustomerAge := QuoteRequest.CustomerAge req;
     QuoteRequest.RiskScore := QuoteRequest.RiskScore req;
     QuoteRequest.CustomerID := QuoteRequest.CustomerID req;
     QuoteRequest.MultiPolicy := QuoteRequest.MultiPolicy req;
     QuoteRequest.LoyaltyYears := QuoteRequest.LoyaltyYears req;
     QuoteRequest.PaperlessBill := QuoteRequest.PaperlessBill req;
     QuoteRequest.ClaimsHistory := claims |}.

Definition withCustomerID (req : QuoteRequest.t) (customerID : string)
    : QuoteRequest.t :=
  {| QuoteRequest.PolicyType := QuoteRequest.PolicyType req;
     QuoteRequest.CoverageAmount := QuoteRequest.CoverageAmount req;
     QuoteRequest.CustomerAge := QuoteRequest.CustomerAge req;
     QuoteRequest.RiskScore := QuoteRequest.RiskScore req;
     QuoteRequest.CustomerID := customerID;
     QuoteRequest.MultiPolicy := QuoteRequest.MultiPolicy req;
     QuoteRequest.LoyaltyYears := QuoteRequest.LoyaltyYears req;
     QuoteRequest.PaperlessBill := QuoteRequest.PaperlessBill req;
     QuoteRequest.ClaimsHistory := QuoteRequest.ClaimsHistory req |}.

Definition withLoyaltyYears (req : QuoteRequest.t) (years : Z) : QuoteRequest.t :=
  {| QuoteRequest.PolicyType := QuoteRequest.PolicyType req;
     QuoteRequest.CoverageAmount := QuoteRequest.CoverageAmount req;
     QuoteRequest.CustomerAge := QuoteRequest.CustomerAge req;
     QuoteRequest.RiskScore := QuoteRequest.RiskScore req;
     QuoteRequest.CustomerID := QuoteRequest.CustomerID req;
     QuoteRequest.MultiPolicy := QuoteRequest.MultiPolicy req;
     QuoteRequest.LoyaltyYears := years;
     QuoteRequest.PaperlessBill := QuoteRequest.PaperlessBill req;
     QuoteRequest.ClaimsHistory := QuoteRequest.ClaimsHistory req |}.

(** A key that starts with an ASCII letter, or is empty: [Sscanf] with
    [%d] reads no integer from it. *)
Definition isLetter (c : ascii) : bool := fmt.byteIn 65 90 c || fmt.byteIn 97 122 c.

Definition wordKey (key : string) : bool :=
  match key with
  | String c _ => isLetter c
  | EmptyString => true
  end.

(** What may follow a numeral in a key (the plus sign of 10+, say): anything
    that does not start with a decimal digit. *)
Definition noDigitAhead (suffix : string) : bool :=
  match suffix with
  | String c _ => negb (fmt.isDigit c)
  | EmptyString => true
  end.

(** Every rate and multiplier that [GetAllRates] copies is a finite number. *)
Definition finiteRates (rules : PricingRules.t) : Prop :=
  forall policyType rates,
    PricingRules.BaseRates rules !! policyType = Some rates ->
    handlers.jsonFloat (PolicyRates.Base rates) = true
    /\ forall key multiplier,
         PolicyRates.Coverage rates !! key = Some multiplier ->
         handlers.jsonFloat multiplier = true.

(** A float64 that is not below zero: [x < 0] is false, as it is for 0.0,
    a positive number, +Inf and NaN. *)
Definition notBelowZero (x : float) : Prop := Float64.gt Float64.zero x = false.

#[global] Instance notBelowZero_dec (x : float) : Decision (notBelowZero x) :=
  decide (Float64.gt Float64.zero x = false).

Definition notBelowZeroTable (table : gmap string float) : Prop :=
  map_Forall (fun _ x => notBelowZero x) table.

#[global] Instance notBelowZeroTable_dec (table : gmap string float)
    : Decision (notBelowZeroTable table) :=
  decide (map_Forall (fun _ x => notBelowZero x) table).

Definition notBelowZeroRates (rates : PolicyRates.t) : Prop :=
  notBelowZero (PolicyRates.Base rates)
  /\ notBelowZeroTable (PolicyRates.Coverage rates)
  /\ notBelowZeroTable (PolicyRates.AgeMultiplier rates)
  /\ notBelowZeroTable (PolicyRates.RiskMultiplier rates).

#[global] Instance notBelowZeroRates_dec (rates : PolicyRates.t)
    : Decision (notBelowZeroRates rates) :=
  decide (notBelowZero (PolicyRates.Base rates)
          /\ notBelowZeroTable (PolicyRates.Coverage rates)
          /\ notBelowZeroTable (PolicyRates.AgeMultiplier rates)
          /\ notBelowZeroTable (PolicyRates.RiskMultiplier rates)).

(** Rules none of whose rates, multipliers and factors is below zero, nor
    any discount fraction other than those of the loyalty table. *)
Definition notBelowZeroRules (rules : PricingRules.t) : Prop :=
  map_Forall (fun _ rates => notBelowZeroRates rates) (PricingRules.BaseRates rules)
  /\ notBelowZero (Discounts.MultiPolicy (PricingRules.Discounts rules))
  /\ notBelowZero (Discounts.LowRisk (PricingRules.Discounts rules))
  /\ notBelowZero (Discounts.PaperlessBilling (PricingRules.Discounts rules))
  /\ notBelowZeroTable
       (DynamicFactors.Seasonality
          (DynamicPricing.Factors (PricingRules.DynamicPricing rules)))
  /\ notBelowZero
       (DynamicFactors.MarketConditions
          (DynamicPricing.Factors (PricingRules.DynamicPricing rules)))
  /\ notBelowZeroTable
       (DynamicFactors.ClaimsHistory
          (DynamicPricing.Factors (PricingRules.DynamicPricing rules))).

#[global] Instance notBelowZeroRules_dec (rules : PricingRules.t)
    : Decision (notBelowZeroRules rules).
Proof. unfold notBelowZeroRules. apply _. Defined.

(** The five age brackets of the spec, the age range of each and its key in
    an age-multiplier table. *)
Inductive Bracket : Type := B18_24 | B25_34 | B35_49 | B50_64 | B65_plus.

Definition bracketKey (b : Bracket) : string :=
  match b with
  | B18_24 => "18-24"
  | B25_34 => "25-34"
  | B35_49 => "35-49"
  | B50_64 => "50-64"
  | B65_plus => "65+"
  end.

Definition inBracket (b : Bracket) (age : Z) : Prop :=
  match b with
  | B18_24 => 18 <= age <= 24
  | B25_34 => 25 <= age <= 34
  | B35_49 => 35 <= age <= 49
  | B50_64 => 50 <= age <= 64
  | B65_plus => 65 <= age
  end.

Definition bracketOf (age : Z) : option Bracket :=
  if age <? 18 then None
  else if age <=? 24 then Some B18_24
  else if age <=? 34 then Some B25_34
  else if age <=? 49 then Some B35_49
  else if age <=? 64 then Some B50_64
  else Some B65_plus.

(** The alternate mapping of the spec: for home policies the brackets 18-24
    and 25-34 fall back to the combined key, nothing else does. *)
Definition alternateKey (policyType : string) (b : Bracket) : option string :=
  if String.eqb policyType "home" then
    match b with
    | B18_24 | B25_34 => Some "18-34"
    | B35_49 | B50_64 | B65_plus => None
    end
  else None.

(** The age multiplier as the spec words it: the bracket's own entry, else
    the entry of the alternate key if the policy type has one for the
    bracket, else 1.0.  (Below 18, which validation excludes, the code
    answers 1.0.) *)
Definition spec_resolveAgeMultiplier (policyType : string)
    (table : gmap string float) (age : Z) : float :=
  match bracketOf age with
  | None => Float64.one
  | Some b =>
      match table !! bracketKey b with
      | Some multiplier => multiplier
      | None =>
          match alternateKey policyType b with
          | Some key => default Float64.one (table !! key)
          | None => Float64.one
          end
      end
  end.

(** A table lookup with the neutral multiplier 1.0 on a miss. *)
Definition lookupOrOne (table : gmap string float) (key : string) : float :=
  default Float64.one (table !! key).

(** What the two service-level computations return in a given service
    state; neither depends on the repository calls made before. *)
Definition dynamicMultiplierAt (amb : Ambient) (svc : PricingService)
    (req : QuoteRequest.t) : float :=
  if IsDynamicRatesEnabled (flags svc)
  then fst (calculateDynamicMultiplier amb req {| service := svc; reads := [] |})
  else Float64.one.

Definition discountAt (build : Build) (amb : Ambient) (svc : PricingService)
    (req : QuoteRequest.t) (adjustedRate : float) : float :=
  fst (calculateDiscount build amb req adjustedRate {| service := svc; reads := [] |}).

(** The quote record for given factors. *)
Definition quoteFrom (amb : Ambient) (req : QuoteRequest.t)
    (baseRate coverageMultiplier ageMultiplier riskMultiplier
     dynamicMultiplier discount : float) : Quote.t :=
  let basePremium :=
    (baseRate * coverageMultiplier * ageMultiplier * riskMultiplier)%float in
  let adjustedRate := (basePremium * dynamicMultiplier)%float in
  {| Quote.QuoteID := generateQuoteID amb;
     Quote.PolicyType := QuoteRequest.PolicyType req;
     Quote.CoverageAmount := QuoteRequest.CoverageAmount req;
     Quote.BaseRate := basePremium;
     Quote.AdjustedRate := adjustedRate;
     Quote.Discount := discount;
     Quote.FinalPremium := (adjustedRate - discount)%float;
     Quote.ValidUntil := nowValidUntil amb + thirtyDays;
     Quote.CreatedAt := nowCreatedAt amb;
     Quote.Factors :=
       Some {| Factors.BaseMultiplier := baseRate;
               Factors.CoverageMultiplier := coverageMultiplier;
               Factors.AgeMultiplier := ageMultiplier;
               Factors.RiskMultiplier := riskMultiplier;
               Factors.DynamicMultiplier := dynamicMultiplier;
               Factors.DiscountAmount := discount |} |}.

(** The repository calls of one successful [CalculateQuote], in order. *)
Definition quoteReads (svc : PricingService) (req : QuoteRequest.t) : list Read :=
  [ReadBaseRate (QuoteRequest.PolicyType req);
   ReadCoverageMultiplier (QuoteRequest.PolicyType req) (QuoteRequest.CoverageAmount req);
   ReadAgeMultiplier (QuoteRequest.PolicyType req) (QuoteRequest.CustomerAge req);
   ReadRiskMultiplier (QuoteRequest.PolicyType req) (QuoteRequest.RiskScore req)]
  ++ (if IsDynamicRatesEnabled (flags svc) then [ReadDynamicPricing] else [])
  ++ [ReadDiscounts].

Definition after (w : World) (rds : list Read) : World :=
  {| service := service w; reads := reads w ++ rds |}.

(** ** The discount, as specified and as computed *)

(** [years] meets the threshold written in [key], read the way
    [getLoyaltyDiscount] reads it. *)
Definition meetsThreshold (years : Z) (key : string) : bool :=
  years >=? fmt.Sscanf_d key 0.

(** The best loyalty fraction of the specification: a configured fraction
    whose threshold the years meet, with no such fraction above it. *)
Definition spec_bestLoyaltyFraction (table : gmap string float) (years : Z)
    (best : float) : Prop :=
  (exists key, table !! key = Some best /\ meetsThreshold years key = true)
  /\ (forall key fraction,
        table !! key = Some fraction -> meetsThreshold years key = true ->
        Float64.gt fraction best = false).

(** The sum of a list of fractions, left to right. *)
Definition plainSum (fractions : list float) : float :=
  match fractions with
  | [] => Float64.zero
  | fraction :: rest => fold_left PrimFloat.add rest fraction
  end.

(** The specification gives its amounts to the cent and leaves the rounding
    of the arithmetic open: two amounts agree when they differ by less than
    half a cent. *)
Definition agree (a b : float) : bool := (abs (a - b) <? 0.005)%float.

(** The discount amount of the specification: the adjusted rate times the
    sum, in some order, of the fractions that apply, up to rounding, the
    loyalty fraction being the best one whenever some threshold is met. *)
Definition spec_discountAmount (adjustedRate : float) (req : QuoteRequest.t)
    (discounts : Discounts.t) (amount : float) : Prop :=
  exists (loyalty fractions : list float),
    ((exists best,
         loyalty = [best]
         /\ spec_bestLoyaltyFraction (Discounts.LoyaltyYears discounts)
              (QuoteRequest.LoyaltyYears req) best)
     \/ (loyalty = []
         /\ forall key fraction,
              Discounts.LoyaltyYears discounts !! key = Some fraction ->
              meetsThreshold (QuoteRequest.LoyaltyYears req) key = false))
    /\ fractions ≡ₚ
         ((if QuoteRequest.MultiPolicy req then [Discounts.MultiPolicy discounts] else [])
          ++ loyalty
          ++ (if QuoteRequest.RiskScore req =? 1 then [Discounts.LowRisk discounts] else [])
          ++ (if QuoteRequest.PaperlessBill req
              then [Discounts.PaperlessBilling discounts] else []))%list
    /\ agree amount (adjustedRate * plainSum fractions)%float = true.

(** What the loop of [getLoyaltyDiscount] selects: 0.0, or a configured
    fraction above 0.0 whose threshold the years meet; and no configured
    fraction whose threshold the years meet is above it. *)
Definition isLoyaltyDiscount (table : gmap string float) (years : Z)
    (best : float) : Prop :=
  (best = Float64.zero
   \/ (Float64.gt best Float64.zero = true
       /\ exists key, table !! key = Some best /\ meetsThreshold years key = true))
  /\ (forall key fraction,
        table !! key = Some fraction -> meetsThreshold years key = true ->
        Float64.gt fraction best = false).

(** The products that [calculateDiscount] adds up, in its order. *)
Definition discountTerms (adjustedRate : float) (req : QuoteRequest.t)
    (discounts : Discounts.t) (loyaltyDiscount : float) : list float :=
  ((if QuoteRequest.MultiPolicy req
    then [(adjustedRate * Discounts.MultiPolicy discounts)%float] else [])
   ++ (if QuoteRequest.LoyaltyYears req >? 0
       then [(adjustedRate * loyaltyDiscount)%float] else [])
   ++ (if QuoteRequest.RiskScore req =? 1
       then [(adjustedRate * Discounts.LowRisk discounts)%float] else [])
   ++ (if QuoteRequest.PaperlessBill req
       then [(adjustedRate * Discounts.PaperlessBilling discounts)%float] else []))%list.

(** The discounts that apply to a request, in the order in which
    [calculateDiscount] adds them, each with the statement that adds it. *)
Definition applicableDiscounts (req : QuoteRequest.t) (discounts : Discounts.t)
    (loyaltyDiscount : float) : list (Site * float) :=
  ((if QuoteRequest.MultiPolicy req
    then [(AddMultiPolicy, Discounts.MultiPolicy discounts)] else [])
   ++ (if QuoteRequest.LoyaltyYears req >? 0
       then [(AddLoyalty, loyaltyDiscount)] else [])
   ++ (if QuoteRequest.RiskScore req =? 1
       then [(AddLowRisk, Discounts.LowRisk discounts)] else [])
   ++ (if QuoteRequest.PaperlessBill req
       then [(AddPaperless, Discounts.PaperlessBilling discounts)] else []))%list.

(** The running total after [adjustedRate * fraction] was added for each of
    them, by the code the build has for the addition. *)
Definition accumulate (build : Build) (adjustedRate : float)
    (terms : list (Site * float)) (total : float) : float :=
  fold_left (fun total term => mulAdd build term.1 total adjustedRate term.2)
    terms total.

(** ** The dynamic multiplier, as specified *)

(** The quarter of a calendar month and the bucket of a claims count. *)
Inductive spec_quarter : Z -> string -> Prop :=
| spec_Q1 month : 1 <= month <= 3 -> spec_quarter month "Q1"
| spec_Q2 month : 4 <= month <= 6 -> spec_quarter month "Q2"
| spec_Q3 month : 7 <= month <= 9 -> spec_quarter month "Q3"
| spec_Q4 month : 10 <= month <= 12 -> spec_quarter month "Q4".

Inductive spec_claimsBucket : Z -> string -> Prop :=
| spec_bucket0 : spec_claimsBucket 0 "0"
| spec_bucket1 : spec_claimsBucket 1 "1"
| spec_bucket2 : spec_claimsBucket 2 "2"
| spec_bucket3 claims : 3 <= claims -> spec_claimsBucket claims "3+".

(** The multiplier of the specification, which looks at the switch of the
    rules only: with [Enabled] true the product of the seasonality entry of
    the quarter, the market conditions and the claims-history entry of the
    bucket, a missing entry counting as 1.0; with [Enabled] false 1.0. *)
Definition spec_dynamicMultiplier (dynamicPricing : DynamicPricing.t)
    (quarter bucket : string) : float :=
  if DynamicPricing.Enabled dynamicPricing then
    let factors := DynamicPricing.Factors dynamicPricing in
    (lookupOrOne (DynamicFactors.Seasonality factors) quarter
     * DynamicFactors.MarketConditions factors
     * lookupOrOne (DynamicFactors.ClaimsHistory factors) bucket)%float
  else Float64.one.

(** ** Agreement of two results on the priced fields *)

Definition samePremiums (r1 r2 : result Quote.t) : Prop :=
  match r1, r2 with
  | Ok q1, Ok q2 =>
      Quote.BaseRate q1 = Quote.BaseRate q2
      /\ Quote.AdjustedRate q1 = Quote.AdjustedRate q2
      /\ Quote.Discount q1 = Quote.Discount q2
      /\ Quote.FinalPremium q1 = Quote.FinalPremium q2
      /\ Quote.Factors q1 = Quote.Factors q2
  | Err e1, Err e2 => e1 = e2
  | _, _ => False
  end.

(** Dynamic pricing is enabled: the feature flag is set, the rules are
    loaded and their switch is on. *)
Definition dynamicPricingOn (svc : PricingService) : bool :=
  IsDynamicRatesEnabled (flags svc)
  && match GetDynamicPricing (repo svc) with
     | Some dynamicPricing => DynamicPricing.Enabled dynamicPricing
     | None => false
     end.

(** The [Rate] that [GetAllRates] makes of one entry of [BaseRates]. *)
Definition rateOf (entry : string * PolicyRates.t) : Rate.t :=
  Rate.mk entry.1 (PolicyRates.Base entry.2) (PolicyRates.Coverage entry.2).

(** * Properties *)

(** ** IEEE 754 binary64 facts used by the pricing formulas

    Proved from the specification of the primitive floats ([SpecFloat]). *)

Module Float64Facts.
Import Float64.
Local Open Scope Z_scope.

Lemma SF_one : Prim2SF one = S754_finite false 4503599627370496 (-52).
Proof. reflexivity. Qed.

Lemma SF_zero : Prim2SF zero = S754_zero false.
Proof. reflexivity. Qed.

(** *** The comparison is a strict order on the non-NaN values *)

Lemma SFcompare_lt_trans a b c :
  SFcompare a b = Some Lt -> SFcompare b c = Some Lt -> SFcompare a c = Some Lt.
Proof.
  destruct a as [sa|sa| |sa ma ea], b as [sb|sb| |sb mb eb], c as [sc|sc| |sc mc ec];
    simpl; try discriminate; try reflexivity;
    repeat match goal with s : bool |- _ => destruct s end;
    simpl; try discriminate; try reflexivity.
  all: change (Pos.compare_cont Eq) with Pos.compare.
  all: destruct (Z.compare_spec ea eb), (Z.compare_spec eb ec), (Z.compare_spec ea ec);
       try discriminate; try reflexivity; try lia; subst.
  all: destruct (Pos.compare_spec ma mb), (Pos.compare_spec mb mc), (Pos.compare_spec ma mc);
       simpl; try discriminate; try reflexivity; try lia.
Qed.

Lemma SFcompare_antisym a b c :
  SFcompare a b = Some c -> SFcompare b a = Some (CompOpp c).
Proof.
  destruct a as [sa|sa| |sa ma ea], b as [sb|sb| |sb mb eb];
    simpl; try discriminate;
    repeat match goal with s : bool |- _ => destruct s end;
    simpl; intros [= <-]; try reflexivity.
  all: change (Pos.compare_cont Eq) with Pos.compare.
  all: rewrite (Z.compare_antisym ea eb), (Pos.compare_antisym ma mb).
  all: destruct (ea ?= eb)%Z, (ma ?= mb)%positive; reflexivity.
Qed.

Lemma SFcompare_eq_nonzero a b :
  SFcompare a b = Some Eq -> (forall s, a <> S754_zero s) -> a = b.
Proof.
  destruct a as [sa|sa| |sa ma ea], b as [sb|sb| |sb mb eb];
    simpl; try discriminate; intros H Hz;
    try (exfalso; eapply Hz; reflexivity);
    repeat match goal with s : bool |- _ => destruct s end;
    simpl in H; try discriminate; try reflexivity.
  all: change (Pos.compare_cont Eq) with Pos.compare in H.
  all: destruct (Z.compare_spec ea eb); try discriminate; subst.
  all: destruct (Pos.compare_spec ma mb); try discriminate; subst; reflexivity.
Qed.

Lemma gt_spec a b :
  gt a b = true <-> SFcompare (Prim2SF b) (Prim2SF a) = Some Lt.
Proof.
  unfold gt. rewrite ltb_spec. unfold SFltb.
  destruct (SFcompare (Prim2SF b) (Prim2SF a)) as [[]|]; split; congruence.
Qed.

Lemma gt_irrefl a : gt a a = false.
Proof.
  destruct (gt a a) eqn:H; [|reflexivity].
  apply gt_spec in H. pose proof (SFcompare_antisym _ _ _ H) as H'.
  simpl in H'. congruence.
Qed.

Lemma gt_trans a b c : gt a b = true -> gt b c = true -> gt a c = true.
Proof.
  rewrite !gt_spec. intros H1 H2. eapply SFcompare_lt_trans; eauto.
Qed.

Lemma gt_asym a b : gt a b = true -> gt b a = false.
Proof.
  intros H. destruct (gt b a) eqn:H'; [|reflexivity].
  pose proof (gt_trans _ _ _ H H') as Hc. rewrite gt_irrefl in Hc. discriminate.
Qed.

(** Two values above zero, neither above the other, are the same value:
    above zero there is no NaN and no signed zero to tell apart. *)
Lemma gt_zero_incomparable_eq a b :
  gt a zero = true -> gt b zero = true ->
  gt a b = false -> gt b a = false -> a = b.
Proof.
  intros Ha Hb Hab Hba. apply Prim2SF_inj.
  apply gt_spec in Ha. apply gt_spec in Hb. rewrite SF_zero in Ha, Hb.
  assert (Hn1 : gt a b <> true) by congruence.
  assert (Hn2 : gt b a <> true) by congruence.
  rewrite gt_spec in Hn1, Hn2.
  destruct (SFcompare (Prim2SF a) (Prim2SF b)) as [[]|] eqn:Hc.
  - apply SFcompare_eq_nonzero; [exact Hc|].
    intros s Hs. rewrite Hs in Ha. destruct s; discriminate.
  - congruence.
  - apply SFcompare_antisym in Hc. simpl in Hc. congruence.
  - destruct (Prim2SF a) as [| | |], (Prim2SF b) as [| | |];
      simpl in *; discriminate.
Qed.


(** *** Multiplying by 1.0 is exact *)

Lemma bounded_inv m e :
  bounded prec emax m e = true ->
  fexp prec emax (Zpos (digits2_pos m) + e) = e /\ e <= emax - prec.
Proof.
  unfold bounded, canonical_mantissa. intros H.
  apply andb_prop in H. destruct H as [H1 H2].
  apply Z.eqb_eq in H1. apply Z.leb_le in H2. auto.
Qed.

Lemma round_aux_one s m e :
  bounded prec emax m e = true ->
  binary_round_aux prec emax s (Zpos (m * 4503599627370496)) (e + -52) loc_Exact
  = S754_finite s m e.
Proof.
  intros Hb. destruct (bounded_inv _ _ Hb) as [Hc He].
  rewrite Pos.mul_comm.
  let t := eval lazy in (4503599627370496 * m)%positive in
  change (4503599627370496 * m)%positive with t.
  unfold binary_round_aux, shr_fexp.
  cbn [Zdigits2 digits2_pos shr_record_of_loc].
  replace (Z.pos (Pos.succ _) + (e + -52)) with (Zpos (digits2_pos m) + e)
    by (rewrite !Pos2Z.inj_succ; lia).
  rewrite Hc.
  replace (e - (e + -52)) with 52 by lia.
  cbn [shr SpecFloat.iter_pos shr_1 orb shr_m loc_of_shr_record round_nearest_even Zdigits2].
  replace (e + -52 + 52) with e by lia.
  rewrite Hc, Z.sub_diag. cbn [shr shr_record_of_loc shr_m].
  apply Z.leb_le in He. rewrite He. reflexivity.
Qed.

Lemma mul_1_r (x : float) : (x * one)%float = x.
Proof.
  apply Prim2SF_inj. rewrite mul_spec, SF_one.
  pose proof (Prim2SF_valid x) as Hv.
  destruct (Prim2SF x) as [s|s| |s m e]; cbn [SF64mul SFmul].
  - now rewrite xorb_false_r.
  - now rewrite xorb_false_r.
  - reflexivity.
  - rewrite xorb_false_r. apply round_aux_one. exact Hv.
Qed.

Lemma mul_1_l (x : float) : (one * x)%float = x.
Proof.
  apply Prim2SF_inj. rewrite mul_spec, SF_one.
  pose proof (Prim2SF_valid x) as Hv.
  destruct (Prim2SF x) as [s|s| |s m e]; cbn [SF64mul SFmul xorb]; try reflexivity.
  rewrite Pos.mul_comm, Z.add_comm. apply round_aux_one. exact Hv.
Qed.

(** *** Subtracting a larger value gives a value below zero *)

Lemma digits2_pos_bounds m :
  2 ^ (Zpos (digits2_pos m) - 1) <= Zpos m < 2 ^ Zpos (digits2_pos m).
Proof.
  induction m as [m IH|m IH|]; cbn [digits2_pos].
  - rewrite Pos2Z.inj_succ, Z.pow_succ_r by lia.
    replace (Z.succ (Zpos (digits2_pos m)) - 1) with (Z.succ (Zpos (digits2_pos m) - 1)) by lia.
    rewrite Z.pow_succ_r by lia. lia.
  - rewrite Pos2Z.inj_succ, Z.pow_succ_r by lia.
    replace (Z.succ (Zpos (digits2_pos m)) - 1) with (Z.succ (Zpos (digits2_pos m) - 1)) by lia.
    rewrite Z.pow_succ_r by lia. lia.
  - simpl. lia.
Qed.

Lemma shr_1_m mrs : 0 <= shr_m mrs -> shr_m (shr_1 mrs) = shr_m mrs / 2.
Proof.
  rewrite <- Z.div2_div.
  destruct mrs as [[|[p|p|]|p] r s]; cbn [shr_m]; try reflexivity; lia.
Qed.

Lemma iter_shr_1_m p : forall mrs,
  0 <= shr_m mrs ->
  shr_m (SpecFloat.iter_pos shr_1 p mrs) = shr_m mrs / 2 ^ Zpos p.
Proof.
  induction p as [p IH|p IH|]; intros mrs Hm; cbn [SpecFloat.iter_pos].
  - assert (H1 : 0 <= shr_m (shr_1 mrs)).
    { rewrite shr_1_m by lia. apply Z.div_pos; lia. }
    assert (H2 : 0 <= shr_m (SpecFloat.iter_pos shr_1 p (shr_1 mrs))).
    { rewrite IH by lia. apply Z.div_pos; lia. }
    rewrite IH, IH, shr_1_m by lia.
    rewrite !Z.div_div by lia. f_equal.
    replace (Zpos p~1) with (Zpos p + Zpos p + 1) by lia.
    rewrite !Z.pow_add_r, Z.pow_1_r by lia. ring.
  - assert (H2 : 0 <= shr_m (SpecFloat.iter_pos shr_1 p mrs)).
    { rewrite IH by lia. apply Z.div_pos; lia. }
    rewrite IH, IH by lia.
    rewrite !Z.div_div by lia. f_equal.
    replace (Zpos p~0) with (Zpos p + Zpos p) by lia.
    rewrite Z.pow_add_r by lia. ring.
  - rewrite shr_1_m by lia. reflexivity.
Qed.

(* after a right shift by fewer bits than the mantissa has, it stays positive *)
Lemma shr_fexp_pos m e l :
  emin prec emax <= e ->
  let '(mrs, e') := shr_fexp prec emax (Zpos m) e l in
  0 < shr_m mrs /\ emin prec emax <= e'.
Proof.
  intros He. unfold shr_fexp. cbn [Zdigits2].
  set (d := Zpos (digits2_pos m)).
  assert (Hn : fexp prec emax (d + e) - e < d).
  { unfold fexp. change prec with 53 in *. lia. }
  assert (Hm : shr_m (shr_record_of_loc (Zpos m) l) = Zpos m).
  { destruct l as [|[]]; reflexivity. }
  destruct (fexp prec emax (d + e) - e) as [|n|n] eqn:En; cbn [shr].
  - rewrite Hm. lia.
  - rewrite iter_shr_1_m by (rewrite Hm; lia). rewrite Hm. split.
    + apply Z.div_str_pos. split; [lia|].
      pose proof (digits2_pos_bounds m) as [Hlo _]. fold d in Hlo.
      apply Z.le_trans with (2 ^ (d - 1)); [|exact Hlo].
      apply Z.pow_le_mono_r; lia.
    + lia.
  - rewrite Hm. lia.
Qed.

Lemma binary_round_aux_sign s m e l :
  emin prec emax <= e ->
  (exists m' e', binary_round_aux prec emax s (Zpos m) e l = S754_finite s m' e')
  \/ binary_round_aux prec emax s (Zpos m) e l = S754_infinity s.
Proof.
  intros He. unfold binary_round_aux.
  pose proof (shr_fexp_pos m e l He) as H1.
  destruct (shr_fexp prec emax (Zpos m) e l) as [mrs' e'].
  destruct H1 as [Hpos He'].
  set (m1 := round_nearest_even (shr_m mrs') (loc_of_shr_record mrs')).
  assert (Hm1 : 0 < m1).
  { unfold m1, round_nearest_even.
    destruct (loc_of_shr_record mrs') as [|[]]; try lia.
    destruct (Z.even (shr_m mrs')); lia. }
  destruct m1 as [|p1|p1]; try lia.
  pose proof (shr_fexp_pos p1 e' loc_Exact He') as H2.
  destruct (shr_fexp prec emax (Zpos p1) e' loc_Exact) as [mrs'' e''].
  destruct H2 as [Hpos2 _].
  destruct (shr_m mrs'') as [|p2|p2]; try lia.
  destruct (e'' <=? emax - prec); eauto.
Qed.

Lemma fexp_ge_emin e : emin prec emax <= fexp prec emax e.
Proof. unfold fexp. lia. Qed.

Lemma binary_round_sign s m e :
  emin prec emax <= e ->
  (exists m' e', binary_round prec emax s m e = S754_finite s m' e')
  \/ binary_round prec emax s m e = S754_infinity s.
Proof.
  intros He. unfold binary_round, shl_align.
  pose proof (fexp_ge_emin (Zpos (digits2_pos m) + e)) as Hf.
  destruct (fexp prec emax (Zpos (digits2_pos m) + e) - e);
    apply binary_round_aux_sign; assumption.
Qed.

Lemma shl_align_value m e ez :
  ez <= e -> Zpos (fst (shl_align m e ez)) = Zpos m * 2 ^ (e - ez).
Proof.
  intros He. unfold shl_align.
  destruct (ez - e) as [|d|d] eqn:Ed; cbn [fst]; try lia.
  - replace (e - ez) with 0 by lia. rewrite Z.pow_0_r. lia.
  - replace (e - ez) with (Zpos d) by lia.
    rewrite <- Z.shiftl_mul_pow2 by lia. cbn [Z.shiftl].
    apply (Pos.iter_swap_gen _ _ Zpos xO (Z.mul 2)). reflexivity.
Qed.

Lemma canonical_bounds m e :
  bounded prec emax m e = true ->
  emin prec emax <= e /\ Zpos m < 2 ^ 53 /\
  (emin prec emax < e -> 2 ^ 52 <= Zpos m).
Proof.
  intros Hb. destruct (bounded_inv _ _ Hb) as [Hc _].
  pose proof (digits2_pos_bounds m) as [Hlo Hhi].
  unfold fexp, emin in *. change prec with 53 in *. change emax with 1024 in *.
  set (d := Zpos (digits2_pos m)) in *.
  split; [lia|]. split.
  - apply Z.lt_le_trans with (2 ^ d); [exact Hhi|].
    apply Z.pow_le_mono_r; lia.
  - intros He. replace 52 with (d - 1) by lia. exact Hlo.
Qed.




(** *** Products and sums of values that are not below zero *)

Lemma shr_fexp_nonneg m e l :
  0 <= m -> 0 <= shr_m (fst (shr_fexp prec emax m e l)).
Proof.
  intros Hm. unfold shr_fexp.
  assert (H0 : shr_m (shr_record_of_loc m l) = m).
  { destruct l as [|[]]; reflexivity. }
  destruct (fexp prec emax (Zdigits2 m + e) - e) as [|n|n]; cbn [shr fst];
    rewrite ?H0; try exact Hm.
  rewrite iter_shr_1_m by (rewrite H0; exact Hm). rewrite H0.
  apply Z.div_pos; lia.
Qed.

(** Rounding keeps the sign, also when the value underflows to zero. *)
Lemma binary_round_aux_keeps_sign s m e l :
  0 <= m ->
  binary_round_aux prec emax s m e l = S754_zero s
  \/ (exists m' e', binary_round_aux prec emax s m e l = S754_finite s m' e')
  \/ binary_round_aux prec emax s m e l = S754_infinity s.
Proof.
  intros Hm. unfold binary_round_aux.
  pose proof (shr_fexp_nonneg m e l Hm) as H1.
  destruct (shr_fexp prec emax m e l) as [mrs' e']. cbn [fst] in H1.
  set (m1 := round_nearest_even (shr_m mrs') (loc_of_shr_record mrs')).
  assert (Hm1 : 0 <= m1).
  { unfold m1, round_nearest_even.
    destruct (loc_of_shr_record mrs') as [|[]]; try lia.
    destruct (Z.even (shr_m mrs')); lia. }
  pose proof (shr_fexp_nonneg m1 e' loc_Exact Hm1) as H2.
  destruct (shr_fexp prec emax m1 e' loc_Exact) as [mrs'' e'']. cbn [fst] in H2.
  destruct (shr_m mrs'') as [|p2|p2]; [left; reflexivity| |lia].
  right. destruct (e'' <=? emax - prec); eauto.
Qed.

Lemma SF_not_negative (x : float) :
  gt zero x = false <->
  match Prim2SF x with
  | S754_infinity true | S754_finite true _ _ => False
  | _ => True
  end.
Proof.
  unfold gt. rewrite ltb_spec, SF_zero. unfold SFltb.
  destruct (Prim2SF x) as [[]|[]| |[] m e]; cbn; split; auto; try discriminate;
    intros [].
Qed.

Lemma mul_not_negative (a b : float) :
  gt zero a = false -> gt zero b = false -> gt zero (a * b)%float = false.
Proof.
  rewrite !SF_not_negative, mul_spec.
  destruct (Prim2SF a) as [sa|[]| |[] ma ea], (Prim2SF b) as [sb|[]| |[] mb eb];
    cbn [SF64mul SFmul xorb]; try tauto; intros _ _;
    try (destruct sa; exact I); try (destruct sb; exact I);
    try (destruct sa, sb; exact I).
  destruct (binary_round_aux_keeps_sign false (Zpos (ma * mb)) (ea + eb) loc_Exact)
    as [-> | [(m' & e' & ->) | ->]]; [lia|exact I..].
Qed.

Lemma add_not_negative (a b : float) :
  gt zero a = false -> gt zero b = false -> gt zero (a + b)%float = false.
Proof.
  rewrite !SF_not_negative, add_spec.
  pose proof (Prim2SF_valid a) as Ha. pose proof (Prim2SF_valid b) as Hb.
  destruct (Prim2SF a) as [sa|[]| |[] ma ea], (Prim2SF b) as [sb|[]| |[] mb eb];
    cbn [SF64add SFadd Bool.eqb]; try tauto; intros _ _;
    try (destruct sa; exact I); try (destruct sb; exact I);
    try (destruct sa, sb; exact I).
  cbn [cond_Zopp]. rewrite <- Pos2Z.inj_add. unfold binary_normalize. cbv iota.
  destruct (canonical_bounds _ _ Ha) as (Hea & _).
  destruct (canonical_bounds _ _ Hb) as (Heb & _).
  destruct (binary_round_sign false
              (fst (shl_align ma ea (Z.min ea eb)) + fst (shl_align mb eb (Z.min ea eb)))
              (Z.min ea eb) ltac:(lia))
    as [(m' & e' & ->) | ->]; exact I.
Qed.

(** *** Every rounded value is a value of the format *)

Lemma Zdigits2_bounds m :
  0 < m -> 0 < Zdigits2 m /\ 2 ^ (Zdigits2 m - 1) <= m < 2 ^ Zdigits2 m.
Proof.
  destruct m as [|p|p]; try lia. intros _. cbn [Zdigits2].
  split; [lia|apply digits2_pos_bounds].
Qed.

Lemma Zdigits2_char m k :
  0 < k -> 2 ^ (k - 1) <= m < 2 ^ k -> Zdigits2 m = k.
Proof.
  intros Hk [Hlo Hhi].
  assert (Hm : 0 < m).
  { apply Z.lt_le_trans with (2 ^ (k - 1)); [apply Z.pow_pos_nonneg; lia|exact Hlo]. }
  destruct (Zdigits2_bounds m Hm) as (Hd & Hdlo & Hdhi).
  destruct (Z.lt_trichotomy (Zdigits2 m) k) as [Hlt | [Heq | Hgt]]; [|exact Heq|].
  - assert (2 ^ Zdigits2 m <= 2 ^ (k - 1)) by (apply Z.pow_le_mono_r; lia). lia.
  - assert (2 ^ k <= 2 ^ (Zdigits2 m - 1)) by (apply Z.pow_le_mono_r; lia). lia.
Qed.

Lemma Zdigits2_div m n :
  0 < m -> 0 <= n < Zdigits2 m ->
  0 < m / 2 ^ n /\ Zdigits2 (m / 2 ^ n) = Zdigits2 m - n.
Proof.
  intros Hm Hn. destruct (Zdigits2_bounds m Hm) as (Hd & Hlo & Hhi).
  assert (Hp : 0 < 2 ^ n) by (apply Z.pow_pos_nonneg; lia).
  assert (Hlo' : 2 ^ (Zdigits2 m - n - 1) <= m / 2 ^ n).
  { apply Z.div_le_lower_bound; [exact Hp|].
    rewrite <- Z.pow_add_r by lia.
    replace (n + (Zdigits2 m - n - 1)) with (Zdigits2 m - 1) by lia. exact Hlo. }
  assert (Hhi' : m / 2 ^ n < 2 ^ (Zdigits2 m - n)).
  { apply Z.div_lt_upper_bound; [exact Hp|].
    rewrite <- Z.pow_add_r by lia.
    replace (n + (Zdigits2 m - n)) with (Zdigits2 m) by lia. exact Hhi. }
  assert (Hpos : 0 < 2 ^ (Zdigits2 m - n - 1)) by (apply Z.pow_pos_nonneg; lia).
  split; [lia|]. apply Zdigits2_char; [lia|].
  replace (Zdigits2 m - n - 1) with (Zdigits2 m - n - 1) in Hlo' by lia.
  split; [exact Hlo'|exact Hhi'].
Qed.

Lemma Zdigits2_div_small m n :
  0 < m -> Zdigits2 m <= n -> m / 2 ^ n = 0.
Proof.
  intros Hm Hn. destruct (Zdigits2_bounds m Hm) as (Hd & _ & Hhi).
  apply Z.div_small. split; [lia|].
  apply Z.lt_le_trans with (2 ^ Zdigits2 m); [exact Hhi|].
  apply Z.pow_le_mono_r; lia.
Qed.

Lemma Zdigits2_mul m n :
  0 < m -> 0 <= n -> Zdigits2 (m * 2 ^ n) = Zdigits2 m + n.
Proof.
  intros Hm Hn. destruct (Zdigits2_bounds m Hm) as (Hd & Hlo & Hhi).
  assert (Hp : 0 < 2 ^ n) by (apply Z.pow_pos_nonneg; lia).
  apply Zdigits2_char; [lia|].
  replace (Zdigits2 m + n - 1) with (Zdigits2 m - 1 + n) by lia.
  rewrite !Z.pow_add_r by lia. nia.
Qed.

(** What [shr_fexp] returns: the mantissa shifted down to the exponent of
    the format, when that is above the exponent given. *)
Lemma shr_fexp_value m e l :
  0 <= m ->
  let n := fexp prec emax (Zdigits2 m + e) - e in
  shr_m (fst (shr_fexp prec emax m e l)) = (if 0 <? n then m / 2 ^ n else m)
  /\ snd (shr_fexp prec emax m e l) = (if 0 <? n then e + n else e).
Proof.
  intros Hm. cbv zeta. unfold shr_fexp.
  assert (H0 : shr_m (shr_record_of_loc m l) = m).
  { destruct l as [|[]]; reflexivity. }
  destruct (fexp prec emax (Zdigits2 m + e) - e) as [|n|n]; cbn [shr fst snd Z.ltb Z.compare].
  - auto.
  - rewrite iter_shr_1_m by (rewrite H0; exact Hm). rewrite H0. auto.
  - auto.
Qed.

Lemma round_nearest_even_bounds m l :
  m <= round_nearest_even m l <= m + 1.
Proof.
  unfold round_nearest_even. destruct l as [|[]]; try lia.
  destruct (Z.even m); lia.
Qed.

Lemma fexp_unfold e : fexp prec emax e = Z.max (e - 53) (-1074).
Proof. reflexivity. Qed.

(** After the first shift the mantissa has at most 53 digits and sits at the
    exponent of the format; rounding up can add one digit, which the second
    shift takes away again. *)
Lemma binary_round_aux_valid s m e l :
  e <= fexp prec emax (Zdigits2 (Zpos m) + e) ->
  valid_binary prec emax (binary_round_aux prec emax s (Zpos m) e l) = true.
Proof.
  intros He. unfold binary_round_aux.
  destruct (shr_fexp_value (Zpos m) e l ltac:(lia)) as [Hm1 He1]. cbv zeta in Hm1, He1.
  destruct (shr_fexp prec emax (Zpos m) e l) as [mrs' e']. cbn [fst snd] in Hm1, He1.
  set (d := Zdigits2 (Zpos m)) in *.
  set (f := fexp prec emax (d + e)) in *.
  destruct (Zdigits2_bounds (Zpos m) ltac:(lia)) as (Hd & Hdlo & Hdhi). fold d in Hd, Hdlo, Hdhi.
  assert (Hf : f = Z.max (d + e - 53) (-1074)) by apply fexp_unfold.
  assert (He' : e' = f).
  { rewrite He1. destruct (Z.ltb_spec 0 (f - e)); lia. }
  clear He1. subst e'.
  pose proof (round_nearest_even_bounds (shr_m mrs') (loc_of_shr_record mrs')) as Hr.
  set (m1 := shr_m mrs') in *.
  set (m1' := round_nearest_even m1 (loc_of_shr_record mrs')) in *.
  (* the first shift *)
  assert (H1 : (m1 = 0 /\ f = -1074)
               \/ (0 < m1 /\ Zdigits2 m1 + f = d + e /\ Zdigits2 m1 <= 53)).
  { rewrite Hm1. destruct (Z.ltb_spec 0 (f - e)) as [Hn | Hn].
    - destruct (Z.lt_ge_cases (f - e) d) as [Hnd | Hnd].
      + right. destruct (Zdigits2_div (Zpos m) (f - e) ltac:(lia) ltac:(fold d; lia))
          as [Hpos Hdig]. fold d in Hdig. split; [exact Hpos|]. lia.
      + left. split; [apply Zdigits2_div_small; [lia|fold d; lia]|lia].
    - right. split; [lia|]. fold d. lia. }
  assert (Hm1' : 0 <= m1') by (destruct H1 as [[-> _] | [H1 _]]; lia).
  destruct (shr_fexp_value m1' f loc_Exact Hm1') as [Hm2 He2]. cbv zeta in Hm2, He2.
  destruct (shr_fexp prec emax m1' f loc_Exact) as [mrs'' e'']. cbn [fst snd] in Hm2, He2.
  rewrite fexp_unfold in Hm2, He2.
  assert (H2 : shr_m mrs'' = 0
               \/ (0 < shr_m mrs''
                   /\ Z.max (Zdigits2 (shr_m mrs'') + e'' - 53) (-1074) = e'')).
  { destruct H1 as [[H1 Hfe] | (H1 & Hdig & Hle)].
    - (* everything was shifted out *)
      assert (Hc : m1' = 0 \/ m1' = 1) by lia.
      destruct Hc as [Hc | Hc]; rewrite Hc in Hm2, He2;
        cbn [Zdigits2 digits2_pos] in Hm2, He2.
      + destruct (Z.ltb_spec 0 (Z.max (0 + f - 53) (-1074) - f)); [lia|].
        left. exact Hm2.
      + destruct (Z.ltb_spec 0 (Z.max (1 + f - 53) (-1074) - f)); [lia|].
        right. rewrite Hm2, He2. cbn [Zdigits2 digits2_pos]. lia.
    - destruct (Zdigits2_bounds m1 H1) as (Hd1 & Hlo1 & Hhi1).
      set (d1 := Zdigits2 m1) in *.
      destruct (Z.lt_ge_cases m1' (2 ^ d1)) as [Hsame | Hup].
      + (* no new digit *)
        assert (Hd' : Zdigits2 m1' = d1) by (apply Zdigits2_char; lia).
        rewrite Hd' in Hm2, He2.
        destruct (Z.ltb_spec 0 (Z.max (d1 + f - 53) (-1074) - f)); [lia|].
        right. rewrite Hm2, He2, Hd'. lia.
      + (* the mantissa became a power of two *)
        assert (Hpow : m1' = 2 ^ d1) by lia.
        assert (Hd' : Zdigits2 m1' = d1 + 1).
        { apply Zdigits2_char; [lia|]. rewrite Hpow.
          replace (d1 + 1 - 1) with d1 by lia.
          rewrite Z.pow_add_r, Z.pow_1_r by lia.
          assert (0 < 2 ^ d1) by (apply Z.pow_pos_nonneg; lia). lia. }
        rewrite Hd' in Hm2, He2.
        destruct (Z.ltb_spec 0 (Z.max (d1 + 1 + f - 53) (-1074) - f)) as [Hn2 | Hn2].
        * assert (Hone : Z.max (d1 + 1 + f - 53) (-1074) - f = 1) by lia.
          rewrite Hone in Hm2, He2.
          assert (Hhalf : m1' / 2 ^ 1 = 2 ^ (d1 - 1)).
          { rewrite Hpow. replace d1 with (d1 - 1 + 1) at 1 by lia.
            rewrite Z.pow_add_r by lia. apply Z.div_mul. discriminate. }
          rewrite Hhalf in Hm2.
          assert (Hpos : 0 < 2 ^ (d1 - 1)) by (apply Z.pow_pos_nonneg; lia).
          assert (Hd2 : Zdigits2 (shr_m mrs'') = d1).
          { apply Zdigits2_char; [lia|]. rewrite Hm2.
            split; [lia|]. apply Z.pow_lt_mono_r; lia. }
          right. rewrite Hd2, He2. split; [lia|lia].
        * right. rewrite Hm2, He2, Hd'. split; [lia|lia]. }
  destruct H2 as [H2 | [H2 Hcanon]].
  - rewrite H2. reflexivity.
  - destruct (shr_m mrs'') as [|p|p]; try lia.
    destruct (Z.leb_spec e'' (emax - prec)) as [Hle | Hgt]; [|reflexivity].
    cbn [valid_binary]. unfold bounded, canonical_mantissa.
    rewrite fexp_unfold. cbn [Zdigits2] in Hcanon.
    apply andb_true_iff. split; [apply Z.eqb_eq; exact Hcanon|apply Z.leb_le; exact Hle].
Qed.

Lemma shl_align_exponent m e ez :
  snd (shl_align m e ez) = Z.min e ez.
Proof.
  unfold shl_align. destruct (ez - e) as [|d|d] eqn:Ed; cbn [snd]; lia.
Qed.

Lemma binary_round_valid s m e :
  valid_binary prec emax (binary_round prec emax s m e) = true.
Proof.
  unfold binary_round.
  set (f := fexp prec emax (Zpos (digits2_pos m) + e)).
  pose proof (shl_align_exponent m e f) as Hez.
  destruct (Z.le_gt_cases f e) as [Hfe | Hfe].
  - pose proof (shl_align_value m e f Hfe) as Hmz.
    destruct (shl_align m e f) as [mz ez]. cbn [fst snd] in *.
    apply binary_round_aux_valid.
    rewrite Hmz, Zdigits2_mul by lia. cbn [Zdigits2].
    replace (Zpos (digits2_pos m) + (e - f) + ez) with (Zpos (digits2_pos m) + e) by lia.
    fold f. lia.
  - assert (Hsame : shl_align m e f = (m, e)).
    { unfold shl_align. destruct (f - e) as [|d|d] eqn:Ed; try reflexivity; lia. }
    rewrite Hsame. apply binary_round_aux_valid. cbn [Zdigits2]. fold f. lia.
Qed.

Lemma binary_normalize_valid m e szero :
  valid_binary prec emax (binary_normalize prec emax m e szero) = true.
Proof. destruct m; [reflexivity|apply binary_round_valid..]. Qed.

Lemma SFfma_valid x y z :
  valid_binary prec emax z = true -> valid_binary prec emax (SFfma x y z) = true.
Proof.
  intros Hz.
  destruct x as [sx|sx| |sx mx ex], y as [sy|sy| |sy my ey],
           z as [sz|sz| |sz mz ez];
    cbn [SFfma SF64add SFadd];
    first [ reflexivity
          | exact Hz
          | apply binary_round_valid
          | apply binary_normalize_valid
          | destruct (Bool.eqb _ _); first [reflexivity | exact Hz]
          | destruct sx, sy, sz; reflexivity ].
Qed.

(** *** The fused multiply-add *)

(** The fused operation computes what its specification says. *)
Lemma fma_spec (x y z : float) :
  Prim2SF (fma x y z) = SFfma (Prim2SF x) (Prim2SF y) (Prim2SF z).
Proof. apply Prim2SF_SF2Prim, SFfma_valid, Prim2SF_valid. Qed.

Lemma binary_round_keeps_sign s m e :
  binary_round prec emax s m e = S754_zero s
  \/ (exists m' e', binary_round prec emax s m e = S754_finite s m' e')
  \/ binary_round prec emax s m e = S754_infinity s.
Proof.
  unfold binary_round.
  destruct (shl_align m e (fexp prec emax (Zpos (digits2_pos m) + e))) as [mz ez].
  apply binary_round_aux_keeps_sign. lia.
Qed.

Lemma fma_not_negative (x y z : float) :
  gt zero x = false -> gt zero y = false -> gt zero z = false ->
  gt zero (fma x y z) = false.
Proof.
  rewrite !SF_not_negative, fma_spec.
  destruct (Prim2SF x) as [sx|[]| |[] mx ex], (Prim2SF y) as [sy|[]| |[] my ey],
           (Prim2SF z) as [sz|[]| |[] mz ez];
    cbn [SFfma SF64add SFadd xorb Bool.eqb cond_Zopp]; try tauto; intros _ _ _;
    try exact I;
    try (destruct sx; exact I); try (destruct sy; exact I);
    try (destruct sx, sy; exact I);
    try (destruct sx, sy, sz; exact I);
    try (destruct sx, sz; exact I); try (destruct sy, sz; exact I);
    try (destruct (binary_round_keeps_sign false (mx * my) (ex + ey))
           as [-> | [(m' & e' & ->) | ->]]; exact I).
  rewrite <- Pos2Z.inj_add. unfold binary_normalize. cbv iota.
  match goal with
  | |- context [binary_round prec emax false ?m ?e] =>
      destruct (binary_round_keeps_sign false m e) as [-> | [(m' & e' & ->) | ->]]
  end; exact I.
Qed.

(** Subtracting 0.0 changes nothing, not even the sign of a zero. *)
Lemma sub_0_r (x : float) : (x - zero)%float = x.
Proof.
  apply Prim2SF_inj. rewrite sub_spec. unfold zero.
  change (Prim2SF 0) with (S754_zero false).
  destruct (Prim2SF x) as [[]|[]| |[] m e]; reflexivity.
Qed.

End Float64Facts.

(** Two float constants are different when their decodings are. *)
Ltac floats_differ H :=
  apply (f_equal Prim2SF) in H; vm_compute in H; discriminate H.

(** ** Validation *)

Lemma supportedPolicyType_eqb policyType :
  negb (String.eqb policyType "auto") && negb (String.eqb policyType "home")
    && negb (String.eqb policyType "life") = false
  <-> supportedPolicyType policyType.
Proof.
  unfold supportedPolicyType.
  destruct (String.eqb_spec policyType "auto"), (String.eqb_spec policyType "home"),
    (String.eqb_spec policyType "life"); simpl; intuition congruence.
Qed.

Lemma validateRequest_None req :
  validateRequest req = None <-> validRequest req.
Proof.
  unfold validateRequest, validRequest.
  rewrite <- supportedPolicyType_eqb.
  destruct (negb _ && negb _ && negb _); [intuition discriminate|].
  destruct (Z.leb_spec (QuoteRequest.CoverageAmount req) 0);
    [split; [discriminate|lia]|].
  destruct (Z.ltb_spec (QuoteRequest.CustomerAge req) 18);
    [split; [discriminate|lia]|].
  rewrite Z.gtb_ltb.
  destruct (Z.ltb_spec 120 (QuoteRequest.CustomerAge req));
    [split; [discriminate|lia]|].
  destruct (Z.ltb_spec (QuoteRequest.RiskScore req) 1);
    [split; [discriminate|lia]|].
  rewrite Z.gtb_ltb.
  destruct (Z.ltb_spec 5 (QuoteRequest.RiskScore req));
    [split; [discriminate|lia]|].
  simpl. intuition lia.
Qed.

Lemma validateRequest_Some req err :
  validateRequest req = Some err -> isValidationError err = true.
Proof.
  unfold validateRequest.
  repeat match goal with |- context [if ?b then _ else _] => destruct b end;
    intros [= <-]; reflexivity.
Qed.

Lemma validateRequest_cause req err :
  validateRequest req = Some err ->
  (err = ErrInvalidPolicyType (QuoteRequest.PolicyType req)
   /\ ~ supportedPolicyType (QuoteRequest.PolicyType req))
  \/ (err = ErrCoverageAmount /\ QuoteRequest.CoverageAmount req <= 0)
  \/ (err = ErrCustomerAge
      /\ (QuoteRequest.CustomerAge req < 18 \/ 120 < QuoteRequest.CustomerAge req))
  \/ (err = ErrRiskScore
      /\ (QuoteRequest.RiskScore req < 1 \/ 5 < QuoteRequest.RiskScore req)).
Proof.
  unfold validateRequest. rewrite !Z.gtb_ltb.
  destruct (negb _ && negb _ && negb _) eqn:Hpt.
  { intros [= <-]. left. split; [reflexivity|].
    rewrite <- supportedPolicyType_eqb. congruence. }
  destruct (Z.leb_spec (QuoteRequest.CoverageAmount req) 0).
  { intros [= <-]. right. left. auto. }
  destruct (Z.ltb_spec (QuoteRequest.CustomerAge req) 18);
    [intros [= <-]; right; right; left; auto|].
  destruct (Z.ltb_spec 120 (QuoteRequest.CustomerAge req));
    [intros [= <-]; right; right; left; auto|].
  destruct (Z.ltb_spec (QuoteRequest.RiskScore req) 1);
    [intros [= <-]; right; right; right; auto|].
  destruct (Z.ltb_spec 5 (QuoteRequest.RiskScore req));
    [intros [= <-]; right; right; right; auto|].
  discriminate.
Qed.

(** C3: [validateRequest] accepts a request exactly when its policy type is
    auto, home or life, its coverage amount is above 0, its age is in
    [18,120] and its risk score in [1,5]; otherwise it returns a validation
    error that names a rule the request breaks, and [CalculateQuote] returns
    that error with no quote and without a single repository call, whatever
    the repository holds.  Ages 18 and 120 pass, 17 and 121 are rejected with
    the age error when nothing else is wrong. *)
Theorem C3_validation_exact :
  forall req : QuoteRequest.t,
    (validateRequest req = None <-> validRequest req)
    /\ (~ validRequest req <->
        exists err, validateRequest req = Some err /\ isValidationError err = true)
    /\ (forall err, validateRequest req = Some err ->
        ((err = ErrInvalidPolicyType (QuoteRequest.PolicyType req)
          /\ ~ supportedPolicyType (QuoteRequest.PolicyType req))
         \/ (err = ErrCoverageAmount /\ QuoteRequest.CoverageAmount req <= 0)
         \/ (err = ErrCustomerAge
             /\ (QuoteRequest.CustomerAge req < 18 \/ 120 < QuoteRequest.CustomerAge req))
         \/ (err = ErrRiskScore
             /\ (QuoteRequest.RiskScore req < 1 \/ 5 < QuoteRequest.RiskScore req)))
        /\ forall build amb w, CalculateQuote build amb req w = (Err err, w))
    /\ (validRequest req ->
        validateRequest (withAge req 18) = None
        /\ validateRequest (withAge req 120) = None
        /\ validateRequest (withAge req 17) = Some ErrCustomerAge
        /\ validateRequest (withAge req 121) = Some ErrCustomerAge).
Proof.
  intros req. split; [apply validateRequest_None|]. split; [|split].
  - rewrite <- validateRequest_None. split.
    + destruct (validateRequest req) as [err|] eqn:E; [|congruence].
      intros _. exists err. split; [reflexivity|].
      eapply validateRequest_Some; eauto.
    + intros (err & -> & _). discriminate.
  - intros err Herr. split; [apply validateRequest_cause; exact Herr|].
    intros build amb w. unfold CalculateQuote. rewrite Herr. reflexivity.
  - intros (Hpt & Hcov & Hage & Hrisk).
    assert (Hv : forall age, 18 <= age <= 120 -> validateRequest (withAge req age) = None).
    { intros age Ha. apply validateRequest_None. repeat split; simpl; try lia; assumption. }
    assert (Hr : forall age, age < 18 \/ 120 < age ->
                             validateRequest (withAge req age) = Some ErrCustomerAge).
    { intros age Ha. unfold validateRequest. cbn [withAge QuoteRequest.PolicyType
        QuoteRequest.CoverageAmount QuoteRequest.CustomerAge].
      apply supportedPolicyType_eqb in Hpt. rewrite Hpt.
      destruct (Z.leb_spec (QuoteRequest.CoverageAmount req) 0); [lia|].
      rewrite Z.gtb_ltb.
      destruct (Z.ltb_spec age 18), (Z.ltb_spec 120 age); try reflexivity; lia. }
    repeat split; [apply Hv; lia | apply Hv; lia | apply Hr; lia | apply Hr; lia].
Qed.

Lemma C3_validation_exact_witness :
  validateRequest (withAge sample.request 18) = None
  /\ validateRequest (withAge sample.request 120) = None
  /\ validateRequest (withAge sample.request 17) = Some ErrCustomerAge
  /\ validateRequest (withAge sample.request 121) = Some ErrCustomerAge.
Proof.
  destruct (C3_validation_exact sample.request) as (Hvalid & _ & _ & Hages).
  apply Hages. apply Hvalid. reflexivity.
Defined.

(** ** Claims history *)

Lemma getClaimsHistoryKey_other claims :
  claims <> 0 -> claims <> 1 -> claims <> 2 -> getClaimsHistoryKey claims = "3+".
Proof.
  intros H0 H1 H2. unfold getClaimsHistoryKey.
  destruct (Z.eqb_spec claims 0); [lia|].
  destruct (Z.eqb_spec claims 1); [lia|].
  destruct (Z.eqb_spec claims 2); [lia|reflexivity].
Qed.

Lemma CalculateQuote_claims_key build req c c' amb w :
  getClaimsHistoryKey c = getClaimsHistoryKey c' ->
  CalculateQuote build amb (withClaimsHistory req c) w
  = CalculateQuote build amb (withClaimsHistory req c') w.
Proof.
  intros Hk.
  unfold CalculateQuote, calculateDynamicMultiplier, calculateDiscount, validateRequest.
  cbn [withClaimsHistory QuoteRequest.PolicyType QuoteRequest.CoverageAmount
       QuoteRequest.CustomerAge QuoteRequest.RiskScore QuoteRequest.MultiPolicy
       QuoteRequest.LoyaltyYears QuoteRequest.PaperlessBill QuoteRequest.ClaimsHistory].
  rewrite Hk. reflexivity.
Qed.

(** C10: no rule of [validateRequest] looks at [ClaimsHistory]; the key of a
    count is "3+" exactly when the count is none of 0, 1, 2, so for every
    negative count too; and two requests that differ only in counts outside
    {0, 1, 2}, such as -1 and 3, get the same result from [CalculateQuote],
    whether dynamic pricing is on or off. *)
Theorem C10_claims_history_unvalidated :
  forall (req : QuoteRequest.t) (c : Z),
    validateRequest (withClaimsHistory req c) = validateRequest req
    /\ (getClaimsHistoryKey c = "3+" <-> c <> 0 /\ c <> 1 /\ c <> 2)
    /\ (c < 0 -> getClaimsHistoryKey c = "3+")
    /\ (forall c', (c <> 0 /\ c <> 1 /\ c <> 2) -> (c' <> 0 /\ c' <> 1 /\ c' <> 2) ->
        forall build amb w,
          CalculateQuote build amb (withClaimsHistory req c) w
          = CalculateQuote build amb (withClaimsHistory req c') w).
Proof.
  intros req c. split; [reflexivity|]. split; [|split].
  - split.
    + unfold getClaimsHistoryKey.
      destruct (Z.eqb_spec c 0); [discriminate|].
      destruct (Z.eqb_spec c 1); [discriminate|].
      destruct (Z.eqb_spec c 2); [discriminate|]. auto.
    + intros (H0 & H1 & H2). apply getClaimsHistoryKey_other; assumption.
  - intros Hc. apply getClaimsHistoryKey_other; lia.
  - intros c' (H0 & H1 & H2) (H0' & H1' & H2') build amb w.
    apply CalculateQuote_claims_key.
    rewrite !getClaimsHistoryKey_other by assumption. reflexivity.
Qed.

Lemma C10_claims_history_unvalidated_witness :
  validateRequest (withClaimsHistory sample.request (-1)) = None
  /\ CalculateQuote sample.separate (sample.ambient 1) (withClaimsHistory sample.request (-1))
       (sample.world true true)
     = CalculateQuote sample.separate (sample.ambient 1) (withClaimsHistory sample.request 3)
         (sample.world true true).
Proof.
  destruct (C10_claims_history_unvalidated sample.request (-1)) as (Hv & _ & _ & Hsame).
  split.
  - rewrite Hv. reflexivity.
  - apply Hsame; repeat split; discriminate.
Defined.

(** ** The four rate lookups *)

Section Lookups.
Variables (r : Repository) (rules : PricingRules.t)
          (policyType : string) (rates : PolicyRates.t).
Hypothesis loaded : pricingRules r = Some rules.
Hypothesis configured : PricingRules.BaseRates rules !! policyType = Some rates.

Lemma GetBaseRateForPolicy_ok :
  GetBaseRateForPolicy r policyType = Ok (PolicyRates.Base rates).
Proof. unfold GetBaseRateForPolicy. rewrite loaded, configured. reflexivity. Qed.

Lemma GetCoverageMultiplier_ok coverageAmount :
  GetCoverageMultiplier r policyType coverageAmount
  = Ok (lookupOrOne (PolicyRates.Coverage rates) (fmt.Sprintf_d coverageAmount)).
Proof.
  unfold GetCoverageMultiplier, lookupOrOne. rewrite loaded, configured.
  cbv zeta. destruct (PolicyRates.Coverage rates !! _); reflexivity.
Qed.

Lemma GetRiskMultiplier_ok riskScore :
  GetRiskMultiplier r policyType riskScore
  = Ok (lookupOrOne (PolicyRates.RiskMultiplier rates) (fmt.Sprintf_d riskScore)).
Proof.
  unfold GetRiskMultiplier, lookupOrOne. rewrite loaded, configured.
  cbv zeta. destruct (PolicyRates.RiskMultiplier rates !! _); reflexivity.
Qed.

Lemma ageRangeOf_bracketOf age :
  ageRangeOf age = bracketKey <$> bracketOf age.
Proof.
  unfold ageRangeOf, bracketOf.
  repeat match goal with
         | |- context [Z.leb ?a ?b] => destruct (Z.leb_spec a b)
         | |- context [Z.ltb ?a ?b] => destruct (Z.ltb_spec a b)
         end; simpl; try reflexivity; lia.
Qed.

Lemma GetAgeMultiplier_ok age :
  GetAgeMultiplier r policyType age
  = Ok (spec_resolveAgeMultiplier policyType (PolicyRates.AgeMultiplier rates) age).
Proof.
  unfold GetAgeMultiplier, spec_resolveAgeMultiplier, alternateKey.
  rewrite loaded, configured, ageRangeOf_bracketOf.
  destruct (bracketOf age) as [b|]; [|reflexivity]. cbn [fmap option_fmap option_map].
  destruct (PolicyRates.AgeMultiplier rates !! bracketKey b); [reflexivity|].
  destruct (String.eqb policyType "home"); [|reflexivity].
  destruct b; cbn [bracketKey];
    match goal with |- context [altRanges !! ?k] =>
      let v := eval vm_compute in (altRanges !! k) in
      change (altRanges !! k) with v
    end;
    cbv beta iota; try reflexivity;
    destruct (PolicyRates.AgeMultiplier rates !! "18-34"); reflexivity.
Qed.

End Lookups.

(** ** Coverage multiplier *)

(** C7: for a configured policy type the coverage multiplier is the entry
    whose key is exactly the decimal form of the coverage amount; when there
    is no such key the result is 1.0 and no error.  Distinct amounts have
    distinct decimal forms, so an amount that is none of the configured tiers
    gets 1.0 wherever it lies between them. *)
Theorem C7_coverage_exact_match :
  forall (r : Repository) (rules : PricingRules.t) (policyType : string)
         (rates : PolicyRates.t) (coverageAmount : Z),
    pricingRules r = Some rules ->
    PricingRules.BaseRates rules !! policyType = Some rates ->
    (PolicyRates.Coverage rates !! fmt.Sprintf_d coverageAmount = None ->
     GetCoverageMultiplier r policyType coverageAmount = Ok Float64.one)
    /\ (forall multiplier,
        PolicyRates.Coverage rates !! fmt.Sprintf_d coverageAmount = Some multiplier ->
        GetCoverageMultiplier r policyType coverageAmount = Ok multiplier)
    /\ ((forall key, is_Some (PolicyRates.Coverage rates !! key) ->
         exists tier, key = fmt.Sprintf_d tier /\ tier <> coverageAmount) ->
        GetCoverageMultiplier r policyType coverageAmount = Ok Float64.one).
Proof.
  intros r rules policyType rates coverageAmount Hl Hc.
  rewrite (GetCoverageMultiplier_ok r rules policyType rates Hl Hc).
  unfold lookupOrOne. split; [|split].
  - intros ->. reflexivity.
  - intros m ->. reflexivity.
  - intros Htiers.
    destruct (PolicyRates.Coverage rates !! fmt.Sprintf_d coverageAmount) eqn:E;
      [|reflexivity].
    destruct (Htiers (fmt.Sprintf_d coverageAmount)) as (tier & Hk & Hne).
    + rewrite E. eauto.
    + unfold fmt.Sprintf_d in Hk. apply (inj pretty) in Hk. congruence.
Qed.

Lemma C7_coverage_exact_match_witness :
  GetCoverageMultiplier {| pricingRules := Some (sample.rules false) |} "auto" 260000
  = Ok Float64.one.
Proof.
  apply (proj1 (C7_coverage_exact_match
                  {| pricingRules := Some (sample.rules false) |}
                  (sample.rules false) "auto" sample.autoRates 260000
                  eq_refl eq_refl)).
  vm_compute. reflexivity.
Defined.

(** ** Age multiplier *)

Lemma bracketOf_inBracket age b :
  18 <= age -> (inBracket b age <-> bracketOf age = Some b).
Proof.
  intros Hage. unfold bracketOf.
  repeat match goal with
         | |- context [Z.leb ?a ?b] => destruct (Z.leb_spec a b)
         | |- context [Z.ltb ?a ?b] => destruct (Z.ltb_spec a b)
         end; try lia;
    destruct b; cbn [inBracket]; split; intros Hin; try lia;
    try reflexivity; try discriminate.
Qed.

Lemma spec_resolveAgeMultiplier_not_home policyType table table' age :
  policyType <> "home" ->
  (forall key, key <> "18-34" -> table' !! key = table !! key) ->
  spec_resolveAgeMultiplier policyType table' age
  = spec_resolveAgeMultiplier policyType table age.
Proof.
  intros Hpt Hagree. unfold spec_resolveAgeMultiplier, alternateKey.
  apply String.eqb_neq in Hpt. rewrite Hpt.
  destruct (bracketOf age) as [b|]; [|reflexivity].
  rewrite Hagree by (destruct b; discriminate). reflexivity.
Qed.

(** C6: for a configured policy type and an age in [18,120], the age lies in
    exactly one of the five brackets; the multiplier is the entry of that
    bracket's key when there is one; otherwise, for a home policy and the
    brackets 18-24 and 25-34, the entry of "18-34", or 1.0 if that is missing
    too; otherwise 1.0.  For any other policy type the result does not depend
    on an "18-34" entry. *)
Theorem C6_age_bracket_resolution :
  forall (r : Repository) (rules : PricingRules.t) (policyType : string)
         (rates : PolicyRates.t) (age : Z),
    pricingRules r = Some rules ->
    PricingRules.BaseRates rules !! policyType = Some rates ->
    18 <= age <= 120 ->
    let table := PolicyRates.AgeMultiplier rates in
    exists b : Bracket,
      inBracket b age
      /\ (forall b', inBracket b' age -> b' = b)
      /\ ageRangeOf age = Some (bracketKey b)
      /\ (forall multiplier, table !! bracketKey b = Some multiplier ->
          GetAgeMultiplier r policyType age = Ok multiplier)
      /\ (table !! bracketKey b = None ->
          (policyType = "home" -> b = B18_24 \/ b = B25_34 ->
           GetAgeMultiplier r policyType age = Ok (lookupOrOne table "18-34"))
          /\ (policyType <> "home" \/ (b <> B18_24 /\ b <> B25_34) ->
              GetAgeMultiplier r policyType age = Ok Float64.one))
      /\ (policyType <> "home" ->
          forall r' rules' rates',
            pricingRules r' = Some rules' ->
            PricingRules.BaseRates rules' !! policyType = Some rates' ->
            (forall key, key <> "18-34" ->
                         PolicyRates.AgeMultiplier rates' !! key = table !! key) ->
            GetAgeMultiplier r' policyType age = GetAgeMultiplier r policyType age).
Proof.
  intros r rules policyType rates age Hl Hc Hage table.
  rewrite (GetAgeMultiplier_ok r rules policyType rates Hl Hc). fold table.
  destruct (bracketOf age) as [b|] eqn:Hb;
    [|unfold bracketOf in Hb;
      repeat match type of Hb with
             | context [Z.leb ?a ?b] => destruct (Z.leb_spec a b)
             | context [Z.ltb ?a ?b] => destruct (Z.ltb_spec a b)
             end; try discriminate; lia].
  exists b. split; [apply bracketOf_inBracket; [lia|assumption]|].
  split.
  { intros b' Hb'. apply bracketOf_inBracket in Hb'; [congruence|lia]. }
  split; [rewrite ageRangeOf_bracketOf, Hb; reflexivity|].
  unfold spec_resolveAgeMultiplier, alternateKey, lookupOrOne. rewrite Hb.
  split; [intros m ->; reflexivity|]. split.
  - intros ->. split.
    + intros -> [-> | ->]; reflexivity.
    + intros [Hpt | [H1 H2]].
      * apply String.eqb_neq in Hpt. rewrite Hpt. reflexivity.
      * destruct (String.eqb policyType "home"), b; congruence.
  - intros Hpt r' rules' rates' Hl' Hc' Hagree.
    rewrite (GetAgeMultiplier_ok r' rules' policyType rates' Hl' Hc').
    f_equal.
    rewrite (spec_resolveAgeMultiplier_not_home policyType table
               (PolicyRates.AgeMultiplier rates') age Hpt Hagree).
    unfold spec_resolveAgeMultiplier, alternateKey. rewrite Hb. reflexivity.
Qed.

Lemma C6_age_bracket_resolution_witness :
  GetAgeMultiplier {| pricingRules := Some (sample.rules false) |} "home" 30
  = Ok 1.1%float.
Proof.
  destruct (C6_age_bracket_resolution
              {| pricingRules := Some (sample.rules false) |}
              (sample.rules false) "home" sample.homeRates 30 eq_refl eq_refl
              ltac:(lia))
    as (b & _ & Hunique & _ & _ & Hmiss & _).
  assert (Hb : B25_34 = b) by (apply Hunique; cbn; lia). subst b.
  destruct (Hmiss ltac:(vm_compute; reflexivity)) as [Hhome _].
  rewrite (Hhome eq_refl (or_intror eq_refl)). vm_compute. reflexivity.
Defined.

(** ** Running [CalculateQuote] *)

Lemma CalculateQuote_ok build amb req w rules rates :
  validateRequest req = None ->
  pricingRules (repo (service w)) = Some rules ->
  PricingRules.BaseRates rules !! QuoteRequest.PolicyType req = Some rates ->
  let dynamicMultiplier := dynamicMultiplierAt amb (service w) req in
  let baseRate := PolicyRates.Base rates in
  let coverageMultiplier :=
    lookupOrOne (PolicyRates.Coverage rates)
                (fmt.Sprintf_d (QuoteRequest.CoverageAmount req)) in
  let ageMultiplier :=
    spec_resolveAgeMultiplier (QuoteRequest.PolicyType req)
      (PolicyRates.AgeMultiplier rates) (QuoteRequest.CustomerAge req) in
  let riskMultiplier :=
    lookupOrOne (PolicyRates.RiskMultiplier rates)
                (fmt.Sprintf_d (QuoteRequest.RiskScore req)) in
  let adjustedRate :=
    (baseRate * coverageMultiplier * ageMultiplier * riskMultiplier
     * dynamicMultiplier)%float in
  CalculateQuote build amb req w
  = (Ok (quoteFrom amb req baseRate coverageMultiplier ageMultiplier riskMultiplier
           dynamicMultiplier (discountAt build amb (service w) req adjustedRate)),
     after w (quoteReads (service w) req)).
Proof.
  intros Hv Hl Hc. cbv zeta.
  unfold CalculateQuote. rewrite Hv.
  unfold mbind, M_bind, call, dynamicRatesEnabled, ret, mret, M_ret.
  cbn [service repo reads].
  rewrite (GetBaseRateForPolicy_ok _ _ _ _ Hl Hc).
  rewrite (GetCoverageMultiplier_ok _ _ _ _ Hl Hc).
  rewrite (GetAgeMultiplier_ok _ _ _ _ Hl Hc).
  rewrite (GetRiskMultiplier_ok _ _ _ _ Hl Hc).
  unfold dynamicMultiplierAt, discountAt, quoteFrom, after, quoteReads.
  cbv beta iota. cbn [service repo reads flags].
  destruct (IsDynamicRatesEnabled (flags (service w)));
    unfold calculateDynamicMultiplier, calculateDiscount,
           mbind, M_bind, call, ret, mret, M_ret;
    cbn [service repo reads fst snd];
    rewrite <- ?app_assoc; cbn [app]; reflexivity.
Qed.

Lemma CalculateQuote_no_base_rate build amb req w err :
  validateRequest req = None ->
  GetBaseRateForPolicy (repo (service w)) (QuoteRequest.PolicyType req) = Err err ->
  CalculateQuote build amb req w
  = (Err (ErrWrap "failed to get base rate" err),
     after w [ReadBaseRate (QuoteRequest.PolicyType req)]).
Proof.
  intros Hv He. unfold CalculateQuote. rewrite Hv.
  unfold mbind, M_bind, call, ret, mret, M_ret. rewrite He. reflexivity.
Qed.

Lemma GetBaseRateForPolicy_inv r policyType baseRate :
  GetBaseRateForPolicy r policyType = Ok baseRate ->
  exists rules rates,
    pricingRules r = Some rules
    /\ PricingRules.BaseRates rules !! policyType = Some rates
    /\ PolicyRates.Base rates = baseRate.
Proof.
  unfold GetBaseRateForPolicy.
  destruct (pricingRules r) as [rules|]; [|discriminate].
  destruct (PricingRules.BaseRates rules !! policyType) as [rates|] eqn:E;
    [|discriminate].
  intros [= <-]. eauto.
Qed.

(** ** The premium formula *)



(** ** Failure modes *)

(** C5: once validation has passed, [CalculateQuote] fails exactly when the
    base-rate lookup fails, with that error wrapped.  When the policy type
    has a base rate the coverage, age and risk lookups all succeed (a missing
    risk entry gives 1.0), the dynamic multiplier and the discount are plain
    values, and the quote carries a [Factors] record holding all six. *)
Theorem C5_only_base_rate_fails :
  forall (build : Build) (amb : Ambient) (w : World) (req : QuoteRequest.t),
    validateRequest req = None ->
    let r := repo (service w) in
    let policyType := QuoteRequest.PolicyType req in
    (forall baseRate, GetBaseRateForPolicy r policyType = Ok baseRate ->
       exists q f,
         fst (CalculateQuote build amb req w) = Ok q
         /\ Quote.Factors q = Some f
         /\ Factors.BaseMultiplier f = baseRate
         /\ GetCoverageMultiplier r policyType (QuoteRequest.CoverageAmount req)
            = Ok (Factors.CoverageMultiplier f)
         /\ GetAgeMultiplier r policyType (QuoteRequest.CustomerAge req)
            = Ok (Factors.AgeMultiplier f)
         /\ GetRiskMultiplier r policyType (QuoteRequest.RiskScore req)
            = Ok (Factors.RiskMultiplier f)
         /\ Factors.DynamicMultiplier f = dynamicMultiplierAt amb (service w) req
         /\ Factors.DiscountAmount f = Quote.Discount q
         /\ Quote.Discount q = discountAt build amb (service w) req (Quote.AdjustedRate q))
    /\ (forall err, fst (CalculateQuote build amb req w) = Err err <->
          exists cause, GetBaseRateForPolicy r policyType = Err cause
                        /\ err = ErrWrap "failed to get base rate" cause)
    /\ (forall rules rates riskScore,
          pricingRules r = Some rules ->
          PricingRules.BaseRates rules !! policyType = Some rates ->
          PolicyRates.RiskMultiplier rates !! fmt.Sprintf_d riskScore = None ->
          GetRiskMultiplier r policyType riskScore = Ok Float64.one).
Proof.
  intros build amb w req Hv r policyType. split; [|split].
  - intros baseRate Hb.
    destruct (GetBaseRateForPolicy_inv _ _ _ Hb) as (rules & rates & Hl & Hc & <-).
    rewrite (CalculateQuote_ok build amb req w rules rates Hv Hl Hc).
    subst r policyType.
    rewrite (GetCoverageMultiplier_ok _ _ _ _ Hl Hc).
    rewrite (GetAgeMultiplier_ok _ _ _ _ Hl Hc).
    rewrite (GetRiskMultiplier_ok _ _ _ _ Hl Hc).
    eexists. eexists. cbn [fst quoteFrom Quote.Factors Quote.Discount Quote.AdjustedRate].
    split; [reflexivity|]. split; [reflexivity|].
    cbn [Factors.BaseMultiplier Factors.CoverageMultiplier Factors.AgeMultiplier
         Factors.RiskMultiplier Factors.DynamicMultiplier Factors.DiscountAmount].
    repeat (split; [reflexivity|]). reflexivity.
  - intros err. destruct (GetBaseRateForPolicy r policyType) as [baseRate|cause] eqn:Hb.
    + destruct (GetBaseRateForPolicy_inv _ _ _ Hb) as (rules & rates & Hl & Hc & _).
      rewrite (CalculateQuote_ok build amb req w rules rates Hv Hl Hc). cbn [fst].
      split; [discriminate|]. intros (cause & Hcontra & _). discriminate.
    + rewrite (CalculateQuote_no_base_rate build amb req w cause Hv Hb). cbn [fst].
      split.
      * intros [= <-]. eauto.
      * intros (cause' & [= <-] & ->). reflexivity.
  - intros rules rates riskScore Hl Hc Hmiss.
    rewrite (GetRiskMultiplier_ok _ _ _ _ Hl Hc). unfold lookupOrOne.
    rewrite Hmiss. reflexivity.
Qed.

Lemma C5_only_base_rate_fails_witness :
  is_ok (fst (CalculateQuote sample.separate (sample.ambient 1) sample.request
                (sample.world true true))) = true.
Proof.
  destruct (C5_only_base_rate_fails sample.separate (sample.ambient 1) (sample.world true true)
              sample.request eq_refl) as (Hok & _ & _).
  destruct (Hok 800%float) as (q & f & -> & _).
  - vm_compute. reflexivity.
  - reflexivity.
Defined.

(** ** Dynamic multiplier *)

Lemma getCurrentQuarter_spec amb :
  let month := nowMonth amb in
  (1 <= month <= 3 -> getCurrentQuarter amb = "Q1")
  /\ (4 <= month <= 6 -> getCurrentQuarter amb = "Q2")
  /\ (7 <= month <= 9 -> getCurrentQuarter amb = "Q3")
  /\ (10 <= month <= 12 -> getCurrentQuarter amb = "Q4").
Proof.
  cbv zeta. unfold getCurrentQuarter. rewrite !Z.geb_leb.
  repeat match goal with
         | |- context [Z.leb ?a ?b] => destruct (Z.leb_spec a b)
         end; cbn [andb]; repeat split; intros; try reflexivity; lia.
Qed.

Lemma dynamicMultiplierAt_enabled amb svc req dynamicPricing :
  IsDynamicRatesEnabled (flags svc) = true ->
  GetDynamicPricing (repo svc) = Some dynamicPricing ->
  DynamicPricing.Enabled dynamicPricing = true ->
  let factors := DynamicPricing.Factors dynamicPricing in
  dynamicMultiplierAt amb svc req
  = (lookupOrOne (DynamicFactors.Seasonality factors) (getCurrentQuarter amb)
     * DynamicFactors.MarketConditions factors
     * lookupOrOne (DynamicFactors.ClaimsHistory factors)
         (getClaimsHistoryKey (QuoteRequest.ClaimsHistory req)))%float.
Proof.
  intros Hflag Hdp Hen. cbv zeta.
  unfold dynamicMultiplierAt, calculateDynamicMultiplier, mbind, M_bind, call,
    ret, mret, M_ret, lookupOrOne.
  rewrite Hflag. cbn [fst service repo]. rewrite Hdp, Hen. cbn [negb].
  destruct (DynamicFactors.Seasonality _ !! _) as [seasonalityFactor|];
    destruct (DynamicFactors.ClaimsHistory _ !! _) as [claimsFactor|];
    cbn [default];
    rewrite ?Float64Facts.mul_1_l, ?Float64Facts.mul_1_r; reflexivity.
Qed.

Lemma dynamicMultiplierAt_disabled amb svc req :
  IsDynamicRatesEnabled (flags svc) = false
  \/ (forall dynamicPricing, GetDynamicPricing (repo svc) = Some dynamicPricing ->
                             DynamicPricing.Enabled dynamicPricing = false) ->
  dynamicMultiplierAt amb svc req = Float64.one.
Proof.
  unfold dynamicMultiplierAt, calculateDynamicMultiplier, mbind, M_bind, call,
    ret, mret, M_ret.
  intros [-> | Hoff]; [reflexivity|].
  destruct (IsDynamicRatesEnabled (flags svc)); [|reflexivity].
  cbn [fst service repo].
  destruct (GetDynamicPricing (repo svc)) as [dynamicPricing|]; [|reflexivity].
  rewrite (Hoff dynamicPricing eq_refl). reflexivity.
Qed.

Lemma dynamicPricingOn_true svc :
  dynamicPricingOn svc = true <->
  IsDynamicRatesEnabled (flags svc) = true
  /\ exists dynamicPricing,
       GetDynamicPricing (repo svc) = Some dynamicPricing
       /\ DynamicPricing.Enabled dynamicPricing = true.
Proof.
  unfold dynamicPricingOn. rewrite andb_true_iff.
  destruct (GetDynamicPricing (repo svc)) as [dynamicPricing|].
  - split.
    + intros [Hf He]. eauto.
    + intros (Hf & dp & [= <-] & He). auto.
  - split.
    + intros [_ He]. discriminate.
    + intros (_ & dp & Hdp & _). discriminate.
Qed.

Lemma dynamicMultiplierAt_off amb svc req :
  dynamicPricingOn svc = false -> dynamicMultiplierAt amb svc req = Float64.one.
Proof.
  unfold dynamicPricingOn. intros Hoff. apply dynamicMultiplierAt_disabled.
  destruct (IsDynamicRatesEnabled (flags svc)); [right|left; reflexivity].
  intros dynamicPricing Hdp. rewrite Hdp in Hoff. exact Hoff.
Qed.

(** C4 (amended): the product of the specification is used when the
    dynamic-rates feature flag is set as well, not on the switch [Enabled]
    of the rules alone.  With the flag set and [Enabled] true the dynamic
    multiplier is seasonality x market conditions x claims history, where
    the seasonality factor is the entry of the quarter of the month read
    from the clock (months 1-3 Q1, 4-6 Q2, 7-9 Q3, 10-12 Q4), the claims
    factor is the entry of the bucket of the request's claims count (0, 1, 2,
    and 3+ from 3 on), and a missing entry counts as 1.0.  With the flag off,
    or with [Enabled] false, the multiplier is 1.0 and the adjusted rate of
    the quote equals its base premium.  Every quote records the multiplier in
    its factors and has the base premium times it as adjusted rate. *)
Theorem C4_dynamic_multiplier_product :
  forall (build : Build) (amb : Ambient) (w : World) (req : QuoteRequest.t)
         (quarter bucket : string),
    spec_quarter (nowMonth amb) quarter ->
    spec_claimsBucket (QuoteRequest.ClaimsHistory req) bucket ->
    let svc := service w in
    (forall dynamicPricing,
        IsDynamicRatesEnabled (flags svc) = true ->
        GetDynamicPricing (repo svc) = Some dynamicPricing ->
        DynamicPricing.Enabled dynamicPricing = true ->
        let factors := DynamicPricing.Factors dynamicPricing in
        dynamicMultiplierAt amb svc req
        = (lookupOrOne (DynamicFactors.Seasonality factors) quarter
           * DynamicFactors.MarketConditions factors
           * lookupOrOne (DynamicFactors.ClaimsHistory factors) bucket)%float)
    /\ (IsDynamicRatesEnabled (flags svc) = false
        \/ (forall dynamicPricing,
               GetDynamicPricing (repo svc) = Some dynamicPricing ->
               DynamicPricing.Enabled dynamicPricing = false) ->
        dynamicMultiplierAt amb svc req = Float64.one)
    /\ (forall q, fst (CalculateQuote build amb req w) = Ok q ->
          exists f dynamicPricing,
            Quote.Factors q = Some f
            /\ GetDynamicPricing (repo svc) = Some dynamicPricing
            /\ Factors.DynamicMultiplier f
               = (if IsDynamicRatesEnabled (flags svc)
                  then spec_dynamicMultiplier dynamicPricing quarter bucket
                  else Float64.one)
            /\ Quote.AdjustedRate q
               = (Quote.BaseRate q * Factors.DynamicMultiplier f)%float
            /\ (IsDynamicRatesEnabled (flags svc) = false
                \/ DynamicPricing.Enabled dynamicPricing = false ->
                Factors.DynamicMultiplier f = Float64.one
                /\ Quote.AdjustedRate q = Quote.BaseRate q)).
Proof.
  intros build amb w req quarter bucket Hquarter Hbucket svc.
  assert (Hq : getCurrentQuarter amb = quarter).
  { destruct (getCurrentQuarter_spec amb) as (H1 & H2 & H3 & H4).
    destruct Hquarter; auto. }
  assert (Hb : getClaimsHistoryKey (QuoteRequest.ClaimsHistory req) = bucket).
  { destruct Hbucket; try reflexivity. apply getClaimsHistoryKey_other; lia. }
  assert (Hmult : forall dynamicPricing,
             GetDynamicPricing (repo svc) = Some dynamicPricing ->
             dynamicMultiplierAt amb svc req
             = if IsDynamicRatesEnabled (flags svc)
               then spec_dynamicMultiplier dynamicPricing quarter bucket
               else Float64.one).
  { intros dynamicPricing Hdp. unfold spec_dynamicMultiplier.
    destruct (IsDynamicRatesEnabled (flags svc)) eqn:Hflag.
    - destruct (DynamicPricing.Enabled dynamicPricing) eqn:Hen.
      + rewrite (dynamicMultiplierAt_enabled amb svc req dynamicPricing Hflag Hdp Hen).
        cbv zeta. rewrite Hq, Hb. reflexivity.
      + apply dynamicMultiplierAt_disabled. right.
        intros dynamicPricing'. rewrite Hdp. intros [= <-]. exact Hen.
    - apply dynamicMultiplierAt_disabled. left. exact Hflag. }
  split; [|split].
  - intros dynamicPricing Hflag Hdp Hen. cbv zeta.
    rewrite (Hmult dynamicPricing Hdp), Hflag. unfold spec_dynamicMultiplier.
    rewrite Hen. reflexivity.
  - apply dynamicMultiplierAt_disabled.
  - intros q Hquote.
    destruct (validateRequest req) as [err|] eqn:Hv.
    { unfold CalculateQuote in Hquote. rewrite Hv in Hquote. discriminate. }
    destruct (GetBaseRateForPolicy (repo svc) (QuoteRequest.PolicyType req))
      as [baseRate|cause] eqn:Hbase;
      [|rewrite (CalculateQuote_no_base_rate build amb req w cause Hv Hbase) in Hquote;
        discriminate].
    destruct (GetBaseRateForPolicy_inv _ _ _ Hbase) as (rules & rates & Hl & Hc & _).
    rewrite (CalculateQuote_ok build amb req w rules rates Hv Hl Hc) in Hquote.
    cbn [fst] in Hquote. injection Hquote as <-.
    assert (Hdp : GetDynamicPricing (repo svc)
                  = Some (PricingRules.DynamicPricing rules)).
    { unfold GetDynamicPricing. rewrite Hl. reflexivity. }
    eexists. exists (PricingRules.DynamicPricing rules).
    cbn [quoteFrom Quote.Factors Quote.AdjustedRate Quote.BaseRate
         Factors.DynamicMultiplier].
    split; [reflexivity|]. split; [exact Hdp|].
    fold svc. rewrite (Hmult _ Hdp).
    split; [reflexivity|]. split; [reflexivity|].
    intros Hoff.
    assert (Hone : (if IsDynamicRatesEnabled (flags svc)
                    then spec_dynamicMultiplier (PricingRules.DynamicPricing rules)
                           quarter bucket
                    else Float64.one) = Float64.one).
    { unfold spec_dynamicMultiplier.
      destruct Hoff as [-> | ->]; [reflexivity|].
      destruct (IsDynamicRatesEnabled (flags svc)); reflexivity. }
    rewrite Hone. split; [reflexivity|apply Float64Facts.mul_1_r].
Qed.

Lemma C4_dynamic_multiplier_product_witness :
  dynamicMultiplierAt (sample.ambient 2) (service (sample.world true true))
    (withClaimsHistory sample.request 4)
  = (0.95 * 1.0 * 1.3)%float
  /\ dynamicMultiplierAt (sample.ambient 2) (service (sample.world false true))
       (withClaimsHistory sample.request 4)
     = Float64.one.
Proof.
  assert (Hquarter : spec_quarter (nowMonth (sample.ambient 2)) "Q1")
    by (apply spec_Q1; cbn; lia).
  assert (Hbucket : spec_claimsBucket
                      (QuoteRequest.ClaimsHistory (withClaimsHistory sample.request 4))
                      "3+")
    by (apply spec_bucket3; cbn; lia).
  destruct (C4_dynamic_multiplier_product sample.separate (sample.ambient 2)
              (sample.world true true) (withClaimsHistory sample.request 4)
              "Q1" "3+" Hquarter Hbucket) as (Hon & _ & _).
  destruct (C4_dynamic_multiplier_product sample.separate (sample.ambient 2)
              (sample.world false true) (withClaimsHistory sample.request 4)
              "Q1" "3+" Hquarter Hbucket) as (_ & Hoff & _).
  split.
  - rewrite (Hon (sample.dynamicPricing true) eq_refl eq_refl eq_refl).
    vm_compute. reflexivity.
  - apply Hoff. right. intros dynamicPricing [= <-]. reflexivity.
Defined.

(** C4 (as specified) fails when the rules' switch is on and the feature
    flag is off, as it is unless FEATURE_DYNAMIC_RATES says otherwise: the
    README's request, priced in February with no claims, gets the multiplier
    1.0 and an adjusted rate of 1240, where the specification has
    0.95 x 1.0 x 0.9 and an adjusted rate below 1061. *)
Lemma C4_counterexample :
  exists (q : Quote.t) (f : Factors.t) (dynamicPricing : DynamicPricing.t),
    fst (CalculateQuote sample.separate (sample.ambient 2) sample.request
           (sample.world true false)) = Ok q
    /\ Quote.Factors q = Some f
    /\ GetDynamicPricing (repo (service (sample.world true false)))
       = Some dynamicPricing
    /\ DynamicPricing.Enabled dynamicPricing = true
    /\ spec_quarter (nowMonth (sample.ambient 2)) "Q1"
    /\ spec_claimsBucket (QuoteRequest.ClaimsHistory sample.request) "0"
    /\ spec_dynamicMultiplier dynamicPricing "Q1" "0" = (0.95 * 1.0 * 0.9)%float
    /\ Factors.DynamicMultiplier f = Float64.one
    /\ Factors.DynamicMultiplier f <> spec_dynamicMultiplier dynamicPricing "Q1" "0"
    /\ Quote.AdjustedRate q = 1240%float
    /\ Float64.gt 1061
         (Quote.BaseRate q * spec_dynamicMultiplier dynamicPricing "Q1" "0")%float
       = true.
Proof.
  eexists. eexists. exists (sample.dynamicPricing true).
  split; [vm_compute; reflexivity|]. split; [reflexivity|].
  split; [reflexivity|]. split; [reflexivity|].
  split; [apply spec_Q1; cbn; lia|]. split; [apply spec_bucket0|].
  split; [vm_compute; reflexivity|]. split; [reflexivity|].
  split; [intros H; floats_differ H|].
  split; vm_compute; reflexivity.
Qed.

(** ** Loyalty discount *)

Lemma loyaltyStep_unfold years acc key fraction :
  loyaltyStep years acc (key, fraction)
  = if meetsThreshold years key && Float64.gt fraction acc then fraction else acc.
Proof. reflexivity. Qed.

(** The loop keeps a running maximum: the result is the start value or an
    entry above it that meets its threshold, and no entry that meets its
    threshold is above the result. *)
Lemma loyalty_fold_spec years (l : list (string * float)) :
  forall acc,
    let best := fold_left (loyaltyStep years) l acc in
    (best = acc
     \/ (Float64.gt best acc = true
         /\ exists key, (key, best) ∈ l /\ meetsThreshold years key = true))
    /\ (forall key fraction,
          (key, fraction) ∈ l -> meetsThreshold years key = true ->
          Float64.gt fraction best = false).
Proof.
  induction l as [|[key0 fraction0] l IH]; intros acc; cbn [fold_left].
  - split; [left; reflexivity|]. intros key fraction Hin. inversion Hin.
  - cbv zeta. rewrite loyaltyStep_unfold.
    specialize (IH (if meetsThreshold years key0 && Float64.gt fraction0 acc
                    then fraction0 else acc)).
    cbv zeta in IH. destruct IH as [IH1 IH2].
    set (best := fold_left (loyaltyStep years) l _) in *.
    destruct (meetsThreshold years key0) eqn:Hm; cbn [andb] in *.
    + destruct (Float64.gt fraction0 acc) eqn:Hgt.
      * split.
        -- right. destruct IH1 as [-> | (Hb & key & Hin & Hk)].
           ++ split; [exact Hgt|]. exists key0. split; [left|exact Hm].
           ++ split; [eapply Float64Facts.gt_trans; eauto|].
              exists key. split; [right; exact Hin|exact Hk].
        -- intros key fraction Hin Hk. apply elem_of_cons in Hin.
           destruct Hin as [[= -> ->] | Hin]; [|eauto].
           destruct IH1 as [-> | (Hb & _)].
           ++ apply Float64Facts.gt_irrefl.
           ++ apply Float64Facts.gt_asym. exact Hb.
      * split.
        -- destruct IH1 as [-> | (Hb & key & Hin & Hk)]; [left; reflexivity|].
           right. split; [exact Hb|]. exists key. split; [right; exact Hin|exact Hk].
        -- intros key fraction Hin Hk. apply elem_of_cons in Hin.
           destruct Hin as [[= -> ->] | Hin]; [|eauto].
           destruct IH1 as [-> | (Hb & _)]; [exact Hgt|].
           destruct (Float64.gt fraction0 best) eqn:Hfb; [|reflexivity].
           rewrite (Float64Facts.gt_trans _ _ _ Hfb Hb) in Hgt. discriminate.
    + split.
      * destruct IH1 as [-> | (Hb & key & Hin & Hk)]; [left; reflexivity|].
        right. split; [exact Hb|]. exists key. split; [right; exact Hin|exact Hk].
      * intros key fraction Hin Hk. apply elem_of_cons in Hin.
        destruct Hin as [[= -> ->] | Hin]; [congruence|eauto].
Qed.

(** The loop selects the loyalty discount, whatever the order of the walk. *)
Lemma getLoyaltyDiscount_spec amb years discounts :
  RangeOk amb ->
  isLoyaltyDiscount (Discounts.LoyaltyYears discounts) years
    (getLoyaltyDiscount amb years discounts).
Proof.
  intros [Hperm _]. unfold isLoyaltyDiscount, getLoyaltyDiscount.
  pose proof (loyalty_fold_spec years
    (rangeLoyaltyYears amb (map_to_list (Discounts.LoyaltyYears discounts)))
    Float64.zero) as [H1 H2]. cbv zeta in H1, H2.
  split.
  - destruct H1 as [H1 | (Hb & key & Hin & Hk)]; [left; exact H1|].
    right. split; [exact Hb|]. exists key. split; [|exact Hk].
    apply (proj1 (elem_of_Permutation_proper _ _ _ (Hperm _))) in Hin.
    apply elem_of_map_to_list in Hin. exact Hin.
  - intros key fraction Hlook Hk. apply (H2 key fraction); [|exact Hk].
    apply (proj2 (elem_of_Permutation_proper _ _ _ (Hperm _))).
    apply elem_of_map_to_list. exact Hlook.
Qed.

Lemma isLoyaltyDiscount_unique table years best best' :
  isLoyaltyDiscount table years best -> isLoyaltyDiscount table years best' ->
  best = best'.
Proof.
  intros [H1 H2] [H1' H2'].
  destruct H1 as [E | (Hb & key & Hl & Hk)], H1' as [E' | (Hb' & key' & Hl' & Hk')].
  - congruence.
  - specialize (H2 key' _ Hl' Hk'). rewrite E in H2. congruence.
  - specialize (H2' key _ Hl Hk). rewrite E' in H2'. congruence.
  - apply Float64Facts.gt_zero_incomparable_eq; eauto.
Qed.

(** Hence the order in which [range] walks the table does not matter. *)
Lemma getLoyaltyDiscount_order amb amb' years discounts :
  RangeOk amb -> RangeOk amb' ->
  getLoyaltyDiscount amb years discounts = getLoyaltyDiscount amb' years discounts.
Proof.
  intros Hok Hok'.
  eapply isLoyaltyDiscount_unique; apply getLoyaltyDiscount_spec; assumption.
Qed.

Lemma sample_RangeOk month : RangeOk (sample.ambient month).
Proof. split; intros l; reflexivity. Qed.

Lemma sampleRev_RangeOk month : RangeOk (sample.ambientRev month).
Proof. split; intros l; cbn; symmetry; apply Permutation_rev. Qed.

(** ** Discount *)

Lemma discountAt_terms build amb svc req adjustedRate discounts :
  GetDiscounts (repo svc) = Some discounts ->
  discountAt build amb svc req adjustedRate
  = accumulate build adjustedRate
      (applicableDiscounts req discounts
         (getLoyaltyDiscount amb (QuoteRequest.LoyaltyYears req) discounts))
      Float64.zero.
Proof.
  intros Hd.
  unfold discountAt, calculateDiscount, mbind, M_bind, call, ret, mret, M_ret,
    accumulate, applicableDiscounts.
  cbn [fst service repo]. rewrite Hd.
  destruct (QuoteRequest.MultiPolicy req), (QuoteRequest.LoyaltyYears req >? 0),
    (QuoteRequest.RiskScore req =? 1), (QuoteRequest.PaperlessBill req);
    reflexivity.
Qed.

(** A build that fuses nothing adds the rounded products one by one. *)
Lemma accumulate_separate build adjustedRate terms :
  (forall site, fuses build site = false) ->
  forall total,
    accumulate build adjustedRate terms total
    = fold_left PrimFloat.add
        (map (fun term : Site * float => (adjustedRate * term.2)%float) terms) total.
Proof.
  intros Hbuild. unfold accumulate, mulAdd.
  induction terms as [|[site fraction] terms IH]; intros total; cbn [fold_left map].
  - reflexivity.
  - rewrite Hbuild. apply IH.
Qed.

(** A build that fuses every addition rounds once per discount. *)
Lemma accumulate_fused build adjustedRate terms :
  (forall site, fuses build site = true) ->
  forall total,
    accumulate build adjustedRate terms total
    = fold_left (fun total fraction => Float64.fma adjustedRate fraction total)
        (map snd terms) total.
Proof.
  intros Hbuild. unfold accumulate, mulAdd.
  induction terms as [|[site fraction] terms IH]; intros total; cbn [fold_left map].
  - reflexivity.
  - rewrite Hbuild. apply IH.
Qed.

Lemma applicableDiscounts_terms adjustedRate req discounts loyaltyDiscount :
  map (fun term : Site * float => (adjustedRate * term.2)%float)
    (applicableDiscounts req discounts loyaltyDiscount)
  = discountTerms adjustedRate req discounts loyaltyDiscount.
Proof.
  unfold applicableDiscounts, discountTerms.
  destruct (QuoteRequest.MultiPolicy req), (QuoteRequest.LoyaltyYears req >? 0),
    (QuoteRequest.RiskScore req =? 1), (QuoteRequest.PaperlessBill req);
    reflexivity.
Qed.

Lemma CalculateQuote_inv build amb req w q :
  fst (CalculateQuote build amb req w) = Ok q ->
  exists rules rates,
    validateRequest req = None
    /\ pricingRules (repo (service w)) = Some rules
    /\ PricingRules.BaseRates rules !! QuoteRequest.PolicyType req = Some rates.
Proof.
  intros Hq.
  destruct (validateRequest req) as [err|] eqn:Hv.
  { unfold CalculateQuote in Hq. rewrite Hv in Hq. discriminate. }
  destruct (GetBaseRateForPolicy (repo (service w)) (QuoteRequest.PolicyType req))
    as [baseRate|cause] eqn:Hb.
  - destruct (GetBaseRateForPolicy_inv _ _ _ Hb) as (rules & rates & Hl & Hc & _).
    eauto.
  - rewrite (CalculateQuote_no_base_rate build amb req w cause Hv Hb) in Hq. discriminate.
Qed.

(** C2 (amended in its loyalty conditions): the discount of every quote is
    the adjusted rate times the fractions of the discounts that apply, added
    up: starting from 0.0, one addition per discount in the order
    multi-policy, loyalty, low-risk, paperless, each of the product of the
    adjusted rate itself and the fraction, so that nothing is compounded;
    the build decides whether an addition and its product are rounded
    together or one after the other.  The discounts that apply are the
    multi-policy fraction when [MultiPolicy] is set; when [LoyaltyYears] is
    above 0, the loyalty discount, which is the highest fraction above 0.0
    among the entries whose threshold the years meet, or 0.0 when there is
    none, in whatever order the table is walked (0.12 for the schedule
    1:0.0, 2:0.05, 3:0.08, 5:0.12, 10:0.18 and 7 years); the low-risk
    fraction exactly when the risk score is 1; the paperless fraction when
    [PaperlessBill] is set. *)
Theorem C2_discount_flat_sum :
  forall (build : Build) (amb : Ambient) (w : World) (req : QuoteRequest.t)
         (q : Quote.t),
    RangeOk amb ->
    fst (CalculateQuote build amb req w) = Ok q ->
    exists (discounts : Discounts.t) (loyaltyDiscount : float),
      GetDiscounts (repo (service w)) = Some discounts
      /\ loyaltyDiscount
         = getLoyaltyDiscount amb (QuoteRequest.LoyaltyYears req) discounts
      /\ isLoyaltyDiscount (Discounts.LoyaltyYears discounts)
           (QuoteRequest.LoyaltyYears req) loyaltyDiscount
      /\ (forall best, isLoyaltyDiscount (Discounts.LoyaltyYears discounts)
                         (QuoteRequest.LoyaltyYears req) best ->
                       best = loyaltyDiscount)
      /\ Quote.Discount q
         = accumulate build (Quote.AdjustedRate q)
             (applicableDiscounts req discounts loyaltyDiscount) Float64.zero
      /\ ((forall site, fuses build site = false) ->
          Quote.Discount q
          = fold_left PrimFloat.add
              (discountTerms (Quote.AdjustedRate q) req discounts loyaltyDiscount)
              Float64.zero)
      /\ ((forall site, fuses build site = true) ->
          Quote.Discount q
          = fold_left
              (fun total fraction => Float64.fma (Quote.AdjustedRate q) fraction total)
              (map snd (applicableDiscounts req discounts loyaltyDiscount))
              Float64.zero)
      /\ (Discounts.LoyaltyYears discounts = Discounts.LoyaltyYears sample.discounts ->
          QuoteRequest.LoyaltyYears req = 7 ->
          loyaltyDiscount = 0.12%float).
Proof.
  intros build amb w req q Hok Hq.
  destruct (CalculateQuote_inv build amb req w q Hq) as (rules & rates & Hv & Hl & Hc).
  rewrite (CalculateQuote_ok build amb req w rules rates Hv Hl Hc) in Hq.
  cbn [fst] in Hq. injection Hq as <-.
  assert (Hd : GetDiscounts (repo (service w)) = Some (PricingRules.Discounts rules)).
  { unfold GetDiscounts. rewrite Hl. reflexivity. }
  exists (PricingRules.Discounts rules). eexists.
  split; [exact Hd|]. split; [reflexivity|].
  pose proof (getLoyaltyDiscount_spec amb (QuoteRequest.LoyaltyYears req)
                (PricingRules.Discounts rules) Hok) as Hbest.
  split; [exact Hbest|].
  split; [intros best Hb; eapply isLoyaltyDiscount_unique; eauto|].
  cbn [quoteFrom Quote.Discount Quote.AdjustedRate].
  rewrite (discountAt_terms build amb (service w) req _ _ Hd).
  split; [reflexivity|]. split; [|split].
  - intros Hbuild. rewrite (accumulate_separate build _ _ Hbuild).
    rewrite applicableDiscounts_terms. reflexivity.
  - intros Hbuild. apply (accumulate_fused build _ _ Hbuild).
  - intros Htable Hyears.
    eapply isLoyaltyDiscount_unique; [exact Hbest|].
    rewrite Htable, Hyears.
    pose proof (getLoyaltyDiscount_spec (sample.ambient 1) 7 sample.discounts
                  (sample_RangeOk 1)) as Hs.
    replace (getLoyaltyDiscount (sample.ambient 1) 7 sample.discounts)
      with 0.12%float in Hs by (vm_compute; reflexivity).
    exact Hs.
Qed.

Lemma C2_discount_flat_sum_witness :
  (exists q : Quote.t,
      fst (CalculateQuote sample.separate (sample.ambientRev 1) sample.request
             (sample.world false false)) = Ok q
      /\ Quote.Discount q
         = (0 + Quote.AdjustedRate q * 0.15 + Quote.AdjustedRate q * 0.12
            + Quote.AdjustedRate q * 0.03)%float
      /\ Quote.Discount q = 371.99999999999994%float)
  /\ (exists q : Quote.t,
        fst (CalculateQuote sample.fused (sample.ambientRev 1) sample.request
               (sample.world false false)) = Ok q
        /\ Quote.Discount q
           = Float64.fma (Quote.AdjustedRate q) 0.03
               (Float64.fma (Quote.AdjustedRate q) 0.12
                  (Float64.fma (Quote.AdjustedRate q) 0.15 0))
        /\ Quote.Discount q = 372%float).
Proof.
  split.
  - eexists. split; [vm_compute; reflexivity|].
    lazymatch goal with
    | |- Quote.Discount ?q = _ /\ _ =>
        destruct (C2_discount_flat_sum sample.separate (sample.ambientRev 1)
                    (sample.world false false) sample.request q (sampleRev_RangeOk 1))
          as (discounts & loyaltyDiscount & Hd & Hl & _ & _ & _ & Hsum & _);
          [vm_compute; reflexivity|]
    end.
    split; [|reflexivity].
    rewrite Hsum by reflexivity.
    injection Hd as <-. subst loyaltyDiscount. vm_compute. reflexivity.
  - eexists. split; [vm_compute; reflexivity|].
    lazymatch goal with
    | |- Quote.Discount ?q = _ /\ _ =>
        destruct (C2_discount_flat_sum sample.fused (sample.ambientRev 1)
                    (sample.world false false) sample.request q (sampleRev_RangeOk 1))
          as (discounts & loyaltyDiscount & Hd & Hl & _ & _ & _ & _ & Hsum & _);
          [vm_compute; reflexivity|]
    end.
    split; [|reflexivity].
    rewrite Hsum by reflexivity.
    injection Hd as <-. subst loyaltyDiscount. vm_compute. reflexivity.
Defined.

(** *** Where the discount differs from the specified amount *)

Ltac entries_of H :=
  apply elem_of_map_to_list in H;
  match type of H with
  | _ ∈ map_to_list ?m =>
      let l := eval vm_compute in (map_to_list m) in
      change (map_to_list m) with l in H
  end;
  repeat (apply elem_of_cons in H; destruct H as [H | H]; [injection H as -> ->|]);
  try (apply elem_of_nil in H; destruct H).

Ltac orders_of H :=
  symmetry in H; apply permutations_Permutation in H;
  match type of H with
  | _ ∈ permutations ?l =>
      let ls := eval vm_compute in (permutations l) in
      change (permutations l) with ls in H
  end;
  repeat (apply elem_of_cons in H; destruct H as [-> | H]);
  try (apply elem_of_nil in H; destruct H).

Ltac no_threshold_met H key fraction :=
  exfalso; specialize (H key fraction);
  vm_compute in H; specialize (H eq_refl); discriminate H.

(** The best loyalty fraction of the specification, for a table given in full. *)
Ltac best_fraction Hbest key fraction :=
  let Hex := fresh "Hex" in
  let Hmax := fresh "Hmax" in
  let k := fresh "key" in
  let Hk := fresh "Hk" in
  let Hm := fresh "Hm" in
  destruct Hbest as [(k & Hk & Hm) Hmax];
  specialize (Hmax key fraction);
  entries_of Hk;
  vm_compute in Hm; try discriminate Hm;
  vm_compute in Hmax; try (specialize (Hmax eq_refl eq_refl); discriminate Hmax);
  clear Hm Hmax.

(** Rounding is not what separates the code from C2 as specified: for the
    README's request and schedule (multi-policy 0.15, five years of loyalty
    0.12, paperless 0.03, adjusted rate 1240) the discount is 372 in the
    build that fuses its additions and 371.99999999999994 in the build that
    does not, and both agree with 1240 x (0.15 + 0.12 + 0.03). *)
Example README_discount_in_both_builds :
  exists q q',
    fst (CalculateQuote sample.fused (sample.ambient 1) sample.request
           (sample.worldWith sample.discounts)) = Ok q
    /\ fst (CalculateQuote sample.separate (sample.ambient 1) sample.request
              (sample.worldWith sample.discounts)) = Ok q'
    /\ Quote.Discount q = 372%float
    /\ Quote.Discount q' = 371.99999999999994%float
    /\ spec_discountAmount (Quote.AdjustedRate q) sample.request sample.discounts
         (Quote.Discount q)
    /\ spec_discountAmount (Quote.AdjustedRate q') sample.request sample.discounts
         (Quote.Discount q').
Proof.
  assert (Hbest : spec_bestLoyaltyFraction (Discounts.LoyaltyYears sample.discounts)
                    5 0.12%float).
  { split.
    - exists "5". split; vm_compute; reflexivity.
    - intros key fraction Hlook Hmeets. entries_of Hlook;
        first [reflexivity | vm_compute in Hmeets; discriminate Hmeets]. }
  eexists. eexists.
  split; [vm_compute; reflexivity|]. split; [vm_compute; reflexivity|].
  split; [reflexivity|]. split; [reflexivity|].
  split; exists [0.12%float], [0.15%float; 0.12%float; 0.03%float];
    (split; [left; exists 0.12%float; split; [reflexivity|exact Hbest]|]);
    (split; [reflexivity|vm_compute; reflexivity]).
Qed.

(** C2 (as specified) fails on the loyalty discount, in every build and by
    whole units of currency.  With a fraction 0.02 configured for threshold
    0 and 0 loyalty years the specification has a discount of 1240 x 0.02,
    the code none, since it skips the loyalty discount unless the years are
    above 0.  With the single loyalty entry 1 : -0.05 and 1 year the
    specification has 1240 x -0.05, the code 1240 x 0.0, since its running
    maximum starts at 0.0. *)
Lemma C2_counterexample :
  (forall build : Build,
      exists q,
        fst (CalculateQuote build (sample.ambient 1) (sample.loyaltyOnly 0)
               (sample.worldWith sample.welcomeDiscounts)) = Ok q
        /\ Quote.AdjustedRate q = 1240%float
        /\ Quote.Discount q = 0%float
        /\ ~ spec_discountAmount (Quote.AdjustedRate q) (sample.loyaltyOnly 0)
               sample.welcomeDiscounts (Quote.Discount q))
  /\ (forall build : Build,
        exists q,
          fst (CalculateQuote build (sample.ambient 1) (sample.loyaltyOnly 1)
                 (sample.worldWith sample.surchargeDiscounts)) = Ok q
          /\ Quote.AdjustedRate q = 1240%float
          /\ Quote.Discount q = 0%float
          /\ ~ spec_discountAmount (Quote.AdjustedRate q) (sample.loyaltyOnly 1)
                 sample.surchargeDiscounts (Quote.Discount q)).
Proof.
  split; intros [fuses]; (eexists; split; [vm_compute; reflexivity|]);
    cbn [Quote.AdjustedRate Quote.Discount];
    (split; [reflexivity|]);
    (split; [try reflexivity; destruct (fuses AddLoyalty); reflexivity|]);
    try (replace (if fuses AddLoyalty then 0%float else 0%float) with 0%float
           by (destruct (fuses AddLoyalty); reflexivity));
    intros (loyalty & fractions & Hloyalty & Horder & Hamount);
    destruct Hloyalty as [(best & -> & Hbest) | [-> Hnone]].
  - best_fraction Hbest "0" 0.02%float.
    cbn in Horder. orders_of Horder. vm_compute in Hamount. discriminate Hamount.
  - no_threshold_met Hnone "0" 0.02%float.
  - best_fraction Hbest "1" (-0.05)%float.
    cbn in Horder. orders_of Horder. vm_compute in Hamount. discriminate Hamount.
  - no_threshold_met Hnone "1" (-0.05)%float.
Qed.

(** ** Repeating a call *)

Lemma dynamicMultiplierAt_quarter amb amb' svc req :
  getCurrentQuarter amb = getCurrentQuarter amb' ->
  dynamicMultiplierAt amb svc req = dynamicMultiplierAt amb' svc req.
Proof.
  intros Hq.
  unfold dynamicMultiplierAt, calculateDynamicMultiplier, mbind, M_bind, call,
    ret, mret, M_ret.
  cbn [fst]. rewrite Hq. reflexivity.
Qed.

Lemma discountAt_order build amb amb' svc req adjustedRate :
  RangeOk amb -> RangeOk amb' ->
  discountAt build amb svc req adjustedRate = discountAt build amb' svc req adjustedRate.
Proof.
  intros Hok Hok'.
  destruct (GetDiscounts (repo svc)) as [discounts|] eqn:Hd.
  - rewrite !(discountAt_terms build _ _ _ _ _ Hd).
    rewrite (getLoyaltyDiscount_order amb amb' _ _ Hok Hok'). reflexivity.
  - unfold discountAt, calculateDiscount, mbind, M_bind, call, ret, mret, M_ret.
    cbn [fst service repo]. rewrite Hd. reflexivity.
Qed.

(** C8 (amended): two calls with the same request in the same service state
    (the same rules and the same value of the feature flag) give the same
    result on base premium, adjusted
    rate, discount, final premium and factors, whatever the order in which
    the maps are walked, provided the two calls read a month of the same
    calendar quarter, or dynamic pricing is not enabled. *)
Theorem C8_same_quarter_same_premiums :
  forall (build : Build) (amb1 amb2 : Ambient) (w1 w2 : World) (req : QuoteRequest.t),
    RangeOk amb1 -> RangeOk amb2 ->
    service w1 = service w2 ->
    getCurrentQuarter amb1 = getCurrentQuarter amb2
    \/ dynamicPricingOn (service w1) = false ->
    samePremiums (fst (CalculateQuote build amb1 req w1)) (fst (CalculateQuote build amb2 req w2)).
Proof.
  intros build amb1 amb2 w1 w2 req Hok1 Hok2 Hsvc Hquarter.
  destruct (validateRequest req) as [err|] eqn:Hv.
  { unfold CalculateQuote. rewrite Hv. reflexivity. }
  destruct (GetBaseRateForPolicy (repo (service w1)) (QuoteRequest.PolicyType req))
    as [baseRate|cause] eqn:Hb.
  - destruct (GetBaseRateForPolicy_inv _ _ _ Hb) as (rules & rates & Hl & Hc & _).
    rewrite (CalculateQuote_ok build amb1 req w1 rules rates Hv Hl Hc).
    rewrite Hsvc in Hl.
    rewrite (CalculateQuote_ok build amb2 req w2 rules rates Hv Hl Hc).
    rewrite <- Hsvc.
    assert (Hdyn : dynamicMultiplierAt amb1 (service w1) req
                   = dynamicMultiplierAt amb2 (service w1) req).
    { destruct Hquarter as [Hq | Hoff].
      - apply dynamicMultiplierAt_quarter. exact Hq.
      - rewrite !dynamicMultiplierAt_off by exact Hoff. reflexivity. }
    rewrite Hdyn.
    rewrite (discountAt_order build amb1 amb2 _ _ _ Hok1 Hok2).
    cbn [fst samePremiums quoteFrom Quote.BaseRate Quote.AdjustedRate
         Quote.Discount Quote.FinalPremium Quote.Factors].
    repeat split; reflexivity.
  - rewrite (CalculateQuote_no_base_rate build amb1 req w1 cause Hv Hb).
    rewrite Hsvc in Hb.
    rewrite (CalculateQuote_no_base_rate build amb2 req w2 cause Hv Hb).
    reflexivity.
Qed.

Lemma C8_same_quarter_same_premiums_witness :
  samePremiums
    (fst (CalculateQuote sample.separate (sample.ambient 1) sample.request (sample.world true true)))
    (fst (CalculateQuote sample.separate (sample.ambientRev 3) sample.request (sample.world true true))).
Proof.
  apply C8_same_quarter_same_premiums.
  - apply sample_RangeOk.
  - apply sampleRev_RangeOk.
  - reflexivity.
  - left. reflexivity.
Defined.

(** C8 (as specified) fails: the README's request, priced twice in the same
    service state with dynamic pricing enabled, once in March (Q1, factor
    0.95) and once in April (Q2, factor 1.0), gets the same base premium but
    two adjusted rates, two discounts and two final premiums. *)
Lemma C8_counterexample :
  exists q1 q2 : Quote.t,
    fst (CalculateQuote sample.separate (sample.ambient 3) sample.request (sample.world true true))
    = Ok q1
    /\ fst (CalculateQuote sample.separate (sample.ambient 4) sample.request (sample.world true true))
       = Ok q2
    /\ Quote.BaseRate q1 = Quote.BaseRate q2
    /\ Quote.AdjustedRate q1 <> Quote.AdjustedRate q2
    /\ Quote.Discount q1 <> Quote.Discount q2
    /\ Quote.FinalPremium q1 <> Quote.FinalPremium q2.
Proof.
  eexists. eexists.
  split; [vm_compute; reflexivity|]. split; [vm_compute; reflexivity|].
  cbn [Quote.BaseRate Quote.AdjustedRate Quote.Discount Quote.FinalPremium].
  split; [reflexivity|].
  repeat split; intros H; floats_differ H.
Qed.

(** ** The rate table query *)

Lemma GetAllRates_loop (l : list (string * PolicyRates.t)) :
  forall acc : list Rate.t,
    fold_left
      (fun (rates : list Rate.t) '(policyType, policyRates) =>
         (rates ++ [Rate.mk policyType (PolicyRates.Base policyRates)
                            (PolicyRates.Coverage policyRates)])%list)
      l acc
    = (acc ++ map rateOf l)%list.
Proof.
  induction l as [|[policyType policyRates] l IH]; intros acc; cbn [fold_left map].
  - rewrite app_nil_r. reflexivity.
  - rewrite IH, <- app_assoc. reflexivity.
Qed.

Lemma GetAllRates_map amb r rules :
  pricingRules r = Some rules ->
  GetAllRates amb r
  = map rateOf (rangeBaseRates amb (map_to_list (PricingRules.BaseRates rules))).
Proof.
  intros Hl. unfold GetAllRates. rewrite Hl. apply GetAllRates_loop.
Qed.

Lemma CalculateQuote_service build amb req w :
  service (snd (CalculateQuote build amb req w)) = service w.
Proof.
  destruct (validateRequest req) as [err|] eqn:Hv.
  { unfold CalculateQuote. rewrite Hv. reflexivity. }
  destruct (GetBaseRateForPolicy (repo (service w)) (QuoteRequest.PolicyType req))
    as [baseRate|cause] eqn:Hb.
  - destruct (GetBaseRateForPolicy_inv _ _ _ Hb) as (rules & rates & Hl & Hc & _).
    rewrite (CalculateQuote_ok build amb req w rules rates Hv Hl Hc). reflexivity.
  - rewrite (CalculateQuote_no_base_rate build amb req w cause Hv Hb). reflexivity.
Qed.

Lemma GetRates_run amb w :
  GetRates amb w
  = ({| RatesResponse.Rates := GetAllRates amb (repo (service w));
        RatesResponse.Timestamp := nowTimestamp amb |},
     after w [ReadAllRates]).
Proof. reflexivity. Qed.

(** C9: [GetRates] changes nothing in the service state and returns, for
    loaded rules, the entries of [BaseRates] turned into rates one by one:
    every configured policy type appears with its base rate and its coverage
    table, every rate returned is such an entry, and no policy type appears
    twice (the order is that of the map walk).  A [CalculateQuote] call
    leaves the service state as it was, so a [GetRates] after it returns what
    it would have returned before. *)
Theorem C9_GetRates_projection :
  forall (amb : Ambient) (w : World),
    RangeOk amb ->
    let rates := RatesResponse.Rates (fst (GetRates amb w)) in
    service (snd (GetRates amb w)) = service w
    /\ (pricingRules (repo (service w)) = None -> rates = [])
    /\ (forall rules, pricingRules (repo (service w)) = Some rules ->
          rates ≡ₚ map rateOf (map_to_list (PricingRules.BaseRates rules))
          /\ NoDup (map Rate.PolicyType rates)
          /\ length rates = size (PricingRules.BaseRates rules)
          /\ (forall policyType policyRates,
                PricingRules.BaseRates rules !! policyType = Some policyRates ->
                Rate.mk policyType (PolicyRates.Base policyRates)
                        (PolicyRates.Coverage policyRates) ∈ rates)
          /\ (forall rate, rate ∈ rates ->
                exists policyRates,
                  PricingRules.BaseRates rules !! Rate.PolicyType rate = Some policyRates
                  /\ Rate.BaseRate rate = PolicyRates.Base policyRates
                  /\ Rate.Coverage rate = PolicyRates.Coverage policyRates))
    /\ (forall build amb' req,
          service (snd (CalculateQuote build amb' req w)) = service w
          /\ fst (GetRates amb (snd (CalculateQuote build amb' req w))) = fst (GetRates amb w)).
Proof.
  intros amb w [_ Hperm]. cbv zeta. rewrite GetRates_run.
  cbn [fst snd RatesResponse.Rates after service].
  split; [reflexivity|]. split; [|split].
  - intros Hnone. unfold GetAllRates. rewrite Hnone. reflexivity.
  - intros rules Hl. rewrite (GetAllRates_map amb _ rules Hl).
    set (m := PricingRules.BaseRates rules).
    assert (Hp : map rateOf (rangeBaseRates amb (map_to_list m))
                 ≡ₚ map rateOf (map_to_list m)).
    { apply Permutation_map. apply Hperm. }
    split; [exact Hp|]. split; [|split; [|split]].
    + rewrite Hp, map_map.
      apply (NoDup_fst_map_to_list m).
    + rewrite Hp, length_map. apply length_map_to_list.
    + intros policyType policyRates Hlook.
      apply (proj2 (elem_of_Permutation_proper _ _ _ Hp)).
      apply (list_elem_of_fmap_2 rateOf (map_to_list m) (policyType, policyRates)).
      apply elem_of_map_to_list. exact Hlook.
    + intros rate Hin.
      apply (proj1 (elem_of_Permutation_proper _ _ _ Hp)) in Hin.
      apply list_elem_of_fmap in Hin. destruct Hin as ([policyType policyRates] & -> & Hin).
      apply elem_of_map_to_list in Hin.
      exists policyRates. cbn. auto.
  - intros build amb' req. split; [apply CalculateQuote_service|].
    rewrite !GetRates_run. cbn [fst]. rewrite CalculateQuote_service. reflexivity.
Qed.

Lemma C9_GetRates_projection_witness :
  let rates :=
    RatesResponse.Rates (fst (GetRates (sample.ambientRev 1) (sample.world true true))) in
  length rates = 3%nat
  /\ Rate.mk "auto" 800 (PolicyRates.Coverage sample.autoRates) ∈ rates.
Proof.
  destruct (C9_GetRates_projection (sample.ambientRev 1) (sample.world true true)
              (sampleRev_RangeOk 1)) as (_ & _ & Hrates & _).
  destruct (Hrates (sample.rules true) eq_refl) as (_ & _ & Hlen & Hin & _).
  split.
  - rewrite Hlen. vm_compute. reflexivity.
  - apply (Hin "auto" sample.autoRates). vm_compute. reflexivity.
Defined.

(** * Further properties of the code *)

(** ** Which rule a rejected request is told about *)

(** [validateRequest] reports the first rule that is broken, in the order
    policy type, coverage amount, customer age, risk score: a request that
    breaks several rules is told about the first only. *)
Theorem validateRequest_reports_first_broken_rule :
  forall req : QuoteRequest.t,
    let policyType := QuoteRequest.PolicyType req in
    let coverage := QuoteRequest.CoverageAmount req in
    let age := QuoteRequest.CustomerAge req in
    let risk := QuoteRequest.RiskScore req in
    (~ supportedPolicyType policyType ->
     validateRequest req = Some (ErrInvalidPolicyType policyType))
    /\ (supportedPolicyType policyType -> coverage <= 0 ->
        validateRequest req = Some ErrCoverageAmount)
    /\ (supportedPolicyType policyType -> 0 < coverage ->
        age < 18 \/ 120 < age ->
        validateRequest req = Some ErrCustomerAge)
    /\ (supportedPolicyType policyType -> 0 < coverage -> 18 <= age <= 120 ->
        risk < 1 \/ 5 < risk ->
        validateRequest req = Some ErrRiskScore).
Proof.
  intros req. cbv zeta. unfold validateRequest. rewrite !Z.gtb_ltb.
  destruct (negb _ && negb _ && negb _) eqn:Hpt.
  - assert (Hnot : ~ supportedPolicyType (QuoteRequest.PolicyType req)).
    { rewrite <- supportedPolicyType_eqb. congruence. }
    split; [reflexivity|]. repeat split; intros Hs; destruct (Hnot Hs).
  - apply supportedPolicyType_eqb in Hpt.
    split; [intros Hnot; destruct (Hnot Hpt)|].
    destruct (Z.leb_spec (QuoteRequest.CoverageAmount req) 0);
      [split; [reflexivity|split; intros; lia]|].
    split; [intros; lia|].
    destruct (Z.ltb_spec (QuoteRequest.CustomerAge req) 18);
      [split; [reflexivity|intros; lia]|].
    destruct (Z.ltb_spec 120 (QuoteRequest.CustomerAge req));
      [split; [reflexivity|intros; lia]|].
    split; [intros; lia|]. intros _ _ _ Hrisk.
    destruct (Z.ltb_spec (QuoteRequest.RiskScore req) 1); [reflexivity|].
    destruct (Z.ltb_spec 5 (QuoteRequest.RiskScore req)); [reflexivity|lia].
Qed.

Lemma validateRequest_reports_first_broken_rule_witness :
  validateRequest (withAge (withLoyaltyYears sample.homeRequest 0) 200)
  = Some ErrCustomerAge.
Proof.
  apply (validateRequest_reports_first_broken_rule
           (withAge (withLoyaltyYears sample.homeRequest 0) 200)).
  - right. left. reflexivity.
  - reflexivity.
  - right. reflexivity.
Defined.


(** ** The repository accessors *)

(** The four per-policy accessors fail together: when the base-rate lookup
    fails (no rules loaded, or the policy type has no entry) the coverage,
    age and risk lookups fail with the same error whatever amount, age or
    score they are asked for; when it succeeds all three succeed. *)
Theorem repository_lookups_fail_together :
  forall (r : Repository) (policyType : string) (coverageAmount age riskScore : Z),
    match GetBaseRateForPolicy r policyType with
    | Err err =>
        ((err = ErrRulesNotLoaded /\ GetPricingRules r = None)
         \/ (err = ErrPolicyTypeNotFound policyType
             /\ exists rules, GetPricingRules r = Some rules
                  /\ PricingRules.BaseRates rules !! policyType = None))
        /\ GetCoverageMultiplier r policyType coverageAmount = Err err
        /\ GetAgeMultiplier r policyType age = Err err
        /\ GetRiskMultiplier r policyType riskScore = Err err
    | Ok _ =>
        is_ok (GetCoverageMultiplier r policyType coverageAmount) = true
        /\ is_ok (GetAgeMultiplier r policyType age) = true
        /\ is_ok (GetRiskMultiplier r policyType riskScore) = true
    end.
Proof.
  intros r policyType coverageAmount age riskScore.
  destruct (GetBaseRateForPolicy r policyType) as [baseRate|err] eqn:Hb.
  - destruct (GetBaseRateForPolicy_inv _ _ _ Hb) as (rules & rates & Hl & Hc & _).
    rewrite (GetCoverageMultiplier_ok _ _ _ _ Hl Hc),
      (GetAgeMultiplier_ok _ _ _ _ Hl Hc), (GetRiskMultiplier_ok _ _ _ _ Hl Hc).
    auto.
  - revert Hb.
    unfold GetBaseRateForPolicy, GetCoverageMultiplier, GetAgeMultiplier,
      GetRiskMultiplier, GetPricingRules.
    destruct (pricingRules r) as [rules|].
    + destruct (PricingRules.BaseRates rules !! policyType) as [rates|] eqn:Hc;
        [discriminate|].
      intros [= <-]. split; [right; eauto|auto].
    + intros [= <-]. split; [left; auto|auto].
Qed.

(** Ages that validation would refuse still get an answer from the
    repository: below 18 the age multiplier of a configured policy type is
    1.0 whatever the table holds, and every age from 65 on, however large,
    takes the entry 65+ (1.0 when the table has none). *)
Theorem GetAgeMultiplier_outside_brackets :
  forall (r : Repository) (rules : PricingRules.t) (policyType : string)
         (rates : PolicyRates.t) (age : Z),
    pricingRules r = Some rules ->
    PricingRules.BaseRates rules !! policyType = Some rates ->
    (age < 18 -> GetAgeMultiplier r policyType age = Ok Float64.one)
    /\ (65 <= age ->
        GetAgeMultiplier r policyType age
        = Ok (lookupOrOne (PolicyRates.AgeMultiplier rates) "65+")).
Proof.
  intros r rules policyType rates age Hl Hc.
  unfold GetAgeMultiplier, ageRangeOf, lookupOrOne. rewrite Hl, Hc.
  split; intros Hage.
  - repeat match goal with
           | |- context [Z.leb ?a ?b] => destruct (Z.leb_spec a b); try lia
           end; reflexivity.
  - repeat match goal with
           | |- context [Z.leb ?a ?b] => destruct (Z.leb_spec a b); try lia
           end.
    cbn [andb].
    destruct (PolicyRates.AgeMultiplier rates !! "65+"); [reflexivity|].
    destruct (String.eqb policyType "home"); reflexivity.
Qed.

Lemma GetAgeMultiplier_outside_brackets_witness :
  GetAgeMultiplier (repo (service (sample.world true true))) "life" 7
  = Ok Float64.one
  /\ GetAgeMultiplier (repo (service (sample.world true true))) "life" 500
     = Ok 3.5%float.
Proof.
  destruct (GetAgeMultiplier_outside_brackets
              (repo (service (sample.world true true))) (sample.rules true)
              "life" sample.lifeRates 7 eq_refl eq_refl) as [Hlow _].
  destruct (GetAgeMultiplier_outside_brackets
              (repo (service (sample.world true true))) (sample.rules true)
              "life" sample.lifeRates 500 eq_refl eq_refl) as [_ Hhigh].
  split; [apply Hlow; lia|]. rewrite Hhigh by lia. vm_compute. reflexivity.
Defined.

(** ** What [CalculateQuote] returns and touches *)

Lemma CalculateQuote_invalid build amb req w err :
  validateRequest req = Some err -> CalculateQuote build amb req w = (Err err, w).
Proof. intros Hv. unfold CalculateQuote. rewrite Hv. reflexivity. Qed.

Lemma GetBaseRateForPolicy_err r policyType err :
  GetBaseRateForPolicy r policyType = Err err ->
  (err = ErrRulesNotLoaded /\ pricingRules r = None)
  \/ (err = ErrPolicyTypeNotFound policyType
      /\ exists rules, pricingRules r = Some rules
           /\ PricingRules.BaseRates rules !! policyType = None).
Proof.
  unfold GetBaseRateForPolicy.
  destruct (pricingRules r) as [rules|]; [|intros [= <-]; left; auto].
  destruct (PricingRules.BaseRates rules !! policyType) as [rates|] eqn:Hc;
    [discriminate|].
  intros [= <-]. right. eauto.
Qed.

(** The messages a caller can get from [CalculateQuote] are these and no
    others: one of the four validation messages, each for its own cause, or,
    for a request that passes validation, the base-rate failure: pricing
    rules not loaded, or policy type not found for one of auto, home and
    life.  The wrappers of the coverage, age and risk lookups never show. *)
Theorem CalculateQuote_error_messages :
  forall (build : Build) (amb : Ambient) (req : QuoteRequest.t) (w : World) (err : error),
    fst (CalculateQuote build amb req w) = Err err ->
    let policyType := QuoteRequest.PolicyType req in
    (~ supportedPolicyType policyType
     /\ Error err
        = "invalid policy type: " ++ policyType ++ " (must be auto, home, or life)")
    \/ (QuoteRequest.CoverageAmount req <= 0
        /\ Error err = "coverage amount must be greater than 0")
    \/ ((QuoteRequest.CustomerAge req < 18 \/ 120 < QuoteRequest.CustomerAge req)
        /\ Error err = "customer age must be between 18 and 120")
    \/ ((QuoteRequest.RiskScore req < 1 \/ 5 < QuoteRequest.RiskScore req)
        /\ Error err = "risk score must be between 1 and 5")
    \/ (validRequest req
        /\ GetPricingRules (repo (service w)) = None
        /\ Error err = "failed to get base rate: pricing rules not loaded")
    \/ (validRequest req
        /\ (exists rules, GetPricingRules (repo (service w)) = Some rules
              /\ PricingRules.BaseRates rules !! policyType = None)
        /\ Error err = "failed to get base rate: policy type " ++ policyType
                       ++ " not found"
        /\ Error err ∈ ["failed to get base rate: policy type auto not found";
                        "failed to get base rate: policy type home not found";
                        "failed to get base rate: policy type life not found"]).
Proof.
  intros build amb req w err Herr policyType. subst policyType.
  destruct (validateRequest req) as [cause|] eqn:Hv.
  - rewrite (CalculateQuote_invalid build amb req w cause Hv) in Herr.
    injection Herr as <-.
    destruct (validateRequest_cause req cause Hv)
      as [[-> H] | [[-> H] | [[-> H] | [-> H]]]]; cbn [Error]; auto 10.
  - destruct (GetBaseRateForPolicy (repo (service w)) (QuoteRequest.PolicyType req))
      as [baseRate|cause] eqn:Hb.
    + destruct (GetBaseRateForPolicy_inv _ _ _ Hb) as (rules & rates & Hl & Hc & _).
      rewrite (CalculateQuote_ok build amb req w rules rates Hv Hl Hc) in Herr.
      discriminate.
    + rewrite (CalculateQuote_no_base_rate build amb req w cause Hv Hb) in Herr.
      injection Herr as <-.
      pose proof (proj1 (validateRequest_None req) Hv) as Hvalid.
      destruct (GetBaseRateForPolicy_err _ _ _ Hb) as [[-> Hnone] | [-> Hmiss]].
      * do 4 right. left. auto.
      * do 5 right. split; [exact Hvalid|]. split; [exact Hmiss|].
        split; [reflexivity|].
        destruct Hvalid as ([E | [E | E]] & _); rewrite E; cbn;
          rewrite !elem_of_cons; auto.
Qed.

Lemma CalculateQuote_error_messages_witness :
  exists err,
    fst (CalculateQuote sample.separate (sample.ambient 1) sample.homeRequest sample.autoOnlyWorld)
    = Err err
    /\ Error err = "failed to get base rate: policy type home not found".
Proof.
  eexists. split; [vm_compute; reflexivity|].
  destruct (CalculateQuote_error_messages sample.separate (sample.ambient 1) sample.homeRequest
              sample.autoOnlyWorld _ ltac:(vm_compute; reflexivity))
    as [[H _] | [[H _] | [[H _] | [[H _] | [(_ & H & _) | (_ & _ & H & _)]]]]].
  - exfalso. apply H. right. left. reflexivity.
  - exfalso. revert H. vm_compute. intros H. apply H. reflexivity.
  - exfalso. revert H. vm_compute. intros [H | H]; discriminate H.
  - exfalso. revert H. vm_compute. intros [H | H]; discriminate H.
  - discriminate H.
  - exact H.
Defined.

(** The repository calls of one [CalculateQuote]: none at all for a request
    that fails validation, the base-rate lookup alone when that fails, and
    otherwise the four lookups, the dynamic-pricing read exactly when the
    feature flag is set, and the discounts, in this order.  The service
    itself is left as it was, and the rate table is never listed. *)
Theorem CalculateQuote_repository_calls :
  forall (build : Build) (amb : Ambient) (req : QuoteRequest.t) (w : World),
    let result := fst (CalculateQuote build amb req w) in
    let w' := snd (CalculateQuote build amb req w) in
    exists calls : list Read,
      reads w' = (reads w ++ calls)%list
      /\ service w' = service w
      /\ (validateRequest req <> None -> calls = [])
      /\ (validateRequest req = None -> is_ok result = false ->
          calls = [ReadBaseRate (QuoteRequest.PolicyType req)])
      /\ (is_ok result = true -> calls = quoteReads (service w) req)
      /\ (ReadDynamicPricing ∈ calls <->
          is_ok result = true /\ IsDynamicRatesEnabled (flags (service w)) = true)
      /\ ReadAllRates ∉ calls.
Proof.
  intros build amb req w. cbv zeta.
  destruct (validateRequest req) as [cause|] eqn:Hv.
  - rewrite (CalculateQuote_invalid build amb req w cause Hv). cbn [fst snd is_ok].
    exists []. rewrite app_nil_r.
    split; [reflexivity|]. split; [reflexivity|]. split; [reflexivity|].
    split; [discriminate|]. split; [discriminate|].
    split; [|apply not_elem_of_nil].
    split; [intros Hin; inversion Hin|intros [Hok _]; discriminate].
  - destruct (GetBaseRateForPolicy (repo (service w)) (QuoteRequest.PolicyType req))
      as [baseRate|cause] eqn:Hb.
    + destruct (GetBaseRateForPolicy_inv _ _ _ Hb) as (rules & rates & Hl & Hc & _).
      rewrite (CalculateQuote_ok build amb req w rules rates Hv Hl Hc).
      cbn [fst snd is_ok after reads service].
      exists (quoteReads (service w) req).
      split; [reflexivity|]. split; [reflexivity|]. split; [congruence|].
      split; [discriminate|]. split; [reflexivity|].
      unfold quoteReads.
      destruct (IsDynamicRatesEnabled (flags (service w))); cbn [app];
        rewrite ?elem_of_cons, ?elem_of_nil.
      * split; [tauto|]. intros [H|[H|[H|[H|[H|[H|H]]]]]]; try discriminate H.
        exact H.
      * split.
        -- split; [|intros [_ H]; discriminate H].
           intros [H|[H|[H|[H|[H|H]]]]]; try discriminate H. destruct H.
        -- intros [H|[H|[H|[H|[H|H]]]]]; try discriminate H. exact H.
    + rewrite (CalculateQuote_no_base_rate build amb req w cause Hv Hb).
      cbn [fst snd is_ok after reads service].
      exists [ReadBaseRate (QuoteRequest.PolicyType req)].
      split; [reflexivity|]. split; [reflexivity|]. split; [congruence|].
      split; [reflexivity|]. split; [discriminate|].
      rewrite !elem_of_cons, !elem_of_nil.
      split.
      * split; [intros [H|H]; [discriminate H|destruct H]|intros [H _]; discriminate H].
      * intros [H|H]; [discriminate H|exact H].
Qed.

Lemma CalculateQuote_repository_calls_witness :
  reads (snd (CalculateQuote sample.separate (sample.ambient 1) sample.homeRequest sample.autoOnlyWorld))
  = [ReadBaseRate "home"].
Proof.
  destruct (CalculateQuote_repository_calls sample.separate (sample.ambient 1) sample.homeRequest
              sample.autoOnlyWorld) as (calls & Hreads & _ & _ & Hfail & _).
  rewrite Hreads. rewrite Hfail; reflexivity.
Defined.

(** ** The quote record *)

Lemma CalculateQuote_Ok_inv build amb req w q :
  fst (CalculateQuote build amb req w) = Ok q ->
  exists rules rates discount,
    pricingRules (repo (service w)) = Some rules
    /\ PricingRules.BaseRates rules !! QuoteRequest.PolicyType req = Some rates
    /\ q = quoteFrom amb req (PolicyRates.Base rates)
             (lookupOrOne (PolicyRates.Coverage rates)
                (fmt.Sprintf_d (QuoteRequest.CoverageAmount req)))
             (spec_resolveAgeMultiplier (QuoteRequest.PolicyType req)
                (PolicyRates.AgeMultiplier rates) (QuoteRequest.CustomerAge req))
             (lookupOrOne (PolicyRates.RiskMultiplier rates)
                (fmt.Sprintf_d (QuoteRequest.RiskScore req)))
             (dynamicMultiplierAt amb (service w) req) discount
    /\ discount = discountAt build amb (service w) req (Quote.AdjustedRate q).
Proof.
  intros Hq.
  destruct (CalculateQuote_inv build amb req w q Hq) as (rules & rates & Hv & Hl & Hc).
  rewrite (CalculateQuote_ok build amb req w rules rates Hv Hl Hc) in Hq.
  cbn [fst] in Hq. injection Hq as <-.
  exists rules, rates. eexists. split; [exact Hl|]. split; [exact Hc|].
  split; reflexivity.
Qed.

Lemma substring_length (s : string) :
  forall n : nat, (n <= String.length s)%nat ->
    String.length (String.substring 0 n s) = n.
Proof.
  induction s as [|c s IH]; intros [|n] Hn; cbn in *; try reflexivity; try lia.
  rewrite IH by lia. reflexivity.
Qed.

(** The bookkeeping fields of a quote: it repeats the policy type and the
    coverage amount of the request; its id is Q- followed by the first eight
    characters of the UUID, ten characters in all; it expires thirty days
    after the first of the two clock readings, which is never more than
    thirty days after its creation time when the clock does not run
    backwards. *)
Theorem CalculateQuote_bookkeeping :
  forall (build : Build) (amb : Ambient) (req : QuoteRequest.t) (w : World) (q : Quote.t),
    fst (CalculateQuote build amb req w) = Ok q ->
    Quote.PolicyType q = QuoteRequest.PolicyType req
    /\ Quote.CoverageAmount q = QuoteRequest.CoverageAmount req
    /\ Quote.QuoteID q = "Q-" ++ String.substring 0 8 (newUUID amb)
    /\ ((8 <= String.length (newUUID amb))%nat ->
        String.length (Quote.QuoteID q) = 10%nat)
    /\ Quote.CreatedAt q = nowCreatedAt amb
    /\ Quote.ValidUntil q = nowValidUntil amb + 30 * 24 * 3600 * 10 ^ 9
    /\ Quote.ValidUntil q - Quote.CreatedAt q
       = thirtyDays - (nowCreatedAt amb - nowValidUntil amb)
    /\ (nowValidUntil amb <= nowCreatedAt amb ->
        Quote.ValidUntil q <= Quote.CreatedAt q + thirtyDays).
Proof.
  intros build amb req w q Hq.
  destruct (CalculateQuote_Ok_inv build amb req w q Hq)
    as (rules & rates & discount & _ & _ & -> & _).
  cbn [quoteFrom Quote.PolicyType Quote.CoverageAmount Quote.QuoteID
       Quote.CreatedAt Quote.ValidUntil].
  split; [reflexivity|]. split; [reflexivity|]. split; [reflexivity|].
  split; [|split; [reflexivity|split; [reflexivity|]]].
  - intros Hlen.
    change (String.length (generateQuoteID amb))
      with (S (S (String.length (String.substring 0 8 (newUUID amb))))).
    rewrite substring_length by exact Hlen. reflexivity.
  - unfold thirtyDays. lia.
Qed.

Lemma CalculateQuote_bookkeeping_witness :
  exists q,
    fst (CalculateQuote sample.separate (sample.ambient 1) sample.request (sample.world true true))
    = Ok q
    /\ Quote.QuoteID q = "Q-a3b4c5d6"
    /\ Quote.ValidUntil q - Quote.CreatedAt q = thirtyDays - 1.
Proof.
  eexists. split; [vm_compute; reflexivity|].
  destruct (CalculateQuote_bookkeeping sample.separate (sample.ambient 1) sample.request
              (sample.world true true) _ ltac:(vm_compute; reflexivity))
    as (_ & _ & Hid & _ & _ & _ & Hvalid & _).
  split; [exact Hid|exact Hvalid].
Defined.

(** ** Discounts that do not apply *)

Lemma discountAt_none build amb svc req adjustedRate :
  QuoteRequest.MultiPolicy req = false ->
  QuoteRequest.LoyaltyYears req <= 0 ->
  QuoteRequest.RiskScore req <> 1 ->
  QuoteRequest.PaperlessBill req = false ->
  discountAt build amb svc req adjustedRate = Float64.zero.
Proof.
  intros Hm Hy Hr Hp.
  unfold discountAt, calculateDiscount, mbind, M_bind, call, ret, mret, M_ret.
  cbn [fst service repo]. rewrite Hm, Hp, Z.gtb_ltb.
  destruct (Z.ltb_spec 0 (QuoteRequest.LoyaltyYears req)); [lia|].
  destruct (Z.eqb_spec (QuoteRequest.RiskScore req) 1); [lia|].
  destruct (GetDiscounts (repo svc)); reflexivity.
Qed.

(** A customer whom no discount applies to (no multi-policy, no loyalty
    years above 0, a risk score other than 1, no paperless billing) pays the
    adjusted rate itself: the discount is 0.0 and the final premium is the
    adjusted rate, bit for bit, whatever the schedule holds. *)
Theorem no_discount_pays_adjusted_rate :
  forall (build : Build) (amb : Ambient) (req : QuoteRequest.t) (w : World) (q : Quote.t),
    fst (CalculateQuote build amb req w) = Ok q ->
    QuoteRequest.MultiPolicy req = false ->
    QuoteRequest.LoyaltyYears req <= 0 ->
    QuoteRequest.RiskScore req <> 1 ->
    QuoteRequest.PaperlessBill req = false ->
    Quote.Discount q = Float64.zero
    /\ Quote.FinalPremium q = Quote.AdjustedRate q.
Proof.
  intros build amb req w q Hq Hm Hy Hr Hp.
  destruct (CalculateQuote_Ok_inv build amb req w q Hq)
    as (rules & rates & discount & _ & _ & -> & Hd).
  rewrite (discountAt_none build amb (service w) req _ Hm Hy Hr Hp) in Hd. subst discount.
  cbn [quoteFrom Quote.Discount Quote.FinalPremium Quote.AdjustedRate].
  split; [reflexivity|]. apply Float64Facts.sub_0_r.
Qed.

Lemma no_discount_pays_adjusted_rate_witness :
  exists q,
    fst (CalculateQuote sample.separate (sample.ambient 1) (sample.loyaltyOnly 0) sample.steepWorld)
    = Ok q
    /\ Quote.FinalPremium q = Quote.AdjustedRate q.
Proof.
  eexists. split; [vm_compute; reflexivity|].
  apply (no_discount_pays_adjusted_rate sample.separate (sample.ambient 1) (sample.loyaltyOnly 0)
           sample.steepWorld _ ltac:(vm_compute; reflexivity)).
  - reflexivity.
  - vm_compute. discriminate.
  - vm_compute. discriminate.
  - reflexivity.
Defined.

(** ** Fields of the request that are not read *)

Lemma discountAt_no_loyalty build amb svc req adjustedRate years :
  years <= 0 ->
  discountAt build amb svc (withLoyaltyYears req years) adjustedRate
  = discountAt build amb svc (withLoyaltyYears req 0) adjustedRate.
Proof.
  intros Hy.
  unfold discountAt, calculateDiscount, mbind, M_bind, call, ret, mret, M_ret.
  cbn [fst service repo withLoyaltyYears QuoteRequest.LoyaltyYears
       QuoteRequest.MultiPolicy QuoteRequest.RiskScore QuoteRequest.PaperlessBill].
  rewrite Z.gtb_ltb. destruct (Z.ltb_spec 0 years); [lia|]. reflexivity.
Qed.

Lemma CalculateQuote_no_loyalty build amb req w years :
  years <= 0 ->
  CalculateQuote build amb (withLoyaltyYears req years) w
  = CalculateQuote build amb (withLoyaltyYears req 0) w.
Proof.
  intros Hy.
  destruct (validateRequest req) as [cause|] eqn:Hv.
  { rewrite (CalculateQuote_invalid build amb (withLoyaltyYears req years) w cause Hv).
    rewrite (CalculateQuote_invalid build amb (withLoyaltyYears req 0) w cause Hv).
    reflexivity. }
  destruct (GetBaseRateForPolicy (repo (service w)) (QuoteRequest.PolicyType req))
    as [baseRate|cause] eqn:Hb.
  - destruct (GetBaseRateForPolicy_inv _ _ _ Hb) as (rules & rates & Hl & Hc & _).
    rewrite (CalculateQuote_ok build amb (withLoyaltyYears req years) w rules rates Hv Hl Hc).
    rewrite (CalculateQuote_ok build amb (withLoyaltyYears req 0) w rules rates Hv Hl Hc).
    rewrite (discountAt_no_loyalty build amb (service w) req _ years Hy). reflexivity.
  - rewrite (CalculateQuote_no_base_rate build amb (withLoyaltyYears req years) w cause Hv Hb).
    rewrite (CalculateQuote_no_base_rate build amb (withLoyaltyYears req 0) w cause Hv Hb).
    reflexivity.
Qed.

(** Two fields of the request change nothing: the customer id is never
    read, and all loyalty years at or below 0, negative ones included, are
    treated alike.  Result and repository calls are the same. *)
Theorem CalculateQuote_unread_fields :
  forall (build : Build) (amb : Ambient) (req : QuoteRequest.t) (w : World),
    (forall customerID,
        CalculateQuote build amb (withCustomerID req customerID) w = CalculateQuote build amb req w)
    /\ (forall years years',
          years <= 0 -> years' <= 0 ->
          CalculateQuote build amb (withLoyaltyYears req years) w
          = CalculateQuote build amb (withLoyaltyYears req years') w).
Proof.
  intros build amb req w. split.
  - intros customerID. destruct req. reflexivity.
  - intros years years' Hy Hy'.
    rewrite (CalculateQuote_no_loyalty build amb req w years Hy).
    rewrite (CalculateQuote_no_loyalty build amb req w years' Hy'). reflexivity.
Qed.

Lemma CalculateQuote_unread_fields_witness :
  CalculateQuote sample.separate (sample.ambient 1) (withLoyaltyYears sample.request (-3))
    (sample.world true true)
  = CalculateQuote sample.separate (sample.ambient 1) (withLoyaltyYears sample.request 0)
      (sample.world true true).
Proof.
  apply (CalculateQuote_unread_fields sample.separate (sample.ambient 1) sample.request
           (sample.world true true)); lia.
Defined.

(** ** Loyalty thresholds *)

Lemma meetsThreshold_mono years years' key :
  years <= years' -> meetsThreshold years key = true ->
  meetsThreshold years' key = true.
Proof. unfold meetsThreshold. rewrite !Z.geb_leb, !Z.leb_le. lia. Qed.

(** More loyalty years never lower the loyalty discount: for any schedule
    and any order of the map walk, the discount found for fewer years is not
    above the one found for more. *)
Theorem getLoyaltyDiscount_monotone :
  forall (amb : Ambient) (discounts : Discounts.t) (years years' : Z),
    RangeOk amb ->
    years <= years' ->
    Float64.gt (getLoyaltyDiscount amb years discounts)
               (getLoyaltyDiscount amb years' discounts) = false.
Proof.
  intros amb discounts years years' Hok Hle.
  destruct (getLoyaltyDiscount_spec amb years discounts Hok) as [Hbest _].
  destruct (getLoyaltyDiscount_spec amb years' discounts Hok) as [Hbest' Hmax'].
  destruct Hbest as [-> | (_ & key & Hlook & Hk)].
  - destruct Hbest' as [-> | (Hpos & _)].
    + apply Float64Facts.gt_irrefl.
    + apply Float64Facts.gt_asym. exact Hpos.
  - apply (Hmax' key _ Hlook). eapply meetsThreshold_mono; eassumption.
Qed.

Lemma getLoyaltyDiscount_monotone_witness :
  Float64.gt (getLoyaltyDiscount (sample.ambientRev 1) 3 sample.discounts)
             (getLoyaltyDiscount (sample.ambientRev 1) 7 sample.discounts) = false.
Proof.
  apply (getLoyaltyDiscount_monotone (sample.ambientRev 1) sample.discounts 3 7
           (sampleRev_RangeOk 1)).
  lia.
Defined.

(** *** Reading a threshold from a key *)

Lemma byteIs_false b c : N_of_ascii c <> b -> fmt.byteIs b c = false.
Proof. unfold fmt.byteIs. intros H. apply N.eqb_neq. exact H. Qed.

Lemma byteIn_false lo hi c :
  (N_of_ascii c < lo \/ hi < N_of_ascii c)%N -> fmt.byteIn lo hi c = false.
Proof.
  unfold fmt.byteIn. intros H. cbv zeta.
  apply andb_false_iff. rewrite !N.leb_gt. exact H.
Qed.

(** A printable ASCII character is no space and starts no encoded space. *)
Lemma SkipSpace_printable c r :
  (33 <= N_of_ascii c <= 126)%N ->
  fmt.SkipSpace (String c r) = Some (String c r).
Proof.
  intros Hc. cbn [fmt.SkipSpace].
  rewrite (byteIs_false 10 c), (byteIn_false 9 13 c), (byteIs_false 32 c),
    (byteIs_false 194 c), (byteIs_false 225 c), (byteIs_false 226 c),
    (byteIs_false 227 c) by lia.
  cbn [orb andb].
  destruct r as [|c2 [|c3 r3]]; reflexivity.
Qed.

Lemma isLetter_range c :
  isLetter c = true ->
  (65 <= N_of_ascii c <= 90 \/ 97 <= N_of_ascii c <= 122)%N.
Proof.
  unfold isLetter, fmt.byteIn. cbv zeta.
  rewrite orb_true_iff, !andb_true_iff, !N.leb_le. tauto.
Qed.

Lemma Sscanf_d_wordKey key v :
  wordKey key = true -> fmt.Sscanf_d key v = v.
Proof.
  destruct key as [|c r]; [reflexivity|]. cbn [wordKey]. intros Hc.
  apply isLetter_range in Hc. unfold fmt.Sscanf_d.
  rewrite SkipSpace_printable by lia.
  rewrite (byteIs_false 45 c), (byteIs_false 43 c) by lia.
  assert (Hd : fmt.isDigit c = false).
  { unfold fmt.isDigit. cbv zeta. apply andb_false_iff. rewrite !N.leb_gt. lia. }
  rewrite Hd. reflexivity.
Qed.

(** A loyalty key that is a word (it starts with a letter, or is empty)
    holds no number: the scan fails, the error is dropped and the threshold
    stays 0.  The fraction under such a key is therefore open to every
    customer with 0 years or more: the loyalty discount found is never below
    it. *)
Theorem loyalty_word_key_is_threshold_zero :
  forall (amb : Ambient) (discounts : Discounts.t) (key : string)
         (fraction : float) (years : Z),
    RangeOk amb ->
    wordKey key = true ->
    Discounts.LoyaltyYears discounts !! key = Some fraction ->
    meetsThreshold years key = (years >=? 0)
    /\ (0 <= years ->
        Float64.gt fraction (getLoyaltyDiscount amb years discounts) = false).
Proof.
  intros amb discounts key fraction years Hok Hword Hlook.
  assert (Hm : meetsThreshold years key = (years >=? 0)).
  { unfold meetsThreshold. rewrite (Sscanf_d_wordKey key 0 Hword). reflexivity. }
  split; [exact Hm|]. intros Hy.
  destruct (getLoyaltyDiscount_spec amb years discounts Hok) as [_ Hmax].
  apply (Hmax key fraction Hlook). rewrite Hm. apply Z.geb_le. lia.
Qed.

Lemma loyalty_word_key_is_threshold_zero_witness :
  Float64.gt 0.5 (getLoyaltyDiscount (sample.ambient 1) 1 sample.goldDiscounts)
  = false.
Proof.
  apply (loyalty_word_key_is_threshold_zero (sample.ambient 1) sample.goldDiscounts
           "gold" 0.5%float 1 (sample_RangeOk 1)).
  - reflexivity.
  - vm_compute. reflexivity.
  - lia.
Defined.

(** *** Numerals written by [Sprintf] and read by [Sscanf] *)

Lemma pretty_N_char_digit d :
  (d < 10)%N ->
  fmt.isDigit (pretty_N_char d) = true /\ fmt.digitVal (pretty_N_char d) = Z.of_N d.
Proof.
  intros Hd.
  assert (d = 0 \/ d = 1 \/ d = 2 \/ d = 3 \/ d = 4 \/ d = 5 \/ d = 6 \/ d = 7
          \/ d = 8 \/ d = 9)%N as Hcases by lia.
  repeat destruct Hcases as [-> | Hcases]; [..|subst d]; split; reflexivity.
Qed.

Lemma pretty_N_go_app x :
  forall s t, pretty_N_go x s ++ t = pretty_N_go x (s ++ t).
Proof.
  induction (N.lt_wf_0 x) as [x _ IH]. intros s t.
  destruct (N.eq_dec x 0%N) as [-> | Hx].
  - rewrite !pretty_N_go_0. reflexivity.
  - rewrite !(pretty_N_go_step x) by lia.
    rewrite IH by (apply N.div_lt; lia). reflexivity.
Qed.

Lemma pretty_N_go_head x :
  forall s, (0 < x)%N ->
    exists c r, pretty_N_go x s = String c r /\ fmt.isDigit c = true.
Proof.
  induction (N.lt_wf_0 x) as [x _ IH]. intros s Hx.
  rewrite pretty_N_go_step by exact Hx.
  destruct (N.eq_dec (x `div` 10)%N 0%N) as [E | Hq].
  - rewrite E, pretty_N_go_0. eexists. eexists. split; [reflexivity|].
    apply pretty_N_char_digit. apply N.mod_lt. discriminate.
  - apply IH; [apply N.div_lt; lia|apply N.neq_0_lt_0; exact Hq].
Qed.

(** Scanning the digits of [x] appends them to the number read so far. *)
Lemma scanNumber_pretty_N_go x :
  forall s, exists k : Z,
    0 <= k /\
    forall acc, fmt.scanNumber (pretty_N_go x s) acc
                = fmt.scanNumber s (acc * 10 ^ k + Z.of_N x).
Proof.
  induction (N.lt_wf_0 x) as [x _ IH]. intros s.
  destruct (N.eq_dec x 0%N) as [-> | Hx].
  - exists 0. split; [lia|]. intros acc. rewrite pretty_N_go_0. f_equal. cbn. lia.
  - rewrite pretty_N_go_step by lia.
    destruct (IH (x `div` 10)%N ltac:(apply N.div_lt; lia)
                 (String (pretty_N_char (x `mod` 10)) s)) as (k & Hk & Hscan).
    exists (k + 1). split; [lia|]. intros acc. rewrite Hscan.
    destruct (pretty_N_char_digit (x `mod` 10)%N) as [Hd Hval];
      [apply N.mod_lt; discriminate|].
    cbn [fmt.scanNumber]. rewrite Hd, Hval. f_equal.
    rewrite Z.pow_add_r by lia.
    pose proof (N.div_mod x 10 ltac:(discriminate)) as Hdm.
    apply (f_equal Z.of_N) in Hdm. rewrite N2Z.inj_add, N2Z.inj_mul in Hdm.
    change (Z.of_N 10) with 10 in Hdm. lia.
Qed.

Lemma scanNumber_noDigitAhead suffix acc :
  noDigitAhead suffix = true -> fmt.scanNumber suffix acc = acc.
Proof.
  destruct suffix as [|c r]; [reflexivity|]. cbn [noDigitAhead fmt.scanNumber].
  destruct (fmt.isDigit c); [discriminate|reflexivity].
Qed.

Lemma isDigit_range c :
  fmt.isDigit c = true -> (48 <= N_of_ascii c <= 57)%N.
Proof.
  unfold fmt.isDigit. cbv zeta. rewrite andb_true_iff, !N.leb_le. tauto.
Qed.

Lemma Sscanf_d_unsigned c r v :
  fmt.isDigit c = true ->
  fmt.Sscanf_d (String c r) v
  = if (fmt.minInt64 <=? fmt.scanNumber (String c r) 0)
       && (fmt.scanNumber (String c r) 0 <=? fmt.maxInt64)
    then fmt.scanNumber (String c r) 0 else v.
Proof.
  intros Hc. pose proof (isDigit_range c Hc) as Hrange.
  unfold fmt.Sscanf_d. rewrite SkipSpace_printable by lia.
  rewrite (byteIs_false 45 c), (byteIs_false 43 c) by lia.
  cbv beta iota zeta. rewrite Hc. reflexivity.
Qed.

Lemma Sscanf_d_minus c r v :
  fmt.isDigit c = true ->
  fmt.Sscanf_d (String "-" (String c r)) v
  = if (fmt.minInt64 <=? - fmt.scanNumber (String c r) 0)
       && (- fmt.scanNumber (String c r) 0 <=? fmt.maxInt64)
    then - fmt.scanNumber (String c r) 0 else v.
Proof.
  intros Hc. unfold fmt.Sscanf_d.
  rewrite SkipSpace_printable by (vm_compute; split; discriminate).
  change (fmt.byteIs 45 "-") with true.
  cbv beta iota zeta. rewrite Hc. reflexivity.
Qed.

Lemma Sscanf_d_numeral (x : N) (suffix : string) (v : Z) :
  (0 < x)%N ->
  noDigitAhead suffix = true ->
  (Z.of_N x <= fmt.maxInt64 -> fmt.Sscanf_d (pretty_N_go x suffix) v = Z.of_N x)
  /\ (fmt.minInt64 <= - Z.of_N x ->
      fmt.Sscanf_d (String "-" (pretty_N_go x suffix)) v = - Z.of_N x).
Proof.
  intros Hx Hsuffix.
  destruct (pretty_N_go_head x suffix Hx) as (c & r & Hhead & Hc).
  destruct (scanNumber_pretty_N_go x suffix) as (k & _ & Hscan).
  specialize (Hscan 0). rewrite (scanNumber_noDigitAhead _ _ Hsuffix) in Hscan.
  rewrite Z.mul_0_l, Z.add_0_l, Hhead in Hscan.
  rewrite Hhead. split.
  - intros Hmax. rewrite (Sscanf_d_unsigned c r v Hc), Hscan.
    assert (Hin : (fmt.minInt64 <=? Z.of_N x) && (Z.of_N x <=? fmt.maxInt64) = true).
    { apply andb_true_iff. rewrite !Z.leb_le. unfold fmt.minInt64. lia. }
    rewrite Hin. reflexivity.
  - intros Hmin. rewrite (Sscanf_d_minus c r v Hc), Hscan.
    assert (Hin : (fmt.minInt64 <=? - Z.of_N x) && (- Z.of_N x <=? fmt.maxInt64) = true).
    { apply andb_true_iff. rewrite !Z.leb_le. unfold fmt.maxInt64. lia. }
    rewrite Hin. reflexivity.
Qed.

(** What [Sprintf] writes with [%d], [Sscanf] reads back with [%d]: for
    every int64 [n], scanning the decimal form of [n] gives [n] again, also
    when something that does not start with a digit follows it.  A loyalty
    key such as 10 or 10+ is therefore the threshold 10: the years meet it
    exactly when they are 10 or more. *)
Theorem Sscanf_reads_back_Sprintf :
  forall (n : Z) (suffix : string) (v years : Z),
    fmt.minInt64 <= n <= fmt.maxInt64 ->
    noDigitAhead suffix = true ->
    fmt.Sscanf_d (fmt.Sprintf_d n ++ suffix) v = n
    /\ meetsThreshold years (fmt.Sprintf_d n ++ suffix) = (years >=? n).
Proof.
  intros n suffix v years [Hmin Hmax] Hsuffix.
  assert (Hscan : forall v, fmt.Sscanf_d (fmt.Sprintf_d n ++ suffix) v = n).
  { clear v. intros v. unfold fmt.Sprintf_d, pretty, pretty_Z.
    destruct n as [|p|p].
    - change (fmt.Sscanf_d (String "0" suffix) v = 0).
      rewrite Sscanf_d_unsigned by reflexivity.
      cbn [fmt.scanNumber]. change (fmt.isDigit "0") with true. cbv iota.
      rewrite (scanNumber_noDigitAhead _ _ Hsuffix). reflexivity.
    - change (fmt.Sscanf_d (pretty (Npos p) ++ suffix) v = Zpos p).
      unfold pretty, pretty_N. rewrite decide_False by discriminate.
      rewrite pretty_N_go_app. cbn [String.append].
      apply (Sscanf_d_numeral (Npos p) suffix v); [reflexivity|exact Hsuffix|exact Hmax].
    - change (fmt.Sscanf_d (String "-" (pretty (Npos p) ++ suffix)) v = Zneg p).
      unfold pretty, pretty_N. rewrite decide_False by discriminate.
      rewrite pretty_N_go_app. cbn [String.append].
      apply (Sscanf_d_numeral (Npos p) suffix v); [reflexivity|exact Hsuffix|exact Hmin]. }
  split; [apply Hscan|]. unfold meetsThreshold. rewrite Hscan. reflexivity.
Qed.

Lemma Sscanf_reads_back_Sprintf_witness :
  fmt.Sscanf_d "10+" 0 = 10 /\ meetsThreshold 9 "10+" = false.
Proof.
  apply (Sscanf_reads_back_Sprintf 10 "+" 0 9).
  - vm_compute. split; discriminate.
  - reflexivity.
Defined.

(** ** The feature flag *)

(** [SetDynamicRates] followed by [IsDynamicRatesEnabled] gives back what
    was set, unless the service holds no flags object: then setting does
    nothing and the flag reads false.  Setting touches neither the
    repository nor the log of its calls, the last of two settings wins, and
    after the flag is set to false (or without a flags object, whatever was
    set) every quote has dynamic multiplier 1.0 and an adjusted rate equal
    to its base premium. *)
Theorem SetDynamicRates_round_trip :
  forall (w : World) (enabled : bool),
    let w' := snd (setDynamicRates enabled w) in
    repo (service w') = repo (service w)
    /\ reads w' = reads w
    /\ fst (dynamicRatesEnabled w')
       = match flags (service w) with Some _ => enabled | None => false end
    /\ (forall again, snd (setDynamicRates again w') = snd (setDynamicRates again w))
    /\ (forall amb, fst (GetRates amb w') = fst (GetRates amb w))
    /\ (enabled = false \/ flags (service w) = None ->
        forall build amb req q,
          fst (CalculateQuote build amb req w') = Ok q ->
          Quote.AdjustedRate q = Quote.BaseRate q
          /\ exists f, Quote.Factors q = Some f
                       /\ Factors.DynamicMultiplier f = Float64.one).
Proof.
  intros w enabled. cbv zeta.
  unfold setDynamicRates, dynamicRatesEnabled.
  cbn [fst snd service repo flags reads].
  split; [reflexivity|]. split; [reflexivity|].
  split; [destruct (flags (service w)); reflexivity|].
  split; [intros again; destruct (flags (service w)); reflexivity|].
  split; [reflexivity|].
  intros Hoff build amb req q Hq.
  destruct (CalculateQuote_Ok_inv build amb req _ q Hq)
    as (rules & rates & discount & _ & _ & -> & _).
  cbn [service flags repo].
  assert (Hone : forall svc, svc = {| repo := repo (service w);
                                      flags := SetDynamicRates (flags (service w)) enabled |} ->
                 dynamicMultiplierAt amb svc req = Float64.one).
  { intros svc ->. apply dynamicMultiplierAt_disabled. left. cbn [flags].
    destruct Hoff as [-> | ->]; [destruct (flags (service w))|]; reflexivity. }
  rewrite (Hone _ eq_refl).
  cbn [quoteFrom Quote.AdjustedRate Quote.BaseRate Quote.Factors].
  split; [apply Float64Facts.mul_1_r|].
  eexists. split; reflexivity.
Qed.

Lemma SetDynamicRates_round_trip_witness :
  fst (dynamicRatesEnabled (snd (setDynamicRates true sample.noFlagsWorld))) = false
  /\ forall q,
       fst (CalculateQuote sample.separate (sample.ambient 1) sample.request
              (snd (setDynamicRates true sample.noFlagsWorld))) = Ok q ->
       Quote.AdjustedRate q = Quote.BaseRate q.
Proof.
  destruct (SetDynamicRates_round_trip sample.noFlagsWorld true)
    as (_ & _ & Hread & _ & _ & Hoff).
  split; [exact Hread|]. intros q Hq.
  apply (Hoff (or_intror eq_refl) sample.separate (sample.ambient 1) sample.request q Hq).
Defined.

(** [Initialize] never fails.  A service built on the flags it returns has
    dynamic rates switched on exactly when FEATURE_DYNAMIC_RATES is one of
    1, t, T, TRUE, true and True; any other value, readable as a boolean or
    not, and an unset variable leave them off.  The API key plays no part. *)
Theorem Initialize_reads_the_environment :
  forall (getenv : string -> string) (apiKey : string) (r : Repository)
         (log : list Read),
    exists flags : Flags,
      Initialize getenv apiKey = Ok flags
      /\ (forall apiKey', Initialize getenv apiKey' = Ok flags)
      /\ (fst (dynamicRatesEnabled
                 {| service := NewPricingService r (Some flags); reads := log |})
          = true
          <-> getenv "FEATURE_DYNAMIC_RATES"
              ∈ ["1"; "t"; "T"; "TRUE"; "true"; "True"]).
Proof.
  intros getenv apiKey r log. eexists. split; [reflexivity|].
  split; [reflexivity|].
  unfold dynamicRatesEnabled, NewPricingService, ParseBool.
  cbn [fst service flags IsDynamicRatesEnabled].
  destruct (String.eqb_spec (getenv "FEATURE_DYNAMIC_RATES") "") as [E | _];
    cbn [negb].
  - rewrite E. cbn [dynamicRates]. split; [discriminate|].
    rewrite !elem_of_cons, elem_of_nil. intros H. 
    repeat destruct H as [H | H]; try discriminate H. destruct H.
  - destruct (bool_decide_reflect
                (getenv "FEATURE_DYNAMIC_RATES" ∈ ["1"; "t"; "T"; "TRUE"; "true"; "True"]))
      as [Hin | Hout].
    + cbn [dynamicRates]. tauto.
    + destruct (bool_decide _); cbn [dynamicRates];
        (split; [discriminate|intros Hin; destruct (Hout Hin)]).
Qed.

Lemma Initialize_reads_the_environment_witness :
  exists flags,
    Initialize (sample.getenv "yes") "dev-mode" = Ok flags
    /\ IsDynamicRatesEnabled (Some flags) = false.
Proof.
  destruct (Initialize_reads_the_environment (sample.getenv "yes") "dev-mode"
              {| pricingRules := None |} [])
    as (flags & Hinit & _ & Hon).
  exists flags. split; [exact Hinit|].
  apply not_true_is_false. intros Hflag. apply Hon in Hflag.
  change (sample.getenv "yes" "FEATURE_DYNAMIC_RATES") with "yes" in Hflag.
  rewrite !elem_of_cons, elem_of_nil in Hflag.
  repeat destruct Hflag as [Hflag | Hflag]; try discriminate Hflag. destruct Hflag.
Defined.

(** ** Loading the rules *)

(** [NewRepository] reads the file pricing-rules.json of the data directory
    and returns a repository only when the file could be read and decoded;
    the rules of that repository are the decoded ones, so none of its
    accessors ever reports that the pricing rules are not loaded.  When the
    file cannot be read or decoded no repository is returned and the error
    is that of the host behind the prefix failed to load pricing rules. *)
Theorem NewRepository_loads_or_fails :
  forall (host : Host) (dataPath : string),
    let filePath := Join host dataPath "pricing-rules.json" in
    match NewRepository host dataPath with
    | Ok r =>
        (exists data rules,
            ReadFile host filePath = Ok data
            /\ Unmarshal host data = Ok rules
            /\ GetPricingRules r = Some rules
            /\ GetDiscounts r = Some (PricingRules.Discounts rules)
            /\ GetDynamicPricing r = Some (PricingRules.DynamicPricing rules))
        /\ (forall policyType,
              GetBaseRateForPolicy r policyType <> Err ErrRulesNotLoaded)
        /\ (forall build amb req w,
              repo (service w) = r ->
              fst (CalculateQuote build amb req w)
              <> Err (ErrWrap "failed to get base rate" ErrRulesNotLoaded))
    | Err err =>
        exists cause,
          err = ErrWrap "failed to load pricing rules" cause
          /\ Error err = "failed to load pricing rules: " ++ Error cause
          /\ (ReadFile host filePath = Err cause
              \/ exists data, ReadFile host filePath = Ok data
                              /\ Unmarshal host data = Err cause)
    end.
Proof.
  intros host dataPath. cbv zeta. unfold NewRepository, loadPricingRules.
  destruct (ReadFile host (Join host dataPath "pricing-rules.json"))
    as [data|cause] eqn:Hread.
  - destruct (Unmarshal host data) as [rules|cause] eqn:Hdecode.
    + split; [|split].
      * exists data, rules. auto.
      * intros policyType. unfold GetBaseRateForPolicy. cbn [pricingRules].
        destruct (PricingRules.BaseRates rules !! policyType); discriminate.
      * intros build amb req w Hrepo Herr.
        destruct (validateRequest req) as [cause|] eqn:Hv.
        { rewrite (CalculateQuote_invalid build amb req w cause Hv) in Herr.
          injection Herr as ->. apply validateRequest_Some in Hv. discriminate. }
        destruct (GetBaseRateForPolicy (repo (service w)) (QuoteRequest.PolicyType req))
          as [baseRate|cause] eqn:Hb.
        -- destruct (GetBaseRateForPolicy_inv _ _ _ Hb) as (rules' & rates & Hl & Hc & _).
           rewrite (CalculateQuote_ok build amb req w rules' rates Hv Hl Hc) in Herr.
           discriminate.
        -- rewrite (CalculateQuote_no_base_rate build amb req w cause Hv Hb) in Herr.
           injection Herr as ->.
           destruct (GetBaseRateForPolicy_err _ _ _ Hb) as [[_ Hnone] | [Hcontra _]];
             [|discriminate].
           rewrite Hrepo in Hnone. discriminate.
    + exists cause. split; [reflexivity|]. split; [reflexivity|]. right. eauto.
  - exists cause. split; [reflexivity|]. split; [reflexivity|]. left. reflexivity.
Qed.

Lemma NewRepository_loads_or_fails_witness :
  exists err cause,
    NewRepository sample.host "/nowhere" = Err err
    /\ err = ErrWrap "failed to load pricing rules" cause
    /\ ReadFile sample.host "/nowhere/pricing-rules.json" = Err cause.
Proof.
  pose proof (NewRepository_loads_or_fails sample.host "/nowhere") as Hnew.
  cbv zeta in Hnew.
  destruct (NewRepository sample.host "/nowhere") as [r|err] eqn:Hrun;
    [discriminate Hrun|].
  destruct Hnew as (cause & -> & _ & [Hread | (data & Hread & _)]).
  - exists (ErrWrap "failed to load pricing rules" cause), cause.
    split; [reflexivity|]. split; [reflexivity|exact Hread].
  - discriminate Hread.
Defined.

(** ** The rate table and the quotes *)

Lemma GetRates_rates amb w rules :
  RangeOk amb ->
  pricingRules (repo (service w)) = Some rules ->
  forall rate,
    rate ∈ RatesResponse.Rates (fst (GetRates amb w))
    <-> exists policyType policyRates,
          PricingRules.BaseRates rules !! policyType = Some policyRates
          /\ rate = rateOf (policyType, policyRates).
Proof.
  intros [_ Hperm] Hl rate. rewrite GetRates_run.
  cbn [fst RatesResponse.Rates]. rewrite (GetAllRates_map amb _ rules Hl).
  change (map rateOf ?l) with (rateOf <$> l). rewrite list_elem_of_fmap.
  split.
  - intros ([policyType policyRates] & -> & Hin).
    apply (proj1 (elem_of_Permutation_proper _ _ _ (Hperm _))) in Hin.
    apply elem_of_map_to_list in Hin. eauto.
  - intros (policyType & policyRates & Hlook & ->).
    exists (policyType, policyRates). split; [reflexivity|].
    apply (proj2 (elem_of_Permutation_proper _ _ _ (Hperm _))).
    apply elem_of_map_to_list. exact Hlook.
Qed.

(** The rates that [GetRates] lists are the rates that quotes are made
    from: a request that passes validation gets a quote exactly when its
    policy type is listed, and the quote then uses the listed base rate and
    looks its coverage multiplier up in the listed coverage table. *)
Theorem GetRates_lists_what_is_quoted :
  forall (build : Build) (amb amb' : Ambient) (w : World) (req : QuoteRequest.t),
    RangeOk amb ->
    validRequest req ->
    let rates := RatesResponse.Rates (fst (GetRates amb w)) in
    (is_ok (fst (CalculateQuote build amb' req w)) = true
     <-> exists rate, rate ∈ rates
                      /\ Rate.PolicyType rate = QuoteRequest.PolicyType req)
    /\ (forall q, fst (CalculateQuote build amb' req w) = Ok q ->
          exists rate f,
            rate ∈ rates
            /\ Rate.PolicyType rate = Quote.PolicyType q
            /\ Quote.Factors q = Some f
            /\ Factors.BaseMultiplier f = Rate.BaseRate rate
            /\ Factors.CoverageMultiplier f
               = lookupOrOne (Rate.Coverage rate)
                   (fmt.Sprintf_d (Quote.CoverageAmount q))).
Proof.
  intros build amb amb' w req Hok Hvalid. cbv zeta.
  apply validateRequest_None in Hvalid.
  split.
  - split.
    + destruct (fst (CalculateQuote build amb' req w)) as [q|err] eqn:Hq; [|discriminate].
      intros _.
      destruct (CalculateQuote_inv build amb' req w q Hq) as (rules & rates & _ & Hl & Hc).
      exists (rateOf (QuoteRequest.PolicyType req, rates)).
      split; [|reflexivity].
      apply (GetRates_rates amb w rules Hok Hl). eauto.
    + intros (rate & Hin & Hpt).
      destruct (pricingRules (repo (service w))) as [rules|] eqn:Hl.
      * apply (GetRates_rates amb w rules Hok Hl) in Hin.
        destruct Hin as (policyType & policyRates & Hlook & ->).
        cbn in Hpt. subst policyType.
        rewrite (CalculateQuote_ok build amb' req w rules policyRates Hvalid Hl Hlook).
        reflexivity.
      * rewrite GetRates_run in Hin. unfold GetAllRates in Hin.
        cbn [fst RatesResponse.Rates] in Hin. rewrite Hl in Hin. inversion Hin.
  - intros q Hq.
    destruct (CalculateQuote_Ok_inv build amb' req w q Hq)
      as (rules & rates & discount & Hl & Hc & -> & _).
    exists (rateOf (QuoteRequest.PolicyType req, rates)). eexists.
    split; [apply (GetRates_rates amb w rules Hok Hl); eauto|].
    split; [reflexivity|]. split; [reflexivity|]. split; reflexivity.
Qed.

Lemma GetRates_lists_what_is_quoted_witness :
  exists rate,
    rate ∈ RatesResponse.Rates
             (fst (GetRates (sample.ambientRev 1) (sample.world true true)))
    /\ Rate.PolicyType rate = "auto"
    /\ Rate.BaseRate rate = 800%float.
Proof.
  destruct (GetRates_lists_what_is_quoted sample.separate (sample.ambientRev 1) (sample.ambient 1)
              (sample.world true true) sample.request (sampleRev_RangeOk 1))
    as [_ Hquote].
  { apply validateRequest_None. reflexivity. }
  edestruct Hquote as (rate & f & Hin & Hpt & Hf & Hbase & _).
  { vm_compute. reflexivity. }
  exists rate. split; [exact Hin|]. split; [exact Hpt|].
  rewrite <- Hbase. cbn in Hf. injection Hf as <-. reflexivity.
Defined.

(** ** The HTTP handlers *)

Lemma respondWithError_always (code : Z) (message : string) :
  handlers.respondWithError code message
  = {| handlers.code := code;
       handlers.contentType := Some "application/json";
       handlers.body := handlers.JSON (handlers.ErrorPayload message) |}.
Proof. reflexivity. Qed.

(** The quote handler answers 400 with a JSON error, and nothing else, for
    every request it cannot quote: Invalid request body when the body does
    not decode (the service is then never called), otherwise the message of
    the error of [CalculateQuote].  A missing base rate and rules that are
    not loaded are answered 400 like a bad request, never with a 5xx. *)
Theorem GetQuote_handler_rejections :
  forall (build : Build) (amb : Ambient) (decoded : result QuoteRequest.t) (w : World),
    let response := fst (handlers.GetQuote build amb decoded w) in
    let w' := snd (handlers.GetQuote build amb decoded w) in
    let badRequest message :=
      {| handlers.code := 400;
         handlers.contentType := Some "application/json";
         handlers.body := handlers.JSON (handlers.ErrorPayload message) |} in
    (forall err, decoded = Err err ->
       response = badRequest "Invalid request body" /\ w' = w)
    /\ (forall req err,
          decoded = Ok req -> fst (CalculateQuote build amb req w) = Err err ->
          response = badRequest (Error err)
          /\ w' = snd (CalculateQuote build amb req w))
    /\ (handlers.code response = 400
        <-> (exists err, decoded = Err err)
            \/ exists req err, decoded = Ok req
                               /\ fst (CalculateQuote build amb req w) = Err err).
Proof.
  intros build amb decoded w. cbv zeta. unfold handlers.GetQuote.
  destruct decoded as [req|err0].
  - unfold mbind, M_bind.
    destruct (CalculateQuote build amb req w) as [[q|err] w1] eqn:Hrun; cbn [fst snd].
    + split; [discriminate|].
      split; [intros req' err [= <-]; rewrite Hrun; discriminate|].
      unfold ret, mret, M_ret. cbn [fst].
      unfold handlers.respondWithJSON.
      destruct (handlers.marshals _); cbn [handlers.code];
        (split; [discriminate|]);
        (intros [(err & H) | (req' & err & [= <-] & H)];
         [discriminate H|rewrite Hrun in H; discriminate H]).
    + split; [discriminate|].
      split.
      * intros req' err' [= <-]. rewrite Hrun. intros [= <-]. split; reflexivity.
      * unfold ret, mret, M_ret. cbn [fst]. rewrite respondWithError_always.
        cbn [handlers.code]. split; [|reflexivity].
        intros _. right. exists req, err. rewrite Hrun. auto.
  - cbn [fst snd]. split; [intros err _; split; reflexivity|].
    split; [discriminate|].
    split; [intros _; left; eauto|reflexivity].
Qed.

Lemma GetQuote_handler_rejections_witness :
  fst (handlers.GetQuote sample.separate (sample.ambient 1) (Ok sample.homeRequest)
         sample.autoOnlyWorld)
  = {| handlers.code := 400;
       handlers.contentType := Some "application/json";
       handlers.body :=
         handlers.JSON
           (handlers.ErrorPayload
              "failed to get base rate: policy type home not found") |}.
Proof.
  destruct (GetQuote_handler_rejections sample.separate (sample.ambient 1) (Ok sample.homeRequest)
              sample.autoOnlyWorld) as (_ & Hservice & _).
  destruct (Hservice sample.homeRequest
              (ErrWrap "failed to get base rate" (ErrPolicyTypeNotFound "home"))
              eq_refl) as [Hresponse _].
  - vm_compute. reflexivity.
  - exact Hresponse.
Defined.

(** A quote that was computed is answered 200 with the quote as JSON when
    every number in it is finite.  When a premium left the range of float64
    (an infinite base premium, say) the quote cannot be encoded: the answer
    is 500 with the plain text Error encoding response and no JSON content
    type, although the repository was read as for any quote.  Finite rates
    do not rule this out. *)
Theorem GetQuote_handler_quote_or_encoding_error :
  forall (build : Build) (amb : Ambient) (req : QuoteRequest.t) (w : World) (q : Quote.t),
    fst (CalculateQuote build amb req w) = Ok q ->
    let response := fst (handlers.GetQuote build amb (Ok req) w) in
    let w' := snd (handlers.GetQuote build amb (Ok req) w) in
    w' = after w (quoteReads (service w) req)
    /\ (handlers.marshals (handlers.QuotePayload q) = true ->
        response = {| handlers.code := 200;
                      handlers.contentType := Some "application/json";
                      handlers.body := handlers.JSON (handlers.QuotePayload q) |})
    /\ (handlers.marshals (handlers.QuotePayload q) = false ->
        response = {| handlers.code := 500;
                      handlers.contentType := None;
                      handlers.body := handlers.Text "Error encoding response" |})
    /\ (handlers.jsonFloat (Quote.BaseRate q) = false
        \/ handlers.jsonFloat (Quote.AdjustedRate q) = false
        \/ handlers.jsonFloat (Quote.Discount q) = false
        \/ handlers.jsonFloat (Quote.FinalPremium q) = false ->
        handlers.code response = 500).
Proof.
  intros build amb req w q Hq. cbv zeta.
  destruct (CalculateQuote_inv build amb req w q Hq) as (rules & rates & Hv & Hl & Hc).
  pose proof (CalculateQuote_ok build amb req w rules rates Hv Hl Hc) as Hrun.
  cbv zeta in Hrun. rewrite Hrun in Hq. cbn [fst] in Hq. injection Hq as Hq.
  unfold handlers.GetQuote, mbind, M_bind. rewrite Hrun, Hq.
  unfold ret, mret, M_ret. cbn [fst snd].
  split; [reflexivity|].
  unfold handlers.respondWithJSON.
  split; [intros ->; reflexivity|]. split; [intros ->; reflexivity|].
  intros Hbad.
  assert (Hm : handlers.marshals (handlers.QuotePayload q) = false).
  { cbn [handlers.marshals].
    destruct Hbad as [-> | [-> | [-> | ->]]];
      rewrite ?andb_false_r; reflexivity. }
  rewrite Hm. reflexivity.
Qed.

Lemma GetQuote_handler_quote_or_encoding_error_witness :
  handlers.code (fst (handlers.GetQuote sample.separate (sample.ambient 1) (Ok sample.request)
                        sample.hugeWorld)) = 500.
Proof.
  pose proof (fun q Hq =>
                proj2 (proj2 (proj2
                  (GetQuote_handler_quote_or_encoding_error sample.separate (sample.ambient 1)
                     sample.request sample.hugeWorld q Hq)))) as Hbad.
  cbv zeta in Hbad.
  eapply Hbad; [vm_compute; reflexivity|].
  left. vm_compute. reflexivity.
Defined.

Lemma marshals_rates amb w rules :
  RangeOk amb ->
  pricingRules (repo (service w)) = Some rules ->
  finiteRates rules ->
  handlers.marshals (handlers.RatesPayload (fst (GetRates amb w))) = true.
Proof.
  intros Hok Hl Hfinite. cbn [handlers.marshals].
  apply forallb_forall. intros rate Hin. apply list_elem_of_In in Hin.
  apply (GetRates_rates amb w rules Hok Hl) in Hin.
  destruct Hin as (policyType & policyRates & Hlook & ->).
  destruct (Hfinite policyType policyRates Hlook) as [Hbase Hcoverage].
  cbn [rateOf Rate.BaseRate Rate.Coverage fst snd]. rewrite Hbase. cbn [andb].
  apply forallb_forall. intros [key multiplier] Hentry.
  apply list_elem_of_In, elem_of_map_to_list in Hentry.
  exact (Hcoverage key multiplier Hentry).
Qed.

(** The rates handler never rejects a request.  With rules whose rates and
    coverage multipliers are all finite it answers 200 with the list that
    the service returns, as JSON; without rules it answers 200 with an empty
    list; the only other answer is the 500 of a failed encoding.  Each call
    reads the rate table once and changes nothing in the service. *)
Theorem GetRates_handler_response :
  forall (amb : Ambient) (w : World),
    RangeOk amb ->
    let response := fst (handlers.GetRates amb w) in
    let ok payload :=
      {| handlers.code := 200;
         handlers.contentType := Some "application/json";
         handlers.body := handlers.JSON (handlers.RatesPayload payload) |} in
    snd (handlers.GetRates amb w) = after w [ReadAllRates]
    /\ (pricingRules (repo (service w)) = None ->
        response = ok {| RatesResponse.Rates := [];
                         RatesResponse.Timestamp := nowTimestamp amb |})
    /\ (forall rules,
          pricingRules (repo (service w)) = Some rules -> finiteRates rules ->
          response = ok (fst (GetRates amb w)))
    /\ (handlers.code response = 200 \/ handlers.code response = 500).
Proof.
  intros amb w Hok. cbv zeta.
  unfold handlers.GetRates, mbind, M_bind, ret, mret, M_ret.
  rewrite GetRates_run. cbn [fst snd].
  split; [reflexivity|]. split; [|split].
  - intros Hnone. unfold GetAllRates. rewrite Hnone. reflexivity.
  - intros rules Hl Hfinite. unfold handlers.respondWithJSON.
    pose proof (marshals_rates amb w rules Hok Hl Hfinite) as Hm.
    rewrite GetRates_run in Hm. cbn [fst] in Hm. rewrite Hm. reflexivity.
  - unfold handlers.respondWithJSON.
    destruct (handlers.marshals _); [left|right]; reflexivity.
Qed.

Lemma GetRates_handler_response_witness :
  snd (handlers.GetRates (sample.ambientRev 1) sample.autoOnlyWorld)
  = after sample.autoOnlyWorld [ReadAllRates].
Proof.
  apply (GetRates_handler_response (sample.ambientRev 1) sample.autoOnlyWorld
           (sampleRev_RangeOk 1)).
Defined.

(** ** Premiums that are not below zero *)

Lemma notBelowZero_one : notBelowZero Float64.one.
Proof. reflexivity. Qed.

Lemma notBelowZero_lookupOrOne table key :
  notBelowZeroTable table -> notBelowZero (lookupOrOne table key).
Proof.
  intros Htable. unfold lookupOrOne.
  destruct (table !! key) as [x|] eqn:Hlook; cbn [default].
  - exact (Htable key x Hlook).
  - exact notBelowZero_one.
Qed.

Lemma notBelowZero_age policyType table age :
  notBelowZeroTable table ->
  notBelowZero (spec_resolveAgeMultiplier policyType table age).
Proof.
  intros Htable. unfold spec_resolveAgeMultiplier.
  destruct (bracketOf age) as [b|]; [|exact notBelowZero_one].
  destruct (table !! bracketKey b) as [x|] eqn:Hlook; [exact (Htable _ x Hlook)|].
  destruct (alternateKey policyType b) as [key|]; [|exact notBelowZero_one].
  apply (notBelowZero_lookupOrOne table key Htable).
Qed.

(** The loyalty discount is never below zero, whatever the schedule holds
    and in whatever order it is walked. *)
Lemma notBelowZero_loyalty amb years discounts :
  notBelowZero (getLoyaltyDiscount amb years discounts).
Proof.
  unfold getLoyaltyDiscount.
  destruct (loyalty_fold_spec years
              (rangeLoyaltyYears amb (map_to_list (Discounts.LoyaltyYears discounts)))
              Float64.zero) as [[-> | [Hpos _]] _].
  - reflexivity.
  - apply Float64Facts.gt_asym. exact Hpos.
Qed.

Lemma notBelowZero_mulAdd build site total adjustedRate fraction :
  notBelowZero total -> notBelowZero adjustedRate -> notBelowZero fraction ->
  notBelowZero (mulAdd build site total adjustedRate fraction).
Proof.
  intros Htotal Hrate Hfraction. unfold mulAdd.
  destruct (fuses build site).
  - apply Float64Facts.fma_not_negative; assumption.
  - apply Float64Facts.add_not_negative; [exact Htotal|].
    apply Float64Facts.mul_not_negative; assumption.
Qed.

Lemma notBelowZero_accumulate build adjustedRate (terms : list (Site * float)) :
  notBelowZero adjustedRate ->
  Forall (fun term => notBelowZero term.2) terms ->
  forall total, notBelowZero total ->
    notBelowZero (accumulate build adjustedRate terms total).
Proof.
  intros Hrate Hterms. unfold accumulate.
  induction Hterms as [|term terms Hterm Hterms IH]; intros total Htotal;
    cbn [fold_left].
  - exact Htotal.
  - apply IH. apply notBelowZero_mulAdd; assumption.
Qed.

Lemma notBelowZero_dynamic amb svc req rules :
  pricingRules (repo svc) = Some rules ->
  notBelowZeroRules rules ->
  notBelowZero (dynamicMultiplierAt amb svc req).
Proof.
  intros Hl (_ & _ & _ & _ & Hseason & Hmarket & Hclaims).
  destruct (IsDynamicRatesEnabled (flags svc)) eqn:Hflag.
  - assert (Hdp : GetDynamicPricing (repo svc)
                  = Some (PricingRules.DynamicPricing rules)).
    { unfold GetDynamicPricing. rewrite Hl. reflexivity. }
    destruct (DynamicPricing.Enabled (PricingRules.DynamicPricing rules)) eqn:Hen.
    + rewrite (dynamicMultiplierAt_enabled amb svc req _ Hflag Hdp Hen).
      repeat apply Float64Facts.mul_not_negative;
        [apply notBelowZero_lookupOrOne; exact Hseason|exact Hmarket
        |apply notBelowZero_lookupOrOne; exact Hclaims].
    + rewrite dynamicMultiplierAt_disabled; [exact notBelowZero_one|].
      right. intros dynamicPricing. rewrite Hdp. intros [= <-]. exact Hen.
  - rewrite dynamicMultiplierAt_disabled; [exact notBelowZero_one|].
    left. exact Hflag.
Qed.

Lemma notBelowZero_discount build amb svc req adjustedRate rules :
  pricingRules (repo svc) = Some rules ->
  notBelowZeroRules rules ->
  notBelowZero adjustedRate ->
  notBelowZero (discountAt build amb svc req adjustedRate).
Proof.
  intros Hl (_ & Hmulti & Hlow & Hpaperless & _) Hadj.
  rewrite (discountAt_terms build amb svc req adjustedRate (PricingRules.Discounts rules))
    by (unfold GetDiscounts; rewrite Hl; reflexivity).
  apply notBelowZero_accumulate; [exact Hadj| |reflexivity].
  unfold applicableDiscounts.
  repeat apply Forall_app_2;
    match goal with
    | |- Forall _ (if ?b then _ else _) => destruct b
    end;
    try apply Forall_nil_2;
    apply Forall_cons_2; try apply Forall_nil_2; cbn [snd]; try assumption.
  apply notBelowZero_loyalty.
Qed.

(** With rules in which no rate, multiplier, factor or discount fraction is
    below zero (the loyalty fractions may be anything), no quote has a base
    premium, an adjusted rate or a discount below zero.  Underflow, overflow
    and rounding do not change this; the final premium alone can be below
    zero, when the discount is above the adjusted rate. *)
Theorem premiums_not_below_zero :
  forall (build : Build) (amb : Ambient) (req : QuoteRequest.t) (w : World)
         (rules : PricingRules.t) (q : Quote.t),
    pricingRules (repo (service w)) = Some rules ->
    notBelowZeroRules rules ->
    fst (CalculateQuote build amb req w) = Ok q ->
    notBelowZero (Quote.BaseRate q)
    /\ notBelowZero (Quote.AdjustedRate q)
    /\ notBelowZero (Quote.Discount q).
Proof.
  intros build amb req w rules q Hl Hrules Hq.
  destruct (CalculateQuote_Ok_inv build amb req w q Hq)
    as (rules' & rates & discount & Hl' & Hc & -> & Hd).
  rewrite Hl in Hl'. injection Hl' as <-.
  destruct Hrules as (Hrates & Hrest).
  destruct (Hrates _ rates Hc) as (Hbase & Hcoverage & Hage & Hrisk).
  cbn [quoteFrom Quote.BaseRate Quote.AdjustedRate Quote.Discount] in *.
  assert (Hpremium :
    notBelowZero
      (PolicyRates.Base rates
       * lookupOrOne (PolicyRates.Coverage rates)
           (fmt.Sprintf_d (QuoteRequest.CoverageAmount req))
       * spec_resolveAgeMultiplier (QuoteRequest.PolicyType req)
           (PolicyRates.AgeMultiplier rates) (QuoteRequest.CustomerAge req)
       * lookupOrOne (PolicyRates.RiskMultiplier rates)
           (fmt.Sprintf_d (QuoteRequest.RiskScore req)))%float).
  { repeat apply Float64Facts.mul_not_negative;
      [exact Hbase|apply notBelowZero_lookupOrOne; exact Hcoverage
      |apply notBelowZero_age; exact Hage
      |apply notBelowZero_lookupOrOne; exact Hrisk]. }
  assert (Hadjusted :
    notBelowZero
      (PolicyRates.Base rates
       * lookupOrOne (PolicyRates.Coverage rates)
           (fmt.Sprintf_d (QuoteRequest.CoverageAmount req))
       * spec_resolveAgeMultiplier (QuoteRequest.PolicyType req)
           (PolicyRates.AgeMultiplier rates) (QuoteRequest.CustomerAge req)
       * lookupOrOne (PolicyRates.RiskMultiplier rates)
           (fmt.Sprintf_d (QuoteRequest.RiskScore req))
       * dynamicMultiplierAt amb (service w) req)%float).
  { apply Float64Facts.mul_not_negative; [exact Hpremium|].
    apply (notBelowZero_dynamic amb (service w) req rules Hl).
    split; assumption. }
  split; [exact Hpremium|]. split; [exact Hadjusted|].
  rewrite Hd.
  apply (notBelowZero_discount build amb (service w) req _ rules Hl);
    [split; assumption|exact Hadjusted].
Qed.

Lemma premiums_not_below_zero_witness :
  exists q,
    fst (CalculateQuote sample.separate (sample.ambientRev 7) sample.request (sample.world true true))
    = Ok q
    /\ notBelowZero (Quote.Discount q).
Proof.
  eexists. split; [vm_compute; reflexivity|].
  apply (premiums_not_below_zero sample.separate (sample.ambientRev 7) sample.request
           (sample.world true true) (sample.rules true) _ eq_refl).
  - apply (bool_decide_unpack _). vm_compute. reflexivity.
  - vm_compute. reflexivity.
Defined.
